(** * Team availability and conversation assignment: a shallow embedding

    The development follows the two server modules of the repository:

    - [lib/data/userAvailability.ts]: the availability store, its status
      updates with history bookkeeping, the activity ping, the analytics
      fold and the scheduled sweep;
    - the auto-assignment job: workload gate, expertise matching, scoring,
      selection with the rotation cursor, and the commit of the decision.

    Database tables are lists of rows, [Date] values are integers
    (milliseconds since the epoch), JavaScript numbers that only ever hold
    counts are integers, and numbers produced by a division are rationals.
    Every asynchronous function is a state-passing computation over [World]
    that either returns or throws.  The clock is a parameter [now] of the
    operations that read it.  The broadcast and the expertise matcher are
    parameters of the sections that call them.

    The rotation cursor is an integer as well; the statements that give the
    exact position it leads to bound it by [MAX_SAFE_INTEGER], the range in
    which the addition of the code is exact.  A call runs as one step, so a
    history of operations is a history of calls that follow one another; the
    one place where the code awaits between a lookup and the transaction
    that uses it is split in [updateInTransaction], and
    [overlappingUpdates] runs two such calls interleaved.

    The first part holds the embedding of the code, the notions the
    statements use and the sample data; the second part holds the
    properties. *)

From Stdlib Require Import ZArith List String Bool Lia QArith.
From Stdlib Require Import DecimalString Sorted.
Import ListNotations.

Local Open Scope string_scope.
Local Open Scope Z_scope.

(** ** Small helpers for JavaScript idioms *)

(** [a || b] on strings: the empty string is falsy. *)
Definition str_or (a b : string) : string :=
  if String.eqb a "" then b else a.

(** [Array.prototype.sort(cmp)]: the sort is stable, so for a consistent
    comparator its result is the one of a stable insertion sort.  An element
    stays in front of the elements it does not compare greater than. *)
Fixpoint js_insert {A : Type} (cmp : A -> A -> Z) (x : A) (l : list A) : list A :=
  match l with
  | [] => [x]
  | y :: l' => if cmp x y <=? 0 then x :: y :: l' else y :: js_insert cmp x l'
  end.

Fixpoint js_sort {A : Type} (cmp : A -> A -> Z) (l : list A) : list A :=
  match l with
  | [] => []
  | x :: l' => js_insert cmp x (js_sort cmp l')
  end.

(** [arr[i]] for a numeric index: [undefined] outside the array. *)
Definition js_index {A : Type} (l : list A) (i : Z) : option A :=
  if i <? 0 then None else nth_error l (Z.to_nat i).

(** [Number.MAX_SAFE_INTEGER].  A JavaScript number that holds a count
    or a cursor is modelled as an integer; up to this value [n + 1] is exact
    in the code, so the integer the model computes is the number the code
    computes. *)
Definition MAX_SAFE_INTEGER : Z := 9007199254740991.

(** Template literals print numbers in decimal. *)
Definition show_Z (z : Z) : string :=
  NilZero.string_of_int (Z.to_int z).

(** ** Data model ([db/schema/userAvailability.ts], [userAvailability.ts]) *)

Inductive AvailabilityStatus := online | busy | away | offline.

Inductive ChangeReason :=
  manual | auto_activity | auto_inactivity | business_hours | scheduled.

Definition status_eqb (a b : AvailabilityStatus) : bool :=
  match a, b with
  | online, online | busy, busy | away, away | offline, offline => true
  | _, _ => false
  end.

Record BusinessHours := {
  timezone : string;
  schedule : list (string * option (string * string))
}.

Record UserAvailabilityData := {
  userId : string;
  mailboxId : Z;
  status : AvailabilityStatus;
  customMessage : option string;
  lastActivityAt : Z;
  lastStatusChangeAt : Z;
  autoAwayAt : option Z;
  scheduledReturnAt : option Z;
  businessHours : option BusinessHours
}.

Record SessionData := {
  conversationsHandled : option Z;
  messagesReplied : option Z;
  averageResponseTime : option Q
}.

(** A row of [availability_history]; [createdAt] is filled by the table's
    timestamp default when the row is inserted. *)
Record AvailabilityHistoryData := {
  h_userId : string;
  h_mailboxId : Z;
  fromStatus : AvailabilityStatus;
  toStatus : AvailabilityStatus;
  durationSeconds : option Z;
  changeReason : option ChangeReason;
  sessionData : option SessionData;
  createdAt : Z
}.

Definition AUTO_AWAY_MINUTES : Z := 15.
Definition AUTO_OFFLINE_MINUTES : Z := 60.

(** The payload of an ["availability.updated"] event on a team channel. *)
Record RealtimeEvent := {
  channel : Z;
  event : string;
  data : UserAvailabilityData
}.

(** ** Roster, conversations and mailboxes (collaborators of the job) *)

(** Modelled from the spec: the role enumeration [UserRoles] lives in
    [lib/data/user], which is not among the sources; the roster exposes a
    role that is core, non-core or something else. *)
Inductive UserRole := CORE | NON_CORE | OTHER_ROLE.

Definition role_eqb (a b : UserRole) : bool :=
  match a, b with
  | CORE, CORE | NON_CORE, NON_CORE | OTHER_ROLE, OTHER_ROLE => true
  | _, _ => false
  end.

Record UserWithMailboxAccessData := {
  id : string;
  displayName : string;
  role : UserRole;
  keywords : list string
}.

Record Message := {
  m_role : string;
  cleanedUpText : option string
}.

Record Conversation := {
  c_id : Z;
  c_mailboxId : Z;
  c_open : bool;
  assignedToId : option string;
  mergedIntoId : option Z;
  subject : option string;
  messages : list Message
}.

Record Mailbox := { mb_id : Z }.

(** ** The world the code runs against *)

Record World := {
  userAvailability : list UserAvailabilityData;
  availabilityHistory : list AvailabilityHistoryData;
  conversations : list Conversation;
  conversationNotes : list (Z * string);
  mailboxes : list Mailbox;
  mailboxAccess : list (Z * list UserWithMailboxAccessData);
  roundRobinCache : list (Z * Z);
  realtimeLog : list RealtimeEvent
}.

Definition set_userAvailability (rows : list UserAvailabilityData) (w : World) : World :=
  {| userAvailability := rows;
     availabilityHistory := availabilityHistory w;
     conversations := conversations w;
     conversationNotes := conversationNotes w;
     mailboxes := mailboxes w;
     mailboxAccess := mailboxAccess w;
     roundRobinCache := roundRobinCache w;
     realtimeLog := realtimeLog w |}.

Definition set_availabilityHistory (rows : list AvailabilityHistoryData) (w : World) : World :=
  {| userAvailability := userAvailability w;
     availabilityHistory := rows;
     conversations := conversations w;
     conversationNotes := conversationNotes w;
     mailboxes := mailboxes w;
     mailboxAccess := mailboxAccess w;
     roundRobinCache := roundRobinCache w;
     realtimeLog := realtimeLog w |}.

Definition set_conversations (rows : list Conversation) (notes : list (Z * string))
    (w : World) : World :=
  {| userAvailability := userAvailability w;
     availabilityHistory := availabilityHistory w;
     conversations := rows;
     conversationNotes := notes;
     mailboxes := mailboxes w;
     mailboxAccess := mailboxAccess w;
     roundRobinCache := roundRobinCache w;
     realtimeLog := realtimeLog w |}.

Definition set_roundRobinCache (c : list (Z * Z)) (w : World) : World :=
  {| userAvailability := userAvailability w;
     availabilityHistory := availabilityHistory w;
     conversations := conversations w;
     conversationNotes := conversationNotes w;
     mailboxes := mailboxes w;
     mailboxAccess := mailboxAccess w;
     roundRobinCache := c;
     realtimeLog := realtimeLog w |}.

Definition set_realtimeLog (l : list RealtimeEvent) (w : World) : World :=
  {| userAvailability := userAvailability w;
     availabilityHistory := availabilityHistory w;
     conversations := conversations w;
     conversationNotes := conversationNotes w;
     mailboxes := mailboxes w;
     mailboxAccess := mailboxAccess w;
     roundRobinCache := roundRobinCache w;
     realtimeLog := l |}.

(** ** Computations that return or throw *)

Inductive Outcome (A : Type) :=
| Returned (a : A)
| Thrown (msg : string).
Arguments Returned {A} a.
Arguments Thrown {A} msg.

Definition Task (A : Type) : Type := World -> Outcome A * World.

Definition ret {A} (a : A) : Task A := fun w => (Returned a, w).
Definition throw {A} (msg : string) : Task A := fun w => (Thrown msg, w).

Definition bind {A B} (t : Task A) (k : A -> Task B) : Task B :=
  fun w =>
    match t w with
    | (Returned a, w') => k a w'
    | (Thrown msg, w') => (Thrown msg, w')
    end.

Notation "x <- t ;; k" := (bind t (fun x => k))
  (at level 61, t at next level, right associativity).
Notation "t ;;; k" := (bind t (fun _ => k))
  (at level 61, right associativity).

Definition gets {A} (f : World -> A) : Task A := fun w => (Returned (f w), w).
Definition modify (f : World -> World) : Task unit := fun w => (Returned tt, f w).

(** [for (const x of xs) await body(x)]: the first throw ends the loop and
    keeps what the earlier iterations did. *)
Fixpoint forEach {A} (xs : list A) (body : A -> Task unit) : Task unit :=
  match xs with
  | [] => ret tt
  | x :: xs' => body x ;;; forEach xs' body
  end.

(** [db.transaction(body)]: when the body throws, the writes it made to the
    tables are rolled back; what already left the process (the realtime log,
    the cache) is not. *)
Definition rollback (before after : World) : World :=
  {| userAvailability := userAvailability before;
     availabilityHistory := availabilityHistory before;
     conversations := conversations before;
     conversationNotes := conversationNotes before;
     mailboxes := mailboxes before;
     mailboxAccess := mailboxAccess before;
     roundRobinCache := roundRobinCache after;
     realtimeLog := realtimeLog after |}.

Definition transaction {A} (body : Task A) : Task A :=
  fun w =>
    match body w with
    | (Returned a, w') => (Returned a, w')
    | (Thrown msg, w') => (Thrown msg, rollback w w')
    end.

(** ** The availability store ([lib/data/userAvailability.ts]) *)

Definition sameKey (uid : string) (mid : Z) (r : UserAvailabilityData) : bool :=
  String.eqb (userId r) uid && (mailboxId r =? mid).

(** [db.query.userAvailability.findFirst] on the pair (userId, mailboxId). *)
Definition getUserAvailability (uid : string) (mid : Z) : Task (option UserAvailabilityData) :=
  gets (fun w => find (sameKey uid mid) (userAvailability w)).

(** [findMany] on the mailbox, ordered by descending [lastActivityAt]. *)
Definition getAllTeamAvailability (mid : Z) : Task (list UserAvailabilityData) :=
  gets (fun w =>
    js_sort (fun a b => lastActivityAt b - lastActivityAt a)
      (filter (fun r => mailboxId r =? mid) (userAvailability w))).

(** The [updates] argument of [updateUserAvailability].  A field that is
    [None] is absent from the object; a nullable column that is explicitly
    set to [null] is [Some None].  No caller supplies [userId] or
    [mailboxId], which are therefore left out. *)
Record AvailabilityUpdates := {
  u_status : option AvailabilityStatus;
  u_customMessage : option (option string);
  u_lastActivityAt : option Z;
  u_lastStatusChangeAt : option Z;
  u_autoAwayAt : option (option Z);
  u_scheduledReturnAt : option (option Z);
  u_businessHours : option (option BusinessHours);
  u_changeReason : option ChangeReason;
  u_sessionData : option SessionData
}.

Definition orElse {A} (o : option A) (d : A) : A :=
  match o with Some a => a | None => d end.

(** The object given to [.set(...)]: the spread of the updates, then
    [lastStatusChangeAt] and [lastActivityAt], which win over the spread. *)
Definition setRow (u : AvailabilityUpdates) (now : Z) (current r : UserAvailabilityData)
    : UserAvailabilityData :=
  {| userId := userId r;
     mailboxId := mailboxId r;
     status := orElse (u_status u) (status r);
     customMessage := orElse (u_customMessage u) (customMessage r);
     lastActivityAt := now;
     lastStatusChangeAt :=
       match u_status u with
       | Some _ => now
       | None => lastStatusChangeAt current
       end;
     autoAwayAt := orElse (u_autoAwayAt u) (autoAwayAt r);
     scheduledReturnAt := orElse (u_scheduledReturnAt u) (scheduledReturnAt r);
     businessHours := orElse (u_businessHours u) (businessHours r) |}.

(** The object given to [.values(...)] when the record is created: the
    defaults first, then the spread of the updates. *)
Definition newRow (uid : string) (mid : Z) (u : AvailabilityUpdates) (now : Z)
    : UserAvailabilityData :=
  {| userId := uid;
     mailboxId := mid;
     status := orElse (u_status u) online;
     customMessage := orElse (u_customMessage u) None;
     lastActivityAt := orElse (u_lastActivityAt u) now;
     lastStatusChangeAt := orElse (u_lastStatusChangeAt u) now;
     autoAwayAt := orElse (u_autoAwayAt u) None;
     scheduledReturnAt := orElse (u_scheduledReturnAt u) None;
     businessHours := orElse (u_businessHours u) None |}.

Definition historyRow (uid : string) (mid : Z) (current : UserAvailabilityData)
    (to : AvailabilityStatus) (u : AvailabilityUpdates) (now : Z)
    : AvailabilityHistoryData :=
  {| h_userId := uid;
     h_mailboxId := mid;
     fromStatus := status current;
     toStatus := to;
     durationSeconds := Some ((now - lastStatusChangeAt current) / 1000);
     changeReason := Some (orElse (u_changeReason u) manual);
     sessionData := u_sessionData u;
     createdAt := now |}.

Definition insertHistory (h : AvailabilityHistoryData) : Task unit :=
  modify (fun w => set_availabilityHistory (availabilityHistory w ++ [h]) w).

(** [tx.update(userAvailability).set(..).where(key).returning()] *)
Definition updateRows (uid : string) (mid : Z) (f : UserAvailabilityData -> UserAvailabilityData)
    : Task (list UserAvailabilityData) :=
  fun w =>
    let rows := map (fun r => if sameKey uid mid r then f r else r) (userAvailability w) in
    (Returned (filter (sameKey uid mid) rows), set_userAvailability rows w).

Definition insertRow (r : UserAvailabilityData) : Task (list UserAvailabilityData) :=
  fun w => (Returned [r], set_userAvailability (userAvailability w ++ [r]) w).

Section Store.

(** The broadcast collaborator: [true] when the event is delivered,
    [false] when the call rejects. *)
Variable publishToRealtime : RealtimeEvent -> bool.

Definition publish (e : RealtimeEvent) : Task unit :=
  fun w =>
    if publishToRealtime e
    then (Returned tt, set_realtimeLog (realtimeLog w ++ [e]) w)
    else (Thrown "Failed to publish", w).

(** The clock is read once per call and passed as [now].  The lookup and
    the transaction run as one step: this is a call that no other call
    overlaps.  The code awaits the lookup before the transaction starts;
    [updateInTransaction] below is the transaction alone, for the calls that
    do overlap. *)
Definition updateUserAvailability (uid : string) (mid : Z)
    (updates : AvailabilityUpdates) (now : Z) : Task UserAvailabilityData :=
  current <- getUserAvailability uid mid ;;
  transaction (
    result <-
      match current with
      | Some cur =>
          match u_status updates with
          | Some s =>
              if negb (status_eqb s (status cur))
              then insertHistory (historyRow uid mid cur s updates now)
              else ret tt
          | None => ret tt
          end ;;;
          updatedRows <- updateRows uid mid (setRow updates now cur) ;;
          match updatedRows with
          | updated :: _ => ret updated
          | [] => throw "Failed to update user availability"
          end
      | None =>
          createdRows <- insertRow (newRow uid mid updates now) ;;
          match createdRows with
          | created :: _ => ret created
          | [] => throw "Failed to create user availability"
          end
      end ;;
    publish {| channel := mid; event := "availability.updated"; data := result |} ;;;
    ret result).

Definition recordUserActivity (uid : string) (mid : Z) (now : Z) : Task unit :=
  current <- getUserAvailability uid mid ;;
  match current with
  | None =>
      updateUserAvailability uid mid
        {| u_status := Some online; u_customMessage := None;
           u_lastActivityAt := None; u_lastStatusChangeAt := None;
           u_autoAwayAt := None; u_scheduledReturnAt := None;
           u_businessHours := None; u_changeReason := Some auto_activity;
           u_sessionData := None |} now ;;;
      ret tt
  | Some cur =>
      let reactivate :=
        status_eqb (status cur) offline || status_eqb (status cur) away in
      updateUserAvailability uid mid
        {| u_status := if reactivate then Some online else None;
           u_customMessage := None;
           u_lastActivityAt := Some now;
           u_lastStatusChangeAt := None;
           u_autoAwayAt :=
             match autoAwayAt cur with
             | Some _ => Some (Some (now + AUTO_AWAY_MINUTES * 60 * 1000))
             | None => None
             end;
           u_scheduledReturnAt := None;
           u_businessHours := None;
           u_changeReason := if reactivate then Some auto_activity else None;
           u_sessionData := None |} now ;;;
      ret tt
  end.

(** [lte(column, now)] on a nullable column: a [NULL] never matches. *)
Definition lte (col : option Z) (now : Z) : bool :=
  match col with
  | Some t => t <=? now
  | None => false
  end.

Definition dueForReturn (now : Z) (r : UserAvailabilityData) : bool :=
  lte (scheduledReturnAt r) now && status_eqb (status r) away.

Definition dueForAutoAway (now : Z) (r : UserAvailabilityData) : bool :=
  lte (autoAwayAt r) now && status_eqb (status r) online.

Definition returnUpdates : AvailabilityUpdates :=
  {| u_status := Some online; u_customMessage := None;
     u_lastActivityAt := None; u_lastStatusChangeAt := None;
     u_autoAwayAt := None; u_scheduledReturnAt := Some None;
     u_businessHours := None; u_changeReason := Some scheduled;
     u_sessionData := None |}.

Definition autoAwayUpdates : AvailabilityUpdates :=
  {| u_status := Some away; u_customMessage := None;
     u_lastActivityAt := None; u_lastStatusChangeAt := None;
     u_autoAwayAt := Some None; u_scheduledReturnAt := None;
     u_businessHours := None; u_changeReason := Some auto_inactivity;
     u_sessionData := None |}.

(** The first loop of [processScheduledStatusChanges]. *)
Definition processScheduledReturns (now : Z) : Task unit :=
  scheduledReturns <- gets (fun w => filter (dueForReturn now) (userAvailability w)) ;;
  forEach scheduledReturns (fun user =>
    updateUserAvailability (userId user) (mailboxId user) returnUpdates now ;;; ret tt).

(** The second loop of [processScheduledStatusChanges]. *)
Definition processAutoAway (now : Z) : Task unit :=
  autoAwayUsers <- gets (fun w => filter (dueForAutoAway now) (userAvailability w)) ;;
  forEach autoAwayUsers (fun user =>
    updateUserAvailability (userId user) (mailboxId user) autoAwayUpdates now ;;; ret tt).

Definition processScheduledStatusChanges (now : Z) : Task unit :=
  processScheduledReturns now ;;; processAutoAway now.

End Store.

(** ** Analytics ([getAvailabilityAnalytics]) *)

Record StatusDistribution := {
  d_online : Z;
  d_busy : Z;
  d_away : Z;
  d_offline : Z
}.

Record ProductivityMetrics := {
  totalConversationsHandled : Z;
  totalMessagesReplied : Z;
  p_averageResponseTime : Q
}.

Record TimelineEntry := {
  t_date : string;
  t_online : Z;
  t_busy : Z;
  t_away : Z;
  t_offline : Z
}.

Record Analytics := {
  totalSessions : Z;
  averageSessionDuration : Q;
  statusDistribution : StatusDistribution;
  productivityMetrics : ProductivityMetrics;
  timelineData : list TimelineEntry
}.

(** The mutable locals of the fold, together with the distribution that
    the loop increments in place. *)
Record Totals := {
  totalDuration : Z;
  distribution : StatusDistribution;
  totalConversations : Z;
  totalMessages : Z;
  totalResponseTime : Q;
  responseTimeCount : Z
}.

Definition bump (s : AvailabilityStatus) (d : StatusDistribution) : StatusDistribution :=
  match s with
  | online => {| d_online := d_online d + 1; d_busy := d_busy d;
                 d_away := d_away d; d_offline := d_offline d |}
  | busy => {| d_online := d_online d; d_busy := d_busy d + 1;
               d_away := d_away d; d_offline := d_offline d |}
  | away => {| d_online := d_online d; d_busy := d_busy d;
               d_away := d_away d + 1; d_offline := d_offline d |}
  | offline => {| d_online := d_online d; d_busy := d_busy d;
                  d_away := d_away d; d_offline := d_offline d + 1 |}
  end.

(** [if (record.durationSeconds)]: [null] and [0] are both falsy. *)
Definition truthyDuration (d : option Z) : option Z :=
  match d with
  | Some n => if n =? 0 then None else Some n
  | None => None
  end.

Definition truthyResponseTime (q : option Q) : option Q :=
  match q with
  | Some x => if Qeq_bool x 0 then None else Some x
  | None => None
  end.

Definition initialTotals : Totals :=
  {| totalDuration := 0;
     distribution := {| d_online := 0; d_busy := 0; d_away := 0; d_offline := 0 |};
     totalConversations := 0; totalMessages := 0;
     totalResponseTime := 0%Q; responseTimeCount := 0 |}.

(** One iteration of [history.forEach]. *)
Definition analyticsStep (acc : Totals) (record : AvailabilityHistoryData) : Totals :=
  let acc1 :=
    match truthyDuration (durationSeconds record) with
    | Some d =>
        {| totalDuration := totalDuration acc + d;
           distribution := bump (fromStatus record) (distribution acc);
           totalConversations := totalConversations acc;
           totalMessages := totalMessages acc;
           totalResponseTime := totalResponseTime acc;
           responseTimeCount := responseTimeCount acc |}
    | None => acc
    end in
  match sessionData record with
  | Some sd =>
      let conv := totalConversations acc1 + orElse (conversationsHandled sd) 0 in
      let msgs := totalMessages acc1 + orElse (messagesReplied sd) 0 in
      match truthyResponseTime (averageResponseTime sd) with
      | Some rt =>
          {| totalDuration := totalDuration acc1;
             distribution := distribution acc1;
             totalConversations := conv;
             totalMessages := msgs;
             totalResponseTime := (totalResponseTime acc1 + rt)%Q;
             responseTimeCount := responseTimeCount acc1 + 1 |}
      | None =>
          {| totalDuration := totalDuration acc1;
             distribution := distribution acc1;
             totalConversations := conv;
             totalMessages := msgs;
             totalResponseTime := totalResponseTime acc1;
             responseTimeCount := responseTimeCount acc1 |}
      end
  | None => acc1
  end.

Definition historyInRange (mid startDate endDate : Z) (w : World)
    : list AvailabilityHistoryData :=
  js_sort (fun a b => createdAt b - createdAt a)
    (filter (fun h => (h_mailboxId h =? mid) && (startDate <=? createdAt h)
                      && (createdAt h <=? endDate))
       (availabilityHistory w)).

Definition analyze (history : list AvailabilityHistoryData) : Analytics :=
  let t := fold_left analyticsStep history initialTotals in
  let n := Z.of_nat (List.length history) in
  {| totalSessions := n;
     averageSessionDuration :=
       if 0 <? n then (inject_Z (totalDuration t) / inject_Z n)%Q else 0%Q;
     statusDistribution := distribution t;
     productivityMetrics :=
       {| totalConversationsHandled := totalConversations t;
          totalMessagesReplied := totalMessages t;
          p_averageResponseTime :=
            if 0 <? responseTimeCount t
            then (totalResponseTime t / inject_Z (responseTimeCount t))%Q
            else 0%Q |};
     timelineData := [] |}.

Definition getAvailabilityAnalytics (mid startDate endDate : Z) : Task Analytics :=
  gets (fun w => analyze (historyInRange mid startDate endDate w)).

(** ** Workload sampling ([getTeamWorkloadDistribution]) *)

Record WorkloadEntry := {
  w_availability : UserAvailabilityData;
  w_currentWorkload : Z;
  w_isAvailableForAssignment : bool
}.

Definition option_string_eqb (a : option string) (b : string) : bool :=
  match a with
  | Some s => String.eqb s b
  | None => false
  end.

(** The grouped count of the SQL query, looked up for one user; a user
    without a group gets [0] from [|| 0]. *)
Definition openConversationCount (mid : Z) (uid : string) (w : World) : Z :=
  Z.of_nat (List.length (filter
    (fun c => (c_mailboxId c =? mid) && c_open c && option_string_eqb (assignedToId c) uid)
    (conversations w))).

Definition isAssignable (s : AvailabilityStatus) : bool :=
  status_eqb s online || status_eqb s busy.

Definition getTeamWorkloadDistribution (mid : Z) : Task (list WorkloadEntry) :=
  availabilities <- getAllTeamAvailability mid ;;
  gets (fun w =>
    map (fun availability =>
           {| w_availability := availability;
              w_currentWorkload := openConversationCount mid (userId availability) w;
              w_isAvailableForAssignment := isAssignable (status availability) |})
        availabilities).

(** ** The auto-assignment job *)

Record MemberAvailability := {
  a_status : AvailabilityStatus;
  currentWorkload : Z;
  isAvailableForAssignment : bool;
  a_customMessage : option string
}.

(** [AvailableTeamMember] extends the roster entry with an [availability]
    object. *)
Record AvailableTeamMember := {
  user : UserWithMailboxAccessData;
  availability : MemberAvailability
}.

Definition WORKLOAD_THRESHOLDS (s : AvailabilityStatus) : Z :=
  match s with
  | online => 8
  | busy => 3
  | away => 0
  | offline => 0
  end.

Definition PRIORITY_SCORES (s : AvailabilityStatus) : Z :=
  match s with
  | online => 100
  | busy => 50
  | away => 0
  | offline => 0
  end.

Inductive UrgencyLevel := low | medium | high.

(** The object the expertise matcher answers with. *)
Record AIResult := {
  matches : list (string * bool);
  reasoning : string;
  confidenceScore : option Q;
  urgencyLevel : option UrgencyLevel
}.

(** [result.matches[id]], read as a condition: a missing key is falsy. *)
Definition matchFor (r : AIResult) (key : string) : bool :=
  match find (fun kv => String.eqb (fst kv) key) (matches r) with
  | Some kv => snd kv
  | None => false
  end.

Definition status_eq_dec (a b : AvailabilityStatus) : {a = b} + {a <> b}.
Proof. decide equality. Defined.

Definition role_eq_dec (a b : UserRole) : {a = b} + {a <> b}.
Proof. decide equality. Defined.

Definition option_string_eq_dec (a b : option string) : {a = b} + {a <> b}.
Proof. decide equality. apply string_dec. Defined.

Definition user_eq_dec (a b : UserWithMailboxAccessData) : {a = b} + {a <> b}.
Proof.
  decide equality;
    try apply string_dec; try apply role_eq_dec;
    apply (list_eq_dec string_dec).
Defined.

Definition availability_eq_dec (a b : MemberAvailability) : {a = b} + {a <> b}.
Proof.
  decide equality;
    try apply option_string_eq_dec; try apply bool_dec;
    try apply Z.eq_dec; apply status_eq_dec.
Defined.

Definition member_eq_dec (a b : AvailableTeamMember) : {a = b} + {a <> b}.
Proof. decide equality; [apply availability_eq_dec | apply user_eq_dec]. Defined.

(** [list.includes(member)].  The list holds members taken from the very
    array the argument comes from, so comparing the records field by field
    finds the same elements as comparing references. *)
Definition includes (l : list AvailableTeamMember) (m : AvailableTeamMember) : bool :=
  existsb (fun x => if member_eq_dec x m then true else false) l.

Definition calculateMemberScore (m : AvailableTeamMember) (hasExpertiseMatch : bool) : Z :=
  let baseScore := PRIORITY_SCORES (a_status (availability m)) in
  let workloadPenalty := Z.min (currentWorkload (availability m) * 5) 50 in
  let expertiseBonus := if hasExpertiseMatch then 25 else 0 in
  let roleBonus := if role_eqb (role (user m)) CORE then 10 else 0 in
  Z.max 0 (baseScore - workloadPenalty + expertiseBonus + roleBonus).

Record ScoredMember := {
  sm_member : AvailableTeamMember;
  score : Z;
  hasExpertise : bool
}.

Definition scoreMembers (availableMembers expertiseMatches : list AvailableTeamMember)
    : list ScoredMember :=
  map (fun m =>
         {| sm_member := m;
            score := calculateMemberScore m (includes expertiseMatches m);
            hasExpertise := includes expertiseMatches m |})
      availableMembers.

(** The comparator handed to [membersWithScores.sort]. *)
Definition compareScored (a b : ScoredMember) : Z :=
  if negb (score a =? score b) then score b - score a
  else if negb (currentWorkload (availability (sm_member a))
                =? currentWorkload (availability (sm_member b)))
  then currentWorkload (availability (sm_member a))
       - currentWorkload (availability (sm_member b))
  else 0.

(** [membersWithScores.filter(m => m.score === membersWithScores[0]?.score)]
    after the sort. *)
Definition topCandidates (availableMembers expertiseMatches : list AvailableTeamMember)
    : list ScoredMember :=
  let membersWithScores :=
    js_sort compareScored (scoreMembers availableMembers expertiseMatches) in
  match membersWithScores with
  | [] => []
  | first :: _ => filter (fun m => score m =? score first) membersWithScores
  end.

(** Modelled from the spec: [cacheFor] lives in [lib/cache], which is not
    among the sources; the rotation cursor is one integer per queue, read
    with [get] (absent until first written) and replaced with [set]. *)
Definition cacheGet (mid : Z) : Task (option Z) :=
  gets (fun w => option_map snd (find (fun e => fst e =? mid) (roundRobinCache w))).

Definition cacheSet (mid : Z) (v : Z) : Task unit :=
  modify (fun w =>
    set_roundRobinCache
      ((mid, v) :: filter (fun e => negb (fst e =? mid)) (roundRobinCache w)) w).

(** The cursor read from the cache is an integer here; for a cursor up
    to [MAX_SAFE_INTEGER] the sum [lastAssignedIndex + 1] below is the sum
    the code computes.  Every cursor the code stores is below the length of
    [topCandidates]. *)
Definition selectBestMember (availableMembers expertiseMatches : list AvailableTeamMember)
    (mid : Z) : Task (option AvailableTeamMember) :=
  match availableMembers with
  | [] => ret None
  | _ :: _ =>
      let top := topCandidates availableMembers expertiseMatches in
      match top with
      | [only] => ret (Some (sm_member only))
      | _ =>
          cached <- cacheGet mid ;;
          let lastAssignedIndex := orElse cached 0 in
          let nextIndex := Z.rem (lastAssignedIndex + 1) (Z.of_nat (List.length top)) in
          cacheSet mid nextIndex ;;;
          ret (option_map sm_member (js_index top nextIndex))
      end
  end.

Definition canHandleWorkload (m : AvailableTeamMember) : bool :=
  let threshold := WORKLOAD_THRESHOLDS (a_status (availability m)) in
  currentWorkload (availability m) <? threshold.

Definition getCoreTeamMembers (teamMembers : list UserWithMailboxAccessData)
    : list UserWithMailboxAccessData :=
  filter (fun m => role_eqb (role m) CORE) teamMembers.

(** The same cursor arithmetic as in [selectBestMember], with the same
    range. *)
Definition getNextCoreTeamMemberInRotation (coreTeamMembers : list UserWithMailboxAccessData)
    (mid : Z) : Task (option UserWithMailboxAccessData) :=
  match coreTeamMembers with
  | [] => ret None
  | _ :: _ =>
      cached <- cacheGet mid ;;
      let lastAssignedIndex := orElse cached 0 in
      let nextIndex :=
        Z.rem (lastAssignedIndex + 1) (Z.of_nat (List.length coreTeamMembers)) in
      cacheSet mid nextIndex ;;;
      ret (js_index coreTeamMembers nextIndex)
  end.

(** [new Map(entries).get(id)]: the last entry written for a key wins. *)
Definition workloadFor (distribution : list WorkloadEntry) (uid : string)
    : option WorkloadEntry :=
  find (fun e => String.eqb (userId (w_availability e)) uid) (rev distribution).

Definition getAvailableTeamMembers (teamMembers : list UserWithMailboxAccessData)
    (mid : Z) : Task (list AvailableTeamMember) :=
  workloadDistribution <- getTeamWorkloadDistribution mid ;;
  ret (filter (fun m => isAvailableForAssignment (availability m))
    (map (fun m =>
       match workloadFor workloadDistribution (id m) with
       | Some workload =>
           {| user := m;
              availability :=
                {| a_status := status (w_availability workload);
                   currentWorkload := w_currentWorkload workload;
                   isAvailableForAssignment := w_isAvailableForAssignment workload;
                   a_customMessage := customMessage (w_availability workload) |} |}
       | None =>
           {| user := m;
              availability :=
                {| a_status := offline; currentWorkload := 0;
                   isAvailableForAssignment := false;
                   a_customMessage := None |} |}
       end) teamMembers)).

Definition join (sep : string) (parts : list string) : string :=
  String.concat sep parts.

Definition getConversationContent (c : Conversation) : string :=
  match messages c with
  | [] => orElse (subject c) ""
  | _ :: _ =>
      let userMessages :=
        filter (fun s => negb (String.eqb s ""))
          (map (fun msg => orElse (cleanedUpText msg) "")
             (filter (fun msg => String.eqb (m_role msg) "user") (messages c))) in
      let contentParts :=
        match subject c with
        | Some s => if String.eqb s "" then userMessages else s :: userMessages
        | None => userMessages
        end in
      join " " contentParts
  end.

Record AvailabilityMetrics := {
  totalAvailable : Z;
  onlineMembers : Z;
  busyMembers : Z;
  averageWorkload : Q
}.

Record NextTeamMember := {
  n_member : option AvailableTeamMember;
  n_aiResult : option AIResult;
  n_error : option string;
  n_availabilityMetrics : option AvailabilityMetrics
}.

(** What [autoAssignConversation] resolves to: a skip message with optional
    details, or the description of the assignment made. *)
Inductive AssignmentResult :=
| Skipped (message : string) (details : option string)
    (metrics : option AvailabilityMetrics)
| Assigned (message : string) (assigneeRole : UserRole) (assigneeId : string)
    (assigneeStatus : AvailabilityStatus) (assigneeWorkload : Z)
    (aiResult : option AIResult) (metrics : option AvailabilityMetrics).

(** [assertDefinedOrRaiseNonRetriableError] *)
Definition assertDefined {A} (v : option A) : Task A :=
  match v with
  | Some a => ret a
  | None => throw "Value is undefined"
  end.

Definition getMailboxById (mid : Z) : Task (option Mailbox) :=
  gets (fun w => find (fun m => mb_id m =? mid) (mailboxes w)).

Definition getUsersWithMailboxAccess (mid : Z)
    : Task (option (list UserWithMailboxAccessData)) :=
  gets (fun w => option_map snd (find (fun e => fst e =? mid) (mailboxAccess w))).

(** Modelled from the spec: [updateConversation] lives in
    [lib/data/conversation], which is not among the sources; the item
    collaborator accepts a "set assignee" write together with an appended
    note. *)
Definition updateConversation (cid : Z) (assignee : string) (note : string) : Task unit :=
  modify (fun w =>
    set_conversations
      (map (fun c =>
              if c_id c =? cid
              then {| c_id := c_id c; c_mailboxId := c_mailboxId c;
                      c_open := c_open c; assignedToId := Some assignee;
                      mergedIntoId := mergedIntoId c; subject := subject c;
                      messages := messages c |}
              else c)
           (conversations w))
      (conversationNotes w ++ [(cid, note)]) w).

(** JavaScript truthiness of the two nullable columns read by the job. *)
Definition truthyString (s : option string) : bool :=
  match s with
  | Some v => negb (String.eqb v "")
  | None => false
  end.

Definition truthyNumber (n : option Z) : bool :=
  match n with
  | Some v => negb (v =? 0)
  | None => false
  end.

Definition isActiveRole (r : UserRole) : bool :=
  role_eqb r CORE || role_eqb r NON_CORE.

(** The predicate of the [membersWithKeywords] filter. *)
Definition declaresKeywords (m : AvailableTeamMember) : bool :=
  (role_eqb (role (user m)) NON_CORE || role_eqb (role (user m)) CORE)
  && (0 <? Z.of_nat (List.length (keywords (user m)))).

Section Job.

Variable publishToRealtime : RealtimeEvent -> bool.

(** The expertise classification collaborator, as seen from the job: the
    mailbox, the members that declare keywords and the conversation text
    go in; an answer comes back, or the call rejects ([None]). *)
Variable runAIObjectQuery :
  Mailbox -> list AvailableTeamMember -> string -> option AIResult.

Definition queryMatcher (mailbox : Mailbox) (members : list AvailableTeamMember)
    (content : string) : Task AIResult :=
  match runAIObjectQuery mailbox members content with
  | Some r => ret r
  | None => throw "AI query failed"
  end.

Definition getExpertiseMatchingMembers (availableMembers : list AvailableTeamMember)
    (conversationContent : string) (mailbox : Mailbox)
    : Task (list AvailableTeamMember * option AIResult) :=
  if String.eqb conversationContent "" || (Z.of_nat (List.length availableMembers) =? 0)
  then ret ([], None)
  else
    let membersWithKeywords := filter declaresKeywords availableMembers in
    if Z.of_nat (List.length membersWithKeywords) =? 0
    then ret ([], None)
    else
      result <- queryMatcher mailbox membersWithKeywords conversationContent ;;
      ret (filter (fun m => matchFor result (id (user m))) membersWithKeywords,
           Some result).

Definition countStatus (s : AvailabilityStatus) (l : list AvailableTeamMember) : Z :=
  Z.of_nat (List.length (filter (fun m => status_eqb (a_status (availability m)) s) l)).

(** The candidates that go on to matching and scoring: the ones under
    their threshold, or everybody available when nobody is. *)
Definition membersToConsider (availableMembers : list AvailableTeamMember)
    : list AvailableTeamMember :=
  let workloadCapableMembers := filter canHandleWorkload availableMembers in
  if 0 <? Z.of_nat (List.length workloadCapableMembers)
  then workloadCapableMembers
  else availableMembers.

Definition getNextTeamMember (teamMembers : list UserWithMailboxAccessData)
    (conversation : Conversation) (mailbox : Mailbox) : Task NextTeamMember :=
  availableMembers <- getAvailableTeamMembers teamMembers (mb_id mailbox) ;;
  if Z.of_nat (List.length availableMembers) =? 0
  then ret {| n_member := None; n_aiResult := None;
              n_error := Some "No team members available for assignment";
              n_availabilityMetrics := None |}
  else
    let considered := membersToConsider availableMembers in
    let conversationContent := getConversationContent conversation in
    matched <- getExpertiseMatchingMembers considered conversationContent mailbox ;;
    let '(expertiseMatches, aiResult) := matched in
    selectedMember <- selectBestMember considered expertiseMatches (mb_id mailbox) ;;
    ret {| n_member := selectedMember;
           n_aiResult := aiResult;
           n_error := None;
           n_availabilityMetrics :=
             Some {| totalAvailable := Z.of_nat (List.length availableMembers);
                     onlineMembers := countStatus online availableMembers;
                     busyMembers := countStatus busy availableMembers;
                     averageWorkload :=
                       (inject_Z (fold_left
                                    (fun sum m => (sum + currentWorkload (availability m))%Z)
                                    availableMembers 0%Z)
                        / inject_Z (Z.of_nat (List.length availableMembers)))%Q |} |}.

Definition assignmentNote (aiResult : option AIResult) (m : AvailableTeamMember) : string :=
  str_or
    (match aiResult with Some r => reasoning r | None => "" end)
    ("Assigned based on availability ("
       ++ match a_status (availability m) with
          | online => "online" | busy => "busy"
          | away => "away" | offline => "offline"
          end
       ++ ") and workload ("
       ++ show_Z (currentWorkload (availability m)) ++ " conversations)").

Definition autoAssignConversation (conversationId : Z) (now : Z) : Task AssignmentResult :=
  found <- gets (fun w => find (fun c => c_id c =? conversationId) (conversations w)) ;;
  conversation <- assertDefined found ;;
  if truthyString (assignedToId conversation)
  then ret (Skipped "Skipped: already assigned" None None)
  else if truthyNumber (mergedIntoId conversation)
  then ret (Skipped "Skipped: conversation is merged" None None)
  else
    foundMailbox <- getMailboxById (c_mailboxId conversation) ;;
    mailbox <- assertDefined foundMailbox ;;
    access <- getUsersWithMailboxAccess (mb_id mailbox) ;;
    teamMembers <- assertDefined access ;;
    let activeTeamMembers := filter (fun m => isActiveRole (role m)) teamMembers in
    if Z.of_nat (List.length activeTeamMembers) =? 0
    then ret (Skipped "Skipped: no active team members available for assignment"
                None None)
    else
      next <- getNextTeamMember activeTeamMembers conversation mailbox ;;
      match n_member next with
      | None =>
          ret (Skipped "Skipped: could not find suitable team member for assignment"
                 (Some (str_or (orElse (n_error next) "")
                          "No available members with capacity or expertise match"))
                 (n_availabilityMetrics next))
      | Some nextTeamMember =>
          recordUserActivity publishToRealtime (id (user nextTeamMember))
            (mb_id mailbox) now ;;;
          updateConversation (c_id conversation) (id (user nextTeamMember))
            (assignmentNote (n_aiResult next) nextTeamMember) ;;;
          ret (Assigned
                 ("Assigned conversation " ++ show_Z (c_id conversation) ++ " to "
                    ++ displayName (user nextTeamMember)
                    ++ " (" ++ id (user nextTeamMember) ++ ")")
                 (role (user nextTeamMember))
                 (id (user nextTeamMember))
                 (a_status (availability nextTeamMember))
                 (currentWorkload (availability nextTeamMember))
                 (n_aiResult next)
                 (n_availabilityMetrics next))
      end.

End Job.

(** ** The public endpoints ([availabilityRouter]) and the operations *)

(** [try { ... } catch (error) { throw new TRPCError({ message }) }] *)
Definition rethrowAs {A} (msg : string) (t : Task A) : Task A :=
  fun w =>
    match t w with
    | (Returned a, w') => (Returned a, w')
    | (Thrown _, w') => (Thrown msg, w')
    end.

Section Router.

Variable publishToRealtime : RealtimeEvent -> bool.

(** The acting user [uid] and the mailbox [mid] come from the request
    context. *)
Definition updateStatus (uid : string) (mid : Z) (newStatus : AvailabilityStatus)
    (message : option (option string)) (now : Z) : Task UserAvailabilityData :=
  rethrowAs "Failed to update availability status"
    (updateUserAvailability publishToRealtime uid mid
       {| u_status := Some newStatus; u_customMessage := message;
          u_lastActivityAt := None; u_lastStatusChangeAt := None;
          u_autoAwayAt := None; u_scheduledReturnAt := None;
          u_businessHours := None; u_changeReason := Some manual;
          u_sessionData := None |} now).

Definition getMyStatus (uid : string) (mid : Z) : Task (option UserAvailabilityData) :=
  getUserAvailability uid mid.

Definition getTeamStatus (mid : Z) : Task (list UserAvailabilityData) :=
  getAllTeamAvailability mid.

Definition recordActivity (uid : string) (mid : Z) (now : Z) : Task bool :=
  recordUserActivity publishToRealtime uid mid now ;;; ret true.

Definition getWorkloadDistribution (mid : Z) : Task (list WorkloadEntry) :=
  getTeamWorkloadDistribution mid.

Definition getAnalytics (mid startDate endDate : Z) : Task Analytics :=
  getAvailabilityAnalytics mid startDate endDate.

Definition setBusinessHours (uid : string) (mid : Z) (hours : BusinessHours)
    (now : Z) : Task UserAvailabilityData :=
  rethrowAs "Failed to update business hours"
    (updateUserAvailability publishToRealtime uid mid
       {| u_status := None; u_customMessage := None;
          u_lastActivityAt := None; u_lastStatusChangeAt := None;
          u_autoAwayAt := None; u_scheduledReturnAt := None;
          u_businessHours := Some (Some hours); u_changeReason := Some manual;
          u_sessionData := None |} now).

Definition setScheduledReturn (uid : string) (mid : Z) (returnAt : Z)
    (message : option string) (now : Z) : Task UserAvailabilityData :=
  rethrowAs "Failed to set scheduled return"
    (updateUserAvailability publishToRealtime uid mid
       {| u_status := Some away;
          u_customMessage :=
            Some (match message with
                  | Some s => if String.eqb s "" then None else Some s
                  | None => None
                  end);
          u_lastActivityAt := None; u_lastStatusChangeAt := None;
          u_autoAwayAt := None; u_scheduledReturnAt := Some (Some returnAt);
          u_businessHours := None; u_changeReason := Some manual;
          u_sessionData := None |} now).

End Router.

(** Everything that can run against the store: the endpoints, the sweep
    and the assignment job. *)
Inductive Operation :=
| UpdateStatus (uid : string) (mid : Z) (newStatus : AvailabilityStatus)
    (message : option (option string))
| GetMyStatus (uid : string) (mid : Z)
| GetTeamStatus (mid : Z)
| RecordActivity (uid : string) (mid : Z)
| GetWorkloadDistribution (mid : Z)
| GetAnalytics (mid startDate endDate : Z)
| SetBusinessHours (uid : string) (mid : Z) (hours : BusinessHours)
| SetScheduledReturn (uid : string) (mid : Z) (returnAt : Z) (message : option string)
| Sweep
| AutoAssign (conversationId : Z).

Section Operations.

Variable publishToRealtime : RealtimeEvent -> bool.
Variable runAIObjectQuery :
  Mailbox -> list AvailableTeamMember -> string -> option AIResult.

Definition runOperation (op : Operation) (now : Z) : Task unit :=
  match op with
  | UpdateStatus uid mid s message =>
      updateStatus publishToRealtime uid mid s message now ;;; ret tt
  | GetMyStatus uid mid => getMyStatus uid mid ;;; ret tt
  | GetTeamStatus mid => getTeamStatus mid ;;; ret tt
  | RecordActivity uid mid => recordActivity publishToRealtime uid mid now ;;; ret tt
  | GetWorkloadDistribution mid => getWorkloadDistribution mid ;;; ret tt
  | GetAnalytics mid s e => getAnalytics mid s e ;;; ret tt
  | SetBusinessHours uid mid hours =>
      setBusinessHours publishToRealtime uid mid hours now ;;; ret tt
  | SetScheduledReturn uid mid returnAt message =>
      setScheduledReturn publishToRealtime uid mid returnAt message now ;;; ret tt
  | Sweep => processScheduledStatusChanges publishToRealtime now
  | AutoAssign conversationId =>
      autoAssignConversation publishToRealtime runAIObjectQuery conversationId now
        ;;; ret tt
  end.

(** A history of operations, each at its own time; an operation that
    throws leaves the world as it was when it threw. *)
Fixpoint runAll (trace : list (Operation * Z)) (w : World) : World :=
  match trace with
  | [] => w
  | (op, now) :: rest => runAll rest (snd (runOperation op now w))
  end.

End Operations.

(** ** The client side ([lib/realtime/availabilityHooks.ts], the status
    dropdown) *)

Definition getStatusColor (s : AvailabilityStatus) : string :=
  match s with
  | online => "bg-green-500"
  | busy => "bg-yellow-500"
  | away => "bg-orange-500"
  | offline => "bg-gray-400"
  end.

Definition getStatusLabel (s : AvailabilityStatus) : string :=
  match s with
  | online => "Online"
  | busy => "Busy"
  | away => "Away"
  | offline => "Offline"
  end.

(** The state of [useTeamAvailability]: an object from user ids to the
    last payload received, kept as the list of its properties.  Assigning an
    existing key keeps its place; a new key goes last. *)
Fixpoint setProperty (key : string) (value : UserAvailabilityData)
    (obj : list (string * UserAvailabilityData)) : list (string * UserAvailabilityData) :=
  match obj with
  | [] => [(key, value)]
  | (k, v) :: rest =>
      if String.eqb k key then (key, value) :: rest
      else (k, v) :: setProperty key value rest
  end.

Definition getProperty (key : string) (obj : list (string * UserAvailabilityData))
    : option UserAvailabilityData :=
  option_map snd (find (fun kv => String.eqb (fst kv) key) obj).

(** The handler of [useTeamAvailability]:
    [prev => ({ ...prev, [data.userId]: data })]. *)
Definition onTeamAvailabilityUpdated (prev : list (string * UserAvailabilityData))
    (data : UserAvailabilityData) : list (string * UserAvailabilityData) :=
  setProperty (userId data) data prev.

(** The three pieces of state of [useUserAvailabilityStatus]. *)
Record StatusView := {
  v_status : option AvailabilityStatus;
  v_customMessage : option string;
  lastUpdateTime : Z
}.

Definition initialStatusView : StatusView :=
  {| v_status := None; v_customMessage := None; lastUpdateTime := 0 |}.

(** The handler of [useUserAvailabilityStatus], run on the state the
    previous event left.  The payload always carries [lastStatusChangeAt],
    so the update time is read from it. *)
Definition onOwnAvailabilityUpdated (currentUser : option string) (view : StatusView)
    (data : UserAvailabilityData) : StatusView :=
  if option_string_eqb currentUser (userId data)
  then
    let updateTime := lastStatusChangeAt data in
    if lastUpdateTime view <? updateTime
    then {| v_status := Some (status data);
            v_customMessage :=
              match customMessage data with
              | Some s => if String.eqb s "" then None else Some s
              | None => None
              end;
            lastUpdateTime := updateTime |}
    else view
  else view.

(** The values the dropdown offers. *)
Definition statusOptions : list AvailabilityStatus := [online; busy; away].

(** [handleStatusChange] of the dropdown: the mutation is the status
    endpoint with [customMessage: message || null].  A click on an option
    passes no message; the Set button passes the displayed status and the
    text of the input. *)
Definition handleStatusChange (publishToRealtime : RealtimeEvent -> bool)
    (uid : string) (mid : Z) (newStatus : AvailabilityStatus) (message : option string)
    (now : Z) : Task UserAvailabilityData :=
  updateStatus publishToRealtime uid mid newStatus
    (Some (match message with
           | Some s => if String.eqb s "" then None else Some s
           | None => None
           end)) now.

(** [optimisticStatus || currentStatus], with ["offline"] as the default
    of the [currentStatus] prop. *)
Definition displayStatus (optimisticStatus currentStatus : option AvailabilityStatus)
    : AvailabilityStatus :=
  match optimisticStatus with
  | Some s => s
  | None => orElse currentStatus offline
  end.

(** ** Notions used by the statements *)

(** A bonus of [n] points that applies when [b] holds. *)
Definition bonus (b : bool) (n : Z) : Z := if b then n else 0.

(** The order a comparator sorts by: [a] may stay in front of [b]. *)
Definition precedes {A : Type} (cmp : A -> A -> Z) (a b : A) : Prop := cmp a b <= 0.

(** The workload the comparator reads from a scored candidate. *)
Definition workloadOf (s : ScoredMember) : Z :=
  currentWorkload (availability (sm_member s)).

(** [membersWithScores] after the sort. *)
Definition sortedScores (members expertiseMatches : list AvailableTeamMember)
    : list ScoredMember :=
  js_sort compareScored (scoreMembers members expertiseMatches).

(** The cursor a call starts from: the cached value, [0] when absent. *)
Definition cursorOf (mid : Z) (w : World) : Z :=
  orElse (option_map snd (find (fun e => fst e =? mid) (roundRobinCache w))) 0.

(** The world after [cache.set(v)] for the queue. *)
Definition withCursor (mid : Z) (v : Z) (w : World) : World :=
  set_roundRobinCache
    ((mid, v) :: filter (fun e => negb (fst e =? mid)) (roundRobinCache w)) w.

(** [(lastAssignedIndex + 1) % topCandidates.length] *)
Definition nextCursor (cursor : Z) (tiedCount : nat) : Z :=
  Z.rem (cursor + 1) (Z.of_nat tiedCount).

(** [k] assignment calls in a row on the same candidates. *)
Fixpoint repeatSelect (k : nat) (members expertiseMatches : list AvailableTeamMember)
    (mid : Z) : Task (list (option AvailableTeamMember)) :=
  match k with
  | O => ret []
  | S k' =>
      r <- selectBestMember members expertiseMatches mid ;;
      rs <- repeatSelect k' members expertiseMatches mid ;;
      ret (r :: rs)
  end.

(** The list [getAvailableTeamMembers] resolves to; reading it changes
    nothing. *)
Definition availableMembersOf (teamMembers : list UserWithMailboxAccessData)
    (mid : Z) (w : World) : list AvailableTeamMember :=
  match fst (getAvailableTeamMembers teamMembers mid w) with
  | Returned l => l
  | Thrown _ => []
  end.

(** The writes of one update of an existing record, before the broadcast:
    the history row when the status really changes, then the row update. *)
Definition historyAfter (uid : string) (mid : Z) (updates : AvailabilityUpdates)
    (now : Z) (cur : UserAvailabilityData) (w : World) : list AvailabilityHistoryData :=
  match u_status updates with
  | Some s =>
      if negb (status_eqb s (status cur))
      then availabilityHistory w ++ [historyRow uid mid cur s updates now]
      else availabilityHistory w
  | None => availabilityHistory w
  end.

(** The table after the row update of one call. *)
Definition rowsAfter (uid : string) (mid : Z) (updates : AvailabilityUpdates)
    (now : Z) (cur : UserAvailabilityData) (w : World) : list UserAvailabilityData :=
  map (fun r => if sameKey uid mid r then setRow updates now cur r else r)
      (userAvailability w).

(** The event one call publishes for the record it returns. *)
Definition updatedEvent (mid : Z) (result : UserAvailabilityData) : RealtimeEvent :=
  {| channel := mid; event := "availability.updated"; data := result |}.

(** The world after a call that went through: new table, new history,
    and the event appended to the realtime log. *)
Definition committed (rows : list UserAvailabilityData)
    (history : list AvailabilityHistoryData) (e : RealtimeEvent) (w : World) : World :=
  {| userAvailability := rows;
     availabilityHistory := history;
     conversations := conversations w;
     conversationNotes := conversationNotes w;
     mailboxes := mailboxes w;
     mailboxAccess := mailboxAccess w;
     roundRobinCache := roundRobinCache w;
     realtimeLog := realtimeLog w ++ [e] |}.

(** The number of entries of a range whose duration is recorded (not
    [null]). *)
Definition recordedDurations (history : list AvailabilityHistoryData) : Z :=
  Z.of_nat (List.length
    (filter (fun h => match durationSeconds h with
                      | Some _ => true
                      | None => false
                      end) history)).

(** No row of the pair (user, mailbox) has [autoAwayAt] set. *)
Definition unarmed (uid : string) (mid : Z) (w : World) : Prop :=
  forall r, In r (userAvailability w) -> sameKey uid mid r = true -> autoAwayAt r = None.

(** A task keeps a property of the world, whether it returns or throws. *)
Definition preserves (P : World -> Prop) {A} (t : Task A) : Prop :=
  forall w, P w -> P (snd (t w)).

(** The pair a record is stored under. *)
Definition keyOf (r : UserAvailabilityData) : string * Z := (userId r, mailboxId r).

(** The rows a loop of the sweep writes to: those whose key is the key of
    a selected record. *)
Definition touched (sel : list UserAvailabilityData) (r : UserAvailabilityData) : bool :=
  existsb (fun x => sameKey (userId x) (mailboxId x) r) sel.

(** A record after the scheduled-return update, and after the auto-away
    update. *)
Definition returnedRow (now : Z) (r : UserAvailabilityData) : UserAvailabilityData :=
  setRow returnUpdates now r r.

Definition awayRow (now : Z) (r : UserAvailabilityData) : UserAvailabilityData :=
  setRow autoAwayUpdates now r r.

(** What the first pass, the second pass and a whole sweep make of a
    record. *)
Definition afterReturns (now : Z) (r : UserAvailabilityData) : UserAvailabilityData :=
  if dueForReturn now r then returnedRow now r else r.

Definition afterAutoAway (now : Z) (r : UserAvailabilityData) : UserAvailabilityData :=
  if dueForAutoAway now r then awayRow now r else r.

Definition afterSweep (now : Z) (r : UserAvailabilityData) : UserAvailabilityData :=
  afterAutoAway now (afterReturns now r).

(** The history rows the two passes write for a record they select. *)
Definition returnEntry (now : Z) (r : UserAvailabilityData) : AvailabilityHistoryData :=
  historyRow (userId r) (mailboxId r) r online returnUpdates now.

Definition awayEntry (now : Z) (r : UserAvailabilityData) : AvailabilityHistoryData :=
  historyRow (userId r) (mailboxId r) r away autoAwayUpdates now.

(** The history rows one sweep appends, given the table it starts from. *)
Definition sweepEntries (now : Z) (rows : list UserAvailabilityData)
    : list AvailabilityHistoryData :=
  (map (returnEntry now) (filter (dueForReturn now) rows)
   ++ map (awayEntry now)
        (filter (dueForAutoAway now) (map (afterReturns now) rows)))%list.

(** The pair a history row belongs to. *)
Definition entryKey (h : AvailabilityHistoryData) : string * Z :=
  (h_userId h, h_mailboxId h).

(** Short views of a record and of a history row, for the examples. *)
Definition statusLine (r : UserAvailabilityData)
    : string * AvailabilityStatus * option Z * option Z :=
  (userId r, status r, scheduledReturnAt r, autoAwayAt r).

Definition historyLine (h : AvailabilityHistoryData)
    : string * AvailabilityStatus * AvailabilityStatus * option ChangeReason :=
  (h_userId h, fromStatus h, toStatus h, changeReason h).

(** ** Sample data *)

(** A busy member with three open conversations, the only one on the
    roster of mailbox 1. *)
Definition busyAtThree : UserWithMailboxAccessData :=
  {| id := "u1"; displayName := "Uma"; role := NON_CORE; keywords := [] |}.

Definition busyAtThreeWorld : World :=
  {| userAvailability :=
       [{| userId := "u1"; mailboxId := 1; status := busy; customMessage := None;
           lastActivityAt := 1000; lastStatusChangeAt := 1000;
           autoAwayAt := None; scheduledReturnAt := None;
           businessHours := None |}];
     availabilityHistory := [];
     conversations :=
       map (fun n => {| c_id := n; c_mailboxId := 1; c_open := true;
                        assignedToId := Some "u1"; mergedIntoId := None;
                        subject := Some "Invoice"; messages := [] |})
           [1; 2; 3]
       ++ [{| c_id := 4; c_mailboxId := 1; c_open := true;
              assignedToId := None; mergedIntoId := None;
              subject := Some "Refund"; messages := [] |}];
     conversationNotes := [];
     mailboxes := [{| mb_id := 1 |}];
     mailboxAccess := [(1, [busyAtThree])];
     roundRobinCache := [];
     realtimeLog := [] |}.

Definition emptyWorld : World :=
  {| userAvailability := []; availabilityHistory := []; conversations := [];
     conversationNotes := []; mailboxes := []; mailboxAccess := [];
     roundRobinCache := []; realtimeLog := [] |}.

(** Two online candidates with the same score and different workloads: a
    non-core member with nothing open (100 - 0) and a core member with two
    open conversations (100 - 10 + 10). *)
Definition idleNonCore : AvailableTeamMember :=
  {| user := {| id := "u1"; displayName := "Ann"; role := NON_CORE; keywords := [] |};
     availability := {| a_status := online; currentWorkload := 0;
                        isAvailableForAssignment := true;
                        a_customMessage := None |} |}.

Definition loadedCore : AvailableTeamMember :=
  {| user := {| id := "u2"; displayName := "Bo"; role := CORE; keywords := [] |};
     availability := {| a_status := online; currentWorkload := 2;
                        isAvailableForAssignment := true;
                        a_customMessage := None |} |}.

(** A queue with one online member who declares keywords, and an
    unassigned conversation with text. *)
Definition keywordMember : UserWithMailboxAccessData :=
  {| id := "u1"; displayName := "Ann"; role := CORE; keywords := ["billing"] |}.

Definition matcherWorld : World :=
  {| userAvailability :=
       [{| userId := "u1"; mailboxId := 1; status := online; customMessage := None;
           lastActivityAt := 1000; lastStatusChangeAt := 1000;
           autoAwayAt := None; scheduledReturnAt := None;
           businessHours := None |}];
     availabilityHistory := [];
     conversations :=
       [{| c_id := 4; c_mailboxId := 1; c_open := true;
           assignedToId := None; mergedIntoId := None;
           subject := Some "Refund for invoice"; messages := [] |}];
     conversationNotes := [];
     mailboxes := [{| mb_id := 1 |}];
     mailboxAccess := [(1, [keywordMember])];
     roundRobinCache := [];
     realtimeLog := [] |}.

Definition matcherDown : Mailbox -> list AvailableTeamMember -> string -> option AIResult :=
  fun _ _ _ => None.

(** One world with the three situations: conversation 1 is assigned,
    conversation 2 is merged into it, and conversation 3 sits in a mailbox
    whose only roster entry has neither the core nor the non-core role. *)
Definition skipWorld : World :=
  {| userAvailability :=
       [{| userId := "u1"; mailboxId := 1; status := online; customMessage := None;
           lastActivityAt := 1000; lastStatusChangeAt := 1000;
           autoAwayAt := None; scheduledReturnAt := None;
           businessHours := None |}];
     availabilityHistory := [];
     conversations :=
       [{| c_id := 1; c_mailboxId := 1; c_open := true;
           assignedToId := Some "u1"; mergedIntoId := None;
           subject := Some "Invoice"; messages := [] |};
        {| c_id := 2; c_mailboxId := 1; c_open := true;
           assignedToId := None; mergedIntoId := Some 1;
           subject := Some "Invoice again"; messages := [] |};
        {| c_id := 3; c_mailboxId := 2; c_open := true;
           assignedToId := None; mergedIntoId := None;
           subject := Some "Hello"; messages := [] |}];
     conversationNotes := [];
     mailboxes := [{| mb_id := 1 |}; {| mb_id := 2 |}];
     mailboxAccess :=
       [(1, [keywordMember]);
        (2, [{| id := "u9"; displayName := "Zed"; role := OTHER_ROLE;
                keywords := [] |}])];
     roundRobinCache := [];
     realtimeLog := [] |}.

(** A member who has been online since time 1000. *)
Definition onlineRecord : UserAvailabilityData :=
  {| userId := "u1"; mailboxId := 1; status := online; customMessage := None;
     lastActivityAt := 1000; lastStatusChangeAt := 1000;
     autoAwayAt := None; scheduledReturnAt := None; businessHours := None |}.

Definition onlineWorld : World :=
  {| userAvailability := [onlineRecord]; availabilityHistory := [];
     conversations := []; conversationNotes := [];
     mailboxes := [{| mb_id := 1 |}]; mailboxAccess := [(1, [keywordMember])];
     roundRobinCache := []; realtimeLog := [] |}.

(** The updates sent by the status endpoint when the member only edits
    the message and keeps the status, and the ones sent by the business
    hours endpoint, which names no status. *)
Definition messagePatch : AvailabilityUpdates :=
  {| u_status := Some online; u_customMessage := Some (Some "At lunch");
     u_lastActivityAt := None; u_lastStatusChangeAt := None;
     u_autoAwayAt := None; u_scheduledReturnAt := None;
     u_businessHours := None; u_changeReason := Some manual;
     u_sessionData := None |}.

Definition hoursPatch : AvailabilityUpdates :=
  {| u_status := None; u_customMessage := None;
     u_lastActivityAt := None; u_lastStatusChangeAt := None;
     u_autoAwayAt := None; u_scheduledReturnAt := None;
     u_businessHours := Some (Some {| timezone := "UTC"; schedule := [] |});
     u_changeReason := Some manual; u_sessionData := None |}.

(** Two sessions of mailbox 1: one of 10 seconds with a response time of
    4, one without a recorded duration and without a response time. *)
Definition timedSession : AvailabilityHistoryData :=
  {| h_userId := "u1"; h_mailboxId := 1; fromStatus := online; toStatus := away;
     durationSeconds := Some 10; changeReason := Some manual;
     sessionData := Some {| conversationsHandled := Some 2;
                            messagesReplied := Some 3;
                            averageResponseTime := Some (4 # 1) |};
     createdAt := 2000 |}.

Definition untimedSession : AvailabilityHistoryData :=
  {| h_userId := "u1"; h_mailboxId := 1; fromStatus := away; toStatus := online;
     durationSeconds := None; changeReason := Some manual;
     sessionData := Some {| conversationsHandled := None;
                            messagesReplied := None;
                            averageResponseTime := None |};
     createdAt := 3000 |}.

Definition analyticsWorld : World :=
  {| userAvailability := []; availabilityHistory := [timedSession; untimedSession];
     conversations := []; conversationNotes := []; mailboxes := [];
     mailboxAccess := []; roundRobinCache := []; realtimeLog := [] |}.

Definition goBusy : AvailabilityUpdates :=
  {| u_status := Some busy; u_customMessage := None;
     u_lastActivityAt := None; u_lastStatusChangeAt := None;
     u_autoAwayAt := None; u_scheduledReturnAt := None;
     u_businessHours := None; u_changeReason := Some manual;
     u_sessionData := None |}.

(** A day in the life of the online member: the pings, a status change, a
    scheduled return and the sweeps never arm the deadline. *)
Definition quietDay : list (Operation * Z) :=
  [(RecordActivity "u1" 1, 2000);
   (UpdateStatus "u1" 1 busy (Some (Some "On a call")), 3000);
   (SetScheduledReturn "u1" 1 9000 None, 4000);
   (Sweep, 10000);
   (RecordActivity "u1" 1, 11000);
   (Sweep, 8000000)].

(** Three members of mailbox 1 at time 6000: one away whose return was
    scheduled for 5000, one online whose auto-away deadline was 4000, and
    one away whose return is scheduled for 9000. *)
Definition sweepWorld : World :=
  {| userAvailability :=
       [{| userId := "u1"; mailboxId := 1; status := away; customMessage := None;
           lastActivityAt := 1000; lastStatusChangeAt := 1000;
           autoAwayAt := None; scheduledReturnAt := Some 5000;
           businessHours := None |};
        {| userId := "u2"; mailboxId := 1; status := online; customMessage := None;
           lastActivityAt := 2000; lastStatusChangeAt := 2000;
           autoAwayAt := Some 4000; scheduledReturnAt := None;
           businessHours := None |};
        {| userId := "u3"; mailboxId := 1; status := away; customMessage := None;
           lastActivityAt := 3000; lastStatusChangeAt := 3000;
           autoAwayAt := None; scheduledReturnAt := Some 9000;
           businessHours := None |}];
     availabilityHistory := [];
     conversations := []; conversationNotes := [];
     mailboxes := [{| mb_id := 1 |}]; mailboxAccess := [];
     roundRobinCache := []; realtimeLog := [] |}.

(** ** Notions used by the further properties *)

(** A property of the world that reads only the two availability tables. *)
Definition storeOnly (P : World -> Prop) : Prop :=
  forall w w',
    userAvailability w' = userAvailability w ->
    availabilityHistory w' = availabilityHistory w ->
    P w -> P w'.

(** The second world differs from the first in the rotation cursors at
    most. *)
Definition exceptCache (w w' : World) : Prop :=
  userAvailability w' = userAvailability w
  /\ availabilityHistory w' = availabilityHistory w
  /\ conversations w' = conversations w
  /\ conversationNotes w' = conversationNotes w
  /\ mailboxes w' = mailboxes w
  /\ mailboxAccess w' = mailboxAccess w
  /\ realtimeLog w' = realtimeLog w.

(** One row per (user, mailbox). *)
Definition uniqueKeys (w : World) : Prop :=
  NoDup (map keyOf (userAvailability w)).

(** Every stored rotation cursor is non-negative. *)
Definition cursorsNonNegative (w : World) : Prop :=
  forall e, In e (roundRobinCache w) -> 0 <= snd e.

(** The world after a member sends a series of status updates through the
    status endpoint, each at its own time. *)
Fixpoint updateStatuses (publishToRealtime : RealtimeEvent -> bool)
    (uid : string) (mid : Z) (steps : list (AvailabilityStatus * Z)) (w : World)
    : World :=
  match steps with
  | [] => w
  | (s, t) :: rest =>
      updateStatuses publishToRealtime uid mid rest
        (snd (updateStatus publishToRealtime uid mid s None t w))
  end.

(** The transitions such a series goes through, from a record in status
    [cur] stamped [since]: (from, to, seconds spent).  A step that repeats
    the current status is no transition, but it moves the stamp. *)
Fixpoint transitionsOf (cur : AvailabilityStatus) (since : Z)
    (steps : list (AvailabilityStatus * Z))
    : list (AvailabilityStatus * AvailabilityStatus * option Z) :=
  match steps with
  | [] => []
  | (s, t) :: rest =>
      if status_eqb s cur
      then transitionsOf s t rest
      else (cur, s, Some ((t - since) / 1000)) :: transitionsOf s t rest
  end.

(** What a history row says about a transition. *)
Definition transitionLine (h : AvailabilityHistoryData)
    : AvailabilityStatus * AvailabilityStatus * option Z :=
  (fromStatus h, toStatus h, durationSeconds h).

(** [k] calls in a row of the core rotation on the same members. *)
Fixpoint repeatCoreRotation (k : nat) (coreTeamMembers : list UserWithMailboxAccessData)
    (mid : Z) : Task (list (option UserWithMailboxAccessData)) :=
  match k with
  | O => ret []
  | S k' =>
      r <- getNextCoreTeamMemberInRotation coreTeamMembers mid ;;
      rs <- repeatCoreRotation k' coreTeamMembers mid ;;
      ret (r :: rs)
  end.

(** The score the selection gives a candidate. *)
Definition scoreOf (expertiseMatches : list AvailableTeamMember)
    (m : AvailableTeamMember) : Z :=
  calculateMemberScore m (includes expertiseMatches m).

(** The queue of [matcherWorld] when its only member is away. *)
Definition awayRosterWorld : World :=
  {| userAvailability :=
       [{| userId := "u1"; mailboxId := 1; status := away; customMessage := None;
           lastActivityAt := 1000; lastStatusChangeAt := 1000;
           autoAwayAt := None; scheduledReturnAt := None;
           businessHours := None |}];
     availabilityHistory := [];
     conversations :=
       [{| c_id := 4; c_mailboxId := 1; c_open := true;
           assignedToId := None; mergedIntoId := None;
           subject := Some "Refund for invoice"; messages := [] |}];
     conversationNotes := [];
     mailboxes := [{| mb_id := 1 |}];
     mailboxAccess := [(1, [keywordMember])];
     roundRobinCache := [];
     realtimeLog := [] |}.

(** The counter of one status in a distribution. *)
Definition statusCount (s : AvailabilityStatus) (d : StatusDistribution) : Z :=
  match s with
  | online => d_online d
  | busy => d_busy d
  | away => d_away d
  | offline => d_offline d
  end.

(** How many elements satisfy a test, and the sum of a measure. *)
Definition countWhere {A} (p : A -> bool) (l : list A) : Z :=
  Z.of_nat (List.length (filter p l)).

Definition sumOf {A} (f : A -> Z) (l : list A) : Z :=
  fold_right (fun a acc => f a + acc) 0 l.

(** The [where] clause of the analytics query. *)
Definition inRange (mid startDate endDate : Z) (h : AvailabilityHistoryData) : bool :=
  (h_mailboxId h =? mid) && (startDate <=? createdAt h) && (createdAt h <=? endDate).

(** An entry whose duration the fold counts: recorded and not zero. *)
Definition timed (h : AvailabilityHistoryData) : bool :=
  match truthyDuration (durationSeconds h) with
  | Some _ => true
  | None => false
  end.

Definition countedDuration (h : AvailabilityHistoryData) : Z :=
  orElse (truthyDuration (durationSeconds h)) 0.

Definition handledIn (h : AvailabilityHistoryData) : Z :=
  match sessionData h with
  | Some sd => orElse (conversationsHandled sd) 0
  | None => 0
  end.

Definition repliedIn (h : AvailabilityHistoryData) : Z :=
  match sessionData h with
  | Some sd => orElse (messagesReplied sd) 0
  | None => 0
  end.

(** A message that contributes to the conversation text: written by the
    user, with a cleaned-up text that is not empty. *)
Definition hasUserText (m : Message) : bool :=
  String.eqb (m_role m) "user" && negb (String.eqb (orElse (cleanedUpText m) "") "").

(** The subject as a text part: present and not empty, or no part. *)
Definition subjectPart (c : Conversation) : list string :=
  match subject c with
  | Some s => if String.eqb s "" then [] else [s]
  | None => []
  end.

Definition userTexts (c : Conversation) : list string :=
  map (fun m => orElse (cleanedUpText m) "") (filter hasUserText (messages c)).

(** The conversation with another list of messages. *)
Definition withMessages (c : Conversation) (ms : list Message) : Conversation :=
  {| c_id := c_id c; c_mailboxId := c_mailboxId c; c_open := c_open c;
     assignedToId := assignedToId c; mergedIntoId := mergedIntoId c;
     subject := subject c; messages := ms |}.

(** ** Recorded durations *)




(** ** Calls that overlap *)

(** The callback of [db.transaction] in [updateUserAvailability], run for
    the record [current] that the lookup before the transaction returned. *)
Definition updateInTransaction (publishToRealtime : RealtimeEvent -> bool)
    (uid : string) (mid : Z) (updates : AvailabilityUpdates) (now : Z)
    (current : option UserAvailabilityData) : Task UserAvailabilityData :=
  transaction (
    result <-
      match current with
      | Some cur =>
          match u_status updates with
          | Some s =>
              if negb (status_eqb s (status cur))
              then insertHistory (historyRow uid mid cur s updates now)
              else ret tt
          | None => ret tt
          end ;;;
          updatedRows <- updateRows uid mid (setRow updates now cur) ;;
          match updatedRows with
          | updated :: _ => ret updated
          | [] => throw "Failed to update user availability"
          end
      | None =>
          createdRows <- insertRow (newRow uid mid updates now) ;;
          match createdRows with
          | created :: _ => ret created
          | [] => throw "Failed to create user availability"
          end
      end ;;
    publish publishToRealtime
      {| channel := mid; event := "availability.updated"; data := result |} ;;;
    ret result).

(** Two calls of [updateUserAvailability] that overlap: each call awaits
    its lookup before its transaction starts, and here both lookups are
    answered before either transaction runs. *)
Definition overlappingUpdates (publishToRealtime : RealtimeEvent -> bool)
    (uidA : string) (midA : Z) (updatesA : AvailabilityUpdates) (nowA : Z)
    (uidB : string) (midB : Z) (updatesB : AvailabilityUpdates) (nowB : Z)
    : Task (UserAvailabilityData * UserAvailabilityData) :=
  currentA <- getUserAvailability uidA midA ;;
  currentB <- getUserAvailability uidB midB ;;
  resultA <- updateInTransaction publishToRealtime uidA midA updatesA nowA currentA ;;
  resultB <- updateInTransaction publishToRealtime uidB midB updatesB nowB currentB ;;
  ret (resultA, resultB).

(** ** More sample data *)

(** Two members of mailbox 1 at time 6000, both away with a return that
    is due, and one online member whose auto-away deadline has passed. *)
Definition twoDueWorld : World :=
  {| userAvailability :=
       [{| userId := "u1"; mailboxId := 1; status := away; customMessage := None;
           lastActivityAt := 1000; lastStatusChangeAt := 1000;
           autoAwayAt := None; scheduledReturnAt := Some 5000;
           businessHours := None |};
        {| userId := "u2"; mailboxId := 1; status := online; customMessage := None;
           lastActivityAt := 2000; lastStatusChangeAt := 2000;
           autoAwayAt := Some 4000; scheduledReturnAt := None;
           businessHours := None |};
        {| userId := "u3"; mailboxId := 1; status := away; customMessage := None;
           lastActivityAt := 3000; lastStatusChangeAt := 3000;
           autoAwayAt := None; scheduledReturnAt := Some 5500;
           businessHours := None |}];
     availabilityHistory := [];
     conversations := []; conversationNotes := [];
     mailboxes := [{| mb_id := 1 |}]; mailboxAccess := [];
     roundRobinCache := []; realtimeLog := [] |}.

(** A broadcast that rejects the events about one user and delivers the
    others. *)
Definition rejectFor (uid : string) : RealtimeEvent -> bool :=
  fun e => negb (String.eqb (userId (data e)) uid).

(** Two online members of mailbox 1 with nothing open, three unassigned
    conversations, and a rotation cursor left at 5 by earlier calls. *)
Definition tieWorld : World :=
  {| userAvailability :=
       [{| userId := "u1"; mailboxId := 1; status := online; customMessage := None;
           lastActivityAt := 1000; lastStatusChangeAt := 1000;
           autoAwayAt := None; scheduledReturnAt := None;
           businessHours := None |};
        {| userId := "u2"; mailboxId := 1; status := online; customMessage := None;
           lastActivityAt := 2000; lastStatusChangeAt := 2000;
           autoAwayAt := None; scheduledReturnAt := None;
           businessHours := None |}];
     availabilityHistory := [];
     conversations :=
       map (fun n => {| c_id := n; c_mailboxId := 1; c_open := true;
                        assignedToId := None; mergedIntoId := None;
                        subject := Some "Refund"; messages := [] |})
           [4; 5; 6];
     conversationNotes := [];
     mailboxes := [{| mb_id := 1 |}];
     mailboxAccess :=
       [(1, [{| id := "u1"; displayName := "Ann"; role := NON_CORE; keywords := [] |};
             {| id := "u2"; displayName := "Bo"; role := NON_CORE; keywords := [] |}])];
     roundRobinCache := [(1, 5)];
     realtimeLog := [] |}.

Definition tieDay : list (Operation * Z) :=
  [(AutoAssign 4, 5000); (AutoAssign 5, 6000); (AutoAssign 6, 7000); (Sweep, 8000)].

(** A first write for a member without a record, then the day of
    [quietDay]. *)
Definition firstWriteDay : list (Operation * Z) :=
  (RecordActivity "u2" 1, 1500) :: (UpdateStatus "u3" 1 busy None, 1800) :: quietDay.

(** * Properties *)

(** ** Status equality *)

Lemma status_eqb_eq a b : status_eqb a b = true <-> a = b.
Proof. destruct a, b; simpl; split; congruence. Qed.

Lemma status_eqb_refl a : status_eqb a a = true.
Proof. now destruct a. Qed.

(** ** Scoring *)

Lemma calculateMemberScore_formula m matched :
  calculateMemberScore m matched =
  Z.max 0 (PRIORITY_SCORES (a_status (availability m))
           - Z.min (currentWorkload (availability m) * 5) 50
           + bonus matched 25
           + bonus (role_eqb (role (user m)) CORE) 10).
Proof. reflexivity. Qed.

Lemma selectBestMember_single_top members expertiseMatches mid w only :
  members <> [] ->
  topCandidates members expertiseMatches = [only] ->
  selectBestMember members expertiseMatches mid w = (Returned (Some (sm_member only)), w).
Proof.
  intros Hne Htop. unfold selectBestMember.
  destruct members as [|m ms]; [congruence|].
  now rewrite Htop.
Qed.

(** C6: the score is [max(0, priority - min(workload * 5, 50) + 25 if
    matched + 10 if core)] with priorities 100, 50, 0, 0; an online
    candidate at workload 2 has base score 90 and a busy one at workload 0
    has base score 50 (bonuses add to these), and between exactly these two
    the selection returns the online one, whatever the order of the
    candidates, the match set and the state of the rotation cursor, which it
    does not touch. *)
Theorem C6_score_formula_and_online_wins :
  forall (ua ub : UserWithMailboxAccessData) (fa fb : bool) (ca cb : option string)
         (expertiseMatches : list AvailableTeamMember) (mid : Z) (w : World),
    let a := {| user := ua;
                availability := {| a_status := online; currentWorkload := 2;
                                   isAvailableForAssignment := fa;
                                   a_customMessage := ca |} |} in
    let b := {| user := ub;
                availability := {| a_status := busy; currentWorkload := 0;
                                   isAvailableForAssignment := fb;
                                   a_customMessage := cb |} |} in
    (forall m matched,
        calculateMemberScore m matched =
        Z.max 0 (PRIORITY_SCORES (a_status (availability m))
                 - Z.min (currentWorkload (availability m) * 5) 50
                 + bonus matched 25
                 + bonus (role_eqb (role (user m)) CORE) 10))
    /\ (PRIORITY_SCORES online = 100 /\ PRIORITY_SCORES busy = 50
        /\ PRIORITY_SCORES away = 0 /\ PRIORITY_SCORES offline = 0)
    /\ (forall matched,
           calculateMemberScore a matched =
           90 + bonus matched 25 + bonus (role_eqb (role ua) CORE) 10)
    /\ (forall matched,
           calculateMemberScore b matched =
           50 + bonus matched 25 + bonus (role_eqb (role ub) CORE) 10)
    /\ selectBestMember [a; b] expertiseMatches mid w = (Returned (Some a), w)
    /\ selectBestMember [b; a] expertiseMatches mid w = (Returned (Some a), w).
Proof.
  intros ua ub fa fb ca cb expertiseMatches mid w a b.
  split; [intros; apply calculateMemberScore_formula|].
  split; [repeat split|].
  split; [intros []; unfold calculateMemberScore; simpl;
          destruct (role_eqb (role ua) CORE); reflexivity|].
  split; [intros []; unfold calculateMemberScore; simpl;
          destruct (role_eqb (role ub) CORE); reflexivity|].
  split.
  - apply (selectBestMember_single_top [a; b] expertiseMatches mid w
             {| sm_member := a;
                score := calculateMemberScore a (includes expertiseMatches a);
                hasExpertise := includes expertiseMatches a |});
      [discriminate|].
    unfold topCandidates, scoreMembers, compareScored, calculateMemberScore.
    simpl.
    destruct (includes expertiseMatches a), (includes expertiseMatches b),
      (role_eqb (role ua) CORE), (role_eqb (role ub) CORE); reflexivity.
  - apply (selectBestMember_single_top [b; a] expertiseMatches mid w
             {| sm_member := a;
                score := calculateMemberScore a (includes expertiseMatches a);
                hasExpertise := includes expertiseMatches a |});
      [discriminate|].
    unfold topCandidates, scoreMembers, compareScored, calculateMemberScore.
    simpl.
    destruct (includes expertiseMatches a), (includes expertiseMatches b),
      (role_eqb (role ua) CORE), (role_eqb (role ub) CORE); reflexivity.
Qed.

(** ** The stable sort *)

Section Sorting.

Context {A : Type} (cmp : A -> A -> Z).

Hypothesis cmp_total : forall a b, 0 < cmp a b -> cmp b a <= 0.
Hypothesis cmp_trans : forall a b c, cmp a b <= 0 -> cmp b c <= 0 -> cmp a c <= 0.

Lemma js_insert_In x y l : In y (js_insert cmp x l) <-> y = x \/ In y l.
Proof.
  induction l as [|z l IH]; simpl.
  - intuition.
  - destruct (cmp x z <=? 0); simpl; [intuition|].
    rewrite IH. intuition.
Qed.

Lemma js_sort_In y l : In y (js_sort cmp l) <-> In y l.
Proof.
  induction l as [|x l IH]; simpl; [reflexivity|].
  rewrite js_insert_In, IH. intuition.
Qed.

Lemma js_insert_length x l : List.length (js_insert cmp x l) = S (List.length l).
Proof.
  induction l as [|z l IH]; simpl; [reflexivity|].
  destruct (cmp x z <=? 0); simpl; [reflexivity | now rewrite IH].
Qed.

Lemma js_sort_length l : List.length (js_sort cmp l) = List.length l.
Proof.
  induction l as [|x l IH]; simpl; [reflexivity|].
  now rewrite js_insert_length, IH.
Qed.

Lemma js_insert_sorted x l :
  StronglySorted (precedes cmp) l -> StronglySorted (precedes cmp) (js_insert cmp x l).
Proof.
  induction 1 as [|z l Hs IH Hall]; simpl.
  - constructor; constructor.
  - destruct (Z.leb_spec (cmp x z) 0) as [Hle|Hgt].
    + constructor; [constructor; assumption|].
      constructor; [exact Hle|].
      rewrite Forall_forall in *. intros b Hb.
      apply cmp_trans with z; [exact Hle | now apply Hall].
    + constructor; [exact IH|].
      rewrite Forall_forall in *. intros b Hb.
      apply js_insert_In in Hb. destruct Hb as [->|Hb].
      * now apply cmp_total.
      * now apply Hall.
Qed.

Lemma js_sort_sorted l : StronglySorted (precedes cmp) (js_sort cmp l).
Proof.
  induction l as [|x l IH]; simpl; [constructor|].
  now apply js_insert_sorted.
Qed.

End Sorting.

(** ** Selection and the rotation cursor *)

Lemma compareScored_le a b :
  compareScored a b <= 0 <->
  score b < score a \/ (score a = score b /\ workloadOf a <= workloadOf b).
Proof.
  unfold compareScored, workloadOf.
  destruct (Z.eqb_spec (score a) (score b)) as [He|Hn]; simpl.
  - destruct (Z.eqb_spec (currentWorkload (availability (sm_member a)))
                         (currentWorkload (availability (sm_member b)))); simpl; lia.
  - lia.
Qed.

Lemma compareScored_total a b : 0 < compareScored a b -> compareScored b a <= 0.
Proof.
  intros H. apply compareScored_le.
  assert (~ compareScored a b <= 0) as Hn by lia.
  rewrite compareScored_le in Hn. lia.
Qed.

Lemma compareScored_trans a b c :
  compareScored a b <= 0 -> compareScored b c <= 0 -> compareScored a c <= 0.
Proof. rewrite !compareScored_le. lia. Qed.

Lemma sortedScores_sorted members expertiseMatches :
  StronglySorted (precedes compareScored) (sortedScores members expertiseMatches).
Proof.
  apply js_sort_sorted; [apply compareScored_total | apply compareScored_trans].
Qed.

Lemma filter_score_workload_sorted l v :
  StronglySorted (precedes compareScored) l ->
  StronglySorted (fun a b => workloadOf a <= workloadOf b)
    (filter (fun m => score m =? v) l).
Proof.
  induction 1 as [|a l Hs IH Hall]; simpl; [constructor|].
  destruct (Z.eqb_spec (score a) v) as [Ha|Ha]; [|exact IH].
  constructor; [exact IH|].
  rewrite Forall_forall in *. intros b Hb.
  apply filter_In in Hb. destruct Hb as [Hb Hv].
  apply Z.eqb_eq in Hv.
  specialize (Hall b Hb). unfold precedes in Hall.
  rewrite compareScored_le in Hall. lia.
Qed.

Lemma topCandidates_spec members expertiseMatches :
  topCandidates members expertiseMatches =
  match sortedScores members expertiseMatches with
  | [] => []
  | first :: _ =>
      filter (fun m => score m =? score first) (sortedScores members expertiseMatches)
  end.
Proof. reflexivity. Qed.

Lemma topCandidates_workload_sorted members expertiseMatches :
  StronglySorted (fun a b => workloadOf a <= workloadOf b)
    (topCandidates members expertiseMatches).
Proof.
  rewrite topCandidates_spec.
  pose proof (sortedScores_sorted members expertiseMatches) as Hs.
  destruct (sortedScores members expertiseMatches) as [|first rest] eqn:E;
    [constructor|].
  now apply filter_score_workload_sorted.
Qed.

Lemma topCandidates_max members expertiseMatches s :
  In s (topCandidates members expertiseMatches) <->
  In s (scoreMembers members expertiseMatches)
  /\ forall s', In s' (scoreMembers members expertiseMatches) -> score s' <= score s.
Proof.
  rewrite topCandidates_spec.
  pose proof (sortedScores_sorted members expertiseMatches) as Hs.
  assert (Hin : forall x, In x (sortedScores members expertiseMatches)
                          <-> In x (scoreMembers members expertiseMatches))
    by (intros x; apply js_sort_In).
  destruct (sortedScores members expertiseMatches) as [|first rest] eqn:E.
  - split; [intros []|]. intros [H _]. apply Hin in H. destruct H.
  - assert (Hmax : forall x, In x (first :: rest) -> score x <= score first).
    { inversion Hs as [|? ? _ Hall]; subst.
      rewrite Forall_forall in Hall.
      intros x [<-|Hx]; [lia|].
      specialize (Hall x Hx). unfold precedes in Hall.
      rewrite compareScored_le in Hall. lia. }
    rewrite filter_In, Z.eqb_eq, Hin. split.
    + intros [Hs1 Heq]. split; [exact Hs1|].
      intros s' Hs'. apply Hin in Hs'. rewrite Heq. now apply Hmax.
    + intros [Hs1 Hge]. split; [exact Hs1|].
      apply Z.le_antisymm.
      * apply Hmax. now apply Hin.
      * apply Hge. apply Hin. now left.
Qed.

Lemma cursorOf_withCursor mid v w : cursorOf mid (withCursor mid v w) = v.
Proof. unfold cursorOf, withCursor. simpl. now rewrite Z.eqb_refl. Qed.

Lemma nextCursor_mod cursor n :
  0 <= cursor -> (0 < n)%nat ->
  nextCursor cursor n = (cursor + 1) mod Z.of_nat n.
Proof. intros Hc Hn. unfold nextCursor. apply Z.rem_mod_nonneg; lia. Qed.

Lemma nextCursor_range cursor n :
  0 <= cursor -> (0 < n)%nat -> 0 <= nextCursor cursor n < Z.of_nat n.
Proof.
  intros Hc Hn. rewrite nextCursor_mod by assumption.
  apply Z.mod_pos_bound. lia.
Qed.

Lemma topCandidates_members_nonempty members expertiseMatches :
  topCandidates members expertiseMatches <> [] -> members <> [].
Proof. intros H ->. now apply H. Qed.

(** With two or more candidates on the top score the cursor decides. *)
Lemma selectBestMember_tie members expertiseMatches mid w :
  (2 <= List.length (topCandidates members expertiseMatches))%nat ->
  let top := topCandidates members expertiseMatches in
  let next := nextCursor (cursorOf mid w) (List.length top) in
  selectBestMember members expertiseMatches mid w
  = (Returned (option_map sm_member (js_index top next)), withCursor mid next w).
Proof.
  intros Hlen top next. subst next.
  change (2 <= List.length top)%nat in Hlen.
  unfold selectBestMember.
  destruct members as [|m ms]; [simpl in Hlen; lia|].
  fold top. clearbody top.
  destruct top as [|a [|b rest]]; simpl in Hlen; try lia.
  reflexivity.
Qed.

Lemma js_index_in_range {A} (l : list A) i :
  0 <= i < Z.of_nat (List.length l) ->
  exists x, js_index l i = Some x /\ In x l.
Proof.
  intros Hi. unfold js_index.
  destruct (Z.ltb_spec i 0) as [Hneg|_]; [lia|].
  destruct (nth_error l (Z.to_nat i)) as [x|] eqn:E.
  - exists x. split; [reflexivity|]. eapply nth_error_In; eauto.
  - apply nth_error_None in E. lia.
Qed.

Lemma repeatSelect_round_robin members expertiseMatches mid :
  (2 <= List.length (topCandidates members expertiseMatches))%nat ->
  let top := topCandidates members expertiseMatches in
  let n := Z.of_nat (List.length top) in
  forall k w,
    0 <= cursorOf mid w ->
    fst (repeatSelect k members expertiseMatches mid w)
    = Returned
        (map (fun i => option_map sm_member
                         (js_index top ((cursorOf mid w + 1 + Z.of_nat i) mod n)))
             (seq 0 k)).
Proof.
  intros Hlen top n k. induction k as [|k IH]; intros w Hc; [reflexivity|].
  cbn [repeatSelect]. unfold bind at 1.
  rewrite selectBestMember_tie by exact Hlen.
  fold top.
  assert (Hpos : (0 < List.length top)%nat) by (unfold top; lia).
  pose proof (nextCursor_range (cursorOf mid w) (List.length top) Hc Hpos) as Hr.
  specialize (IH (withCursor mid (nextCursor (cursorOf mid w) (List.length top)) w)).
  rewrite cursorOf_withCursor in IH. specialize (IH (proj1 Hr)).
  unfold bind at 1.
  destruct (repeatSelect k members expertiseMatches mid
              (withCursor mid (nextCursor (cursorOf mid w) (List.length top)) w))
    as [[rs|msg] w'] eqn:E; simpl in IH; [|discriminate].
  injection IH as ->. simpl. f_equal.
  rewrite nextCursor_mod by assumption. fold n.
  rewrite Z.add_0_r. f_equal.
  rewrite <- seq_shift, map_map.
  apply map_ext. intros i. do 2 f_equal.
  rewrite Nat2Z.inj_succ.
  replace ((cursorOf mid w + 1) mod n + 1 + Z.of_nat i)
    with ((cursorOf mid w + 1) mod n + (1 + Z.of_nat i)) by lia.
  rewrite Z.add_mod_idemp_l by (unfold n; lia).
  f_equal. lia.
Qed.

(** C1, as stated, fails: with the two candidates above tied on the top
    score and not on workload, the first call on a fresh queue consults and
    advances the rotation cursor and returns the candidate with the higher
    workload. *)
Lemma C1_lowest_workload_not_selected :
  calculateMemberScore idleNonCore false = 100
  /\ calculateMemberScore loadedCore false = 100
  /\ currentWorkload (availability idleNonCore)
     < currentWorkload (availability loadedCore)
  /\ map sm_member (topCandidates [idleNonCore; loadedCore] [])
     = [idleNonCore; loadedCore]
  /\ selectBestMember [idleNonCore; loadedCore] [] 7 emptyWorld
     = (Returned (Some loadedCore), withCursor 7 1 emptyWorld)
  /\ ~ (forall members expertiseMatches mid w selected,
          (2 <= List.length (topCandidates members expertiseMatches))%nat ->
          fst (selectBestMember members expertiseMatches mid w)
          = Returned (Some selected) ->
          forall s, In s (topCandidates members expertiseMatches) ->
                    currentWorkload (availability selected) <= workloadOf s).
Proof.
  repeat split; try reflexivity.
  intros H.
  specialize (H [idleNonCore; loadedCore] [] 7 emptyWorld loadedCore).
  specialize (H ltac:(vm_compute; lia) eq_refl
                {| sm_member := idleNonCore; score := 100; hasExpertise := false |}).
  specialize (H ltac:(left; reflexivity)).
  vm_compute in H. now apply H.
Qed.

(** C1, amended: when two or more candidates share the top score, the
    tie set is exactly the candidates of maximal score, ordered by
    ascending workload; the rotation cursor is consulted for every such tie,
    whether or not the workloads differ.  For a cursor that is absent (read
    as 0) or between 0 and [Number.MAX_SAFE_INTEGER], the range in which
    the code's [lastAssignedIndex + 1] is exact, the new cursor is
    [(cursor + 1) mod tiedCount], it is stored for the queue, and the
    candidate at that position of the tie set is returned; repeated calls on
    the same candidates walk through the tie set in round-robin order. *)
Theorem C1_rotation_over_score_ties
    (members expertiseMatches : list AvailableTeamMember) (mid : Z) (w : World)
    (Htie : (2 <= List.length (topCandidates members expertiseMatches))%nat)
    (Hcursor : 0 <= cursorOf mid w)
    (Hsafe : cursorOf mid w <= MAX_SAFE_INTEGER) :
  let tied := topCandidates members expertiseMatches in
  let tiedCount := Z.of_nat (List.length tied) in
  let cursor := (cursorOf mid w + 1) mod tiedCount in
  (forall s, In s tied <->
             In s (scoreMembers members expertiseMatches)
             /\ forall s', In s' (scoreMembers members expertiseMatches) ->
                           score s' <= score s)
  /\ StronglySorted (fun a b => workloadOf a <= workloadOf b) tied
  /\ (exists s,
        nth_error tied (Z.to_nat cursor) = Some s
        /\ selectBestMember members expertiseMatches mid w
           = (Returned (Some (sm_member s)), withCursor mid cursor w)
        /\ cursorOf mid (withCursor mid cursor w) = cursor)
  /\ (forall k,
        fst (repeatSelect k members expertiseMatches mid w)
        = Returned
            (map (fun i => option_map sm_member
                             (js_index tied
                                ((cursorOf mid w + 1 + Z.of_nat i) mod tiedCount)))
                 (seq 0 k))).
Proof.
  intros tied tiedCount cursor.
  split; [intros s; apply topCandidates_max|].
  split; [apply topCandidates_workload_sorted|].
  split.
  - assert (Hpos : (0 < List.length tied)%nat) by (unfold tied; lia).
    pose proof (nextCursor_range _ _ Hcursor Hpos) as Hr.
    rewrite nextCursor_mod in Hr by assumption. fold tiedCount cursor in Hr.
    destruct (js_index_in_range tied cursor Hr) as [s [Hs _]].
    exists s. split.
    + unfold js_index in Hs.
      destruct (Z.ltb_spec cursor 0); [lia | exact Hs].
    + split; [|apply cursorOf_withCursor].
      rewrite selectBestMember_tie by exact Htie.
      fold tied. rewrite nextCursor_mod by assumption.
      fold tiedCount cursor. now rewrite Hs.
  - intros k. now apply repeatSelect_round_robin.
Qed.

Lemma C1_rotation_over_score_ties_witness :
  (2 <= List.length (topCandidates [idleNonCore; loadedCore] []))%nat
  /\ 0 <= cursorOf 7 emptyWorld
  /\ cursorOf 7 emptyWorld <= MAX_SAFE_INTEGER
  /\ fst (repeatSelect 4 [idleNonCore; loadedCore] [] 7 emptyWorld)
     = Returned [Some loadedCore; Some idleNonCore; Some loadedCore; Some idleNonCore].
Proof.
  split; [vm_compute; lia|].
  split; [vm_compute; discriminate|].
  split; [vm_compute; discriminate|].
  pose proof (C1_rotation_over_score_ties [idleNonCore; loadedCore] [] 7 emptyWorld
                ltac:(vm_compute; lia) ltac:(vm_compute; discriminate)
                ltac:(vm_compute; discriminate)) as H.
  destruct H as [_ [_ [_ H]]].
  rewrite (H 4%nat). reflexivity.
Defined.

Lemma topCandidates_nonempty members expertiseMatches :
  members <> [] -> topCandidates members expertiseMatches <> [].
Proof.
  intros Hne. rewrite topCandidates_spec.
  destruct (sortedScores members expertiseMatches) as [|first rest] eqn:E.
  - exfalso. apply Hne.
    assert (Hlen : List.length (sortedScores members expertiseMatches) = 0%nat)
      by now rewrite E.
    unfold sortedScores, scoreMembers in Hlen.
    rewrite js_sort_length, length_map in Hlen.
    now destruct members.
  - simpl. now rewrite Z.eqb_refl.
Qed.

Lemma topCandidates_from_members members expertiseMatches s :
  In s (topCandidates members expertiseMatches) -> In (sm_member s) members.
Proof.
  intros Hs. apply topCandidates_max in Hs. destruct Hs as [Hs _].
  unfold scoreMembers in Hs. apply in_map_iff in Hs.
  destruct Hs as [m [<- Hm]]. exact Hm.
Qed.

(** From a non-empty candidate list and a cursor that is absent or
    non-negative, the selection returns one of the candidates. *)
Lemma selectBestMember_returns_member members expertiseMatches mid w :
  members <> [] -> 0 <= cursorOf mid w ->
  exists m, fst (selectBestMember members expertiseMatches mid w) = Returned (Some m)
            /\ In m members.
Proof.
  intros Hne Hc.
  pose proof (topCandidates_nonempty members expertiseMatches Hne) as Htop.
  destruct (topCandidates members expertiseMatches) as [|a [|b rest]] eqn:E;
    [congruence| |].
  - exists (sm_member a). split.
    + now rewrite (selectBestMember_single_top members expertiseMatches mid w a Hne E).
    + apply (topCandidates_from_members members expertiseMatches). rewrite E. now left.
  - assert (Hlen : (2 <= List.length (topCandidates members expertiseMatches))%nat)
      by (rewrite E; simpl; lia).
    rewrite (selectBestMember_tie members expertiseMatches mid w Hlen).
    assert (Hpos : (0 < List.length (topCandidates members expertiseMatches))%nat) by lia.
    pose proof (nextCursor_range _ _ Hc Hpos) as Hr.
    destruct (js_index_in_range _ _ Hr) as [s [Hs Hin]].
    exists (sm_member s). cbn [fst]. rewrite Hs. split; [reflexivity|].
    now apply (topCandidates_from_members members expertiseMatches).
Qed.

(** ** The workload gate *)

Lemma membersToConsider_cases available :
  membersToConsider available =
  match filter canHandleWorkload available with
  | [] => available
  | kept => kept
  end.
Proof.
  unfold membersToConsider.
  destruct (filter canHandleWorkload available); reflexivity.
Qed.

Lemma membersToConsider_nonempty available :
  available <> [] -> membersToConsider available <> [].
Proof.
  intros Hne. rewrite membersToConsider_cases.
  destruct (filter canHandleWorkload available); [assumption | discriminate].
Qed.

Lemma selectBestMember_singleton m expertiseMatches mid w :
  selectBestMember [m] expertiseMatches mid w = (Returned (Some m), w).
Proof.
  unfold selectBestMember, topCandidates, scoreMembers. simpl.
  rewrite Z.eqb_refl. reflexivity.
Qed.

(** The whole job on a queue whose only member is busy with three open
    conversations: the conversation is assigned to that member. *)
Example busyAtThree_assigned_through_fallback :
  fst (autoAssignConversation (fun _ => true) (fun _ _ _ => None) 4 5000 busyAtThreeWorld)
  = Returned
      (Assigned "Assigned conversation 4 to Uma (u1)" NON_CORE "u1" busy 3 None
         (Some {| totalAvailable := 1; onlineMembers := 0; busyMembers := 1;
                  averageWorkload := 3 |})).
Proof. vm_compute. reflexivity. Qed.

(** ** The expertise matcher *)

Lemma length_is_zero {A} (l : list A) :
  (Z.of_nat (List.length l) =? 0) = match l with [] => true | _ :: _ => false end.
Proof. destruct l; reflexivity. Qed.

Lemma getAvailableTeamMembers_reads teamMembers mid w :
  getAvailableTeamMembers teamMembers mid w
  = (Returned (availableMembersOf teamMembers mid w), w).
Proof. reflexivity. Qed.

Section Matcher.

Variable runAIObjectQuery :
  Mailbox -> list AvailableTeamMember -> string -> option AIResult.

Lemma getExpertiseMatchingMembers_not_consulted members content mailbox w :
  content = "" \/ filter declaresKeywords members = [] ->
  getExpertiseMatchingMembers runAIObjectQuery members content mailbox w
  = (Returned ([], None), w).
Proof.
  intros H. unfold getExpertiseMatchingMembers.
  destruct (String.eqb_spec content "") as [->|Hc]; [reflexivity|].
  destruct H as [H|H]; [contradiction|].
  rewrite !length_is_zero, H.
  destruct members; reflexivity.
Qed.

Lemma getExpertiseMatchingMembers_error members content mailbox w :
  content <> "" ->
  filter declaresKeywords members <> [] ->
  runAIObjectQuery mailbox (filter declaresKeywords members) content = None ->
  getExpertiseMatchingMembers runAIObjectQuery members content mailbox w
  = (Thrown "AI query failed", w).
Proof.
  intros Hc Hkw Hfail. unfold getExpertiseMatchingMembers.
  destruct (String.eqb_spec content "") as [|_]; [contradiction|].
  rewrite !length_is_zero.
  destruct members as [|m ms]; [now elim Hkw|].
  destruct (filter declaresKeywords (m :: ms)) as [|k ks] eqn:E; [now elim Hkw|].
  cbn [orb]. unfold bind, queryMatcher. now rewrite Hfail.
Qed.

Lemma getExpertiseMatchingMembers_answer members content mailbox w result :
  content <> "" ->
  filter declaresKeywords members <> [] ->
  runAIObjectQuery mailbox (filter declaresKeywords members) content = Some result ->
  getExpertiseMatchingMembers runAIObjectQuery members content mailbox w
  = (Returned (filter (fun m => matchFor result (id (user m)))
                 (filter declaresKeywords members), Some result), w).
Proof.
  intros Hc Hkw Hans. unfold getExpertiseMatchingMembers.
  destruct (String.eqb_spec content "") as [|_]; [contradiction|].
  rewrite !length_is_zero.
  destruct members as [|m ms]; [now elim Hkw|].
  destruct (filter declaresKeywords (m :: ms)) as [|k ks] eqn:E; [now elim Hkw|].
  cbn [orb]. unfold bind, queryMatcher. now rewrite Hans.
Qed.

End Matcher.

(** C5, as stated, fails: with the matcher down, the assignment of the
    conversation above does not complete; the matcher's error is the
    outcome of the whole job and the conversation stays unassigned. *)
Lemma C5_matcher_error_fails_assignment :
  autoAssignConversation (fun _ => true) matcherDown 4 5000 matcherWorld
  = (Thrown "AI query failed", matcherWorld)
  /\ (exists result,
        fst (autoAssignConversation (fun _ => true) (fun _ _ _ => Some result)
               4 5000 matcherWorld)
        = Returned
            (Assigned "Assigned conversation 4 to Ann (u1)" CORE "u1" online 0
               (Some result)
               (Some {| totalAvailable := 1; onlineMembers := 1; busyMembers := 0;
                        averageWorkload := 0 |}))).
Proof.
  split; [vm_compute; reflexivity|].
  exists {| matches := [("u1", true)]; reasoning := "billing question";
            confidenceScore := None; urgencyLevel := None |}.
  vm_compute. reflexivity.
Qed.

Section MatcherFailure.

Variable publishToRealtime : RealtimeEvent -> bool.
Variable runAIObjectQuery :
  Mailbox -> list AvailableTeamMember -> string -> option AIResult.

(** C5, amended: when the matcher is consulted (the conversation has
    text and a considered candidate declares keywords) and its call
    fails, the failure propagates: expertise matching, the choice of the
    next member and the whole job end with the matcher's error, and
    nothing is written. *)
Theorem C5_matcher_error_propagates
    (conversationId now : Z) (w : World)
    (conversation : Conversation) (mailbox : Mailbox)
    (entry : Z * list UserWithMailboxAccessData)
    (Hfound : find (fun c => c_id c =? conversationId) (conversations w)
              = Some conversation)
    (Hunassigned : truthyString (assignedToId conversation) = false)
    (Hunmerged : truthyNumber (mergedIntoId conversation) = false)
    (Hmailbox : find (fun m => mb_id m =? c_mailboxId conversation) (mailboxes w)
                = Some mailbox)
    (Haccess : find (fun e => fst e =? mb_id mailbox) (mailboxAccess w) = Some entry) :
  let activeTeamMembers := filter (fun m => isActiveRole (role m)) (snd entry) in
  let considered :=
    membersToConsider (availableMembersOf activeTeamMembers (mb_id mailbox) w) in
  let content := getConversationContent conversation in
  content <> "" ->
  filter declaresKeywords considered <> [] ->
  runAIObjectQuery mailbox (filter declaresKeywords considered) content = None ->
  getExpertiseMatchingMembers runAIObjectQuery considered content mailbox w
  = (Thrown "AI query failed", w)
  /\ getNextTeamMember runAIObjectQuery activeTeamMembers conversation mailbox w
     = (Thrown "AI query failed", w)
  /\ autoAssignConversation publishToRealtime runAIObjectQuery conversationId now w
     = (Thrown "AI query failed", w).
Proof.
  intros activeTeamMembers considered content Hcontent Hkw Hfail.
  pose proof (getExpertiseMatchingMembers_error runAIObjectQuery
                considered content mailbox w Hcontent Hkw Hfail) as Hmatch.
  assert (Havail : availableMembersOf activeTeamMembers (mb_id mailbox) w <> []).
  { intros E. apply Hkw. unfold considered. rewrite E. reflexivity. }
  assert (Hactive : activeTeamMembers <> []).
  { intros E. apply Havail. rewrite E. reflexivity. }
  assert (Hnext : getNextTeamMember runAIObjectQuery activeTeamMembers
                    conversation mailbox w = (Thrown "AI query failed", w)).
  { unfold getNextTeamMember, bind.
    rewrite getAvailableTeamMembers_reads, length_is_zero.
    destruct (availableMembersOf activeTeamMembers (mb_id mailbox) w) eqn:E;
      [now elim Havail|].
    fold considered content. now rewrite Hmatch. }
  split; [exact Hmatch|]. split; [exact Hnext|].
  unfold autoAssignConversation, getMailboxById, getUsersWithMailboxAccess,
    bind, gets.
  rewrite Hfound. cbn [assertDefined ret]. rewrite Hunassigned, Hunmerged.
  rewrite Hmailbox. cbn [assertDefined ret]. rewrite Haccess.
  cbn [option_map assertDefined ret]. fold activeTeamMembers.
  rewrite length_is_zero.
  destruct activeTeamMembers eqn:E; [now elim Hactive|].
  now rewrite Hnext.
Qed.

End MatcherFailure.

Lemma C5_matcher_error_propagates_witness :
  getConversationContent
    {| c_id := 4; c_mailboxId := 1; c_open := true; assignedToId := None;
       mergedIntoId := None; subject := Some "Refund for invoice"; messages := [] |}
  <> ""
  /\ autoAssignConversation (fun _ => true) matcherDown 4 5000 matcherWorld
     = (Thrown "AI query failed", matcherWorld).
Proof.
  split; [discriminate|].
  apply (C5_matcher_error_propagates (fun _ => true) matcherDown 4 5000 matcherWorld
           {| c_id := 4; c_mailboxId := 1; c_open := true; assignedToId := None;
              mergedIntoId := None; subject := Some "Refund for invoice";
              messages := [] |}
           {| mb_id := 1 |} (1, [keywordMember]));
    try reflexivity; discriminate.
Defined.

(** ** Preconditions of the job *)

Section Preconditions.

Variable publishToRealtime : RealtimeEvent -> bool.
Variable runAIObjectQuery :
  Mailbox -> list AvailableTeamMember -> string -> option AIResult.

(** C8: for a conversation that is already assigned, or merged into
    another one, and for a queue whose roster has no core or non-core
    member, the job returns a skip result and leaves the whole world as
    it was: nothing is recorded, assigned or noted, and nothing is
    thrown. *)
Theorem C8_precondition_skips_write_nothing
    (conversationId now : Z) (w : World) (conversation : Conversation)
    (Hfound : find (fun c => c_id c =? conversationId) (conversations w)
              = Some conversation) :
  (forall assignee,
      assignedToId conversation = Some assignee -> assignee <> "" ->
      autoAssignConversation publishToRealtime runAIObjectQuery conversationId now w
      = (Returned (Skipped "Skipped: already assigned" None None), w))
  /\ (forall target,
        mergedIntoId conversation = Some target -> target <> 0 ->
        exists message,
          autoAssignConversation publishToRealtime runAIObjectQuery
            conversationId now w
          = (Returned (Skipped message None None), w))
  /\ (forall mailbox entry,
        truthyString (assignedToId conversation) = false ->
        truthyNumber (mergedIntoId conversation) = false ->
        find (fun m => mb_id m =? c_mailboxId conversation) (mailboxes w)
        = Some mailbox ->
        find (fun e => fst e =? mb_id mailbox) (mailboxAccess w) = Some entry ->
        filter (fun m => isActiveRole (role m)) (snd entry) = [] ->
        autoAssignConversation publishToRealtime runAIObjectQuery conversationId now w
        = (Returned
             (Skipped "Skipped: no active team members available for assignment"
                None None), w)).
Proof.
  split; [|split].
  - intros assignee Ha Hne.
    unfold autoAssignConversation, bind, gets.
    rewrite Hfound. cbn [assertDefined ret].
    rewrite Ha. cbn [truthyString].
    destruct (String.eqb_spec assignee "") as [|_]; [contradiction|].
    reflexivity.
  - intros target Hm Hne.
    unfold autoAssignConversation, bind, gets.
    rewrite Hfound. cbn [assertDefined ret].
    destruct (truthyString (assignedToId conversation)); [eexists; reflexivity|].
    rewrite Hm. cbn [truthyNumber].
    destruct (Z.eqb_spec target 0) as [|_]; [contradiction|].
    eexists; reflexivity.
  - intros mailbox entry Hun Hnm Hmb Hacc Hnone.
    unfold autoAssignConversation, getMailboxById, getUsersWithMailboxAccess,
      bind, gets.
    rewrite Hfound. cbn [assertDefined ret]. rewrite Hun, Hnm.
    rewrite Hmb. cbn [assertDefined ret]. rewrite Hacc.
    cbn [option_map assertDefined ret]. rewrite Hnone. reflexivity.
Qed.

End Preconditions.

Lemma C8_precondition_skips_write_nothing_witness :
  autoAssignConversation (fun _ => true) matcherDown 1 5000 skipWorld
  = (Returned (Skipped "Skipped: already assigned" None None), skipWorld)
  /\ (exists message,
        autoAssignConversation (fun _ => true) matcherDown 2 5000 skipWorld
        = (Returned (Skipped message None None), skipWorld))
  /\ autoAssignConversation (fun _ => true) matcherDown 3 5000 skipWorld
     = (Returned
          (Skipped "Skipped: no active team members available for assignment"
             None None), skipWorld).
Proof.
  split; [|split].
  - apply (C8_precondition_skips_write_nothing (fun _ => true) matcherDown 1 5000
             skipWorld _ eq_refl) with (assignee := "u1");
      [reflexivity | discriminate].
  - apply (C8_precondition_skips_write_nothing (fun _ => true) matcherDown 2 5000
             skipWorld _ eq_refl) with (target := 1);
      [reflexivity | discriminate].
  - apply (C8_precondition_skips_write_nothing (fun _ => true) matcherDown 3 5000
             skipWorld _ eq_refl)
      with (mailbox := {| mb_id := 2 |})
           (entry := (2, [{| id := "u9"; displayName := "Zed"; role := OTHER_ROLE;
                             keywords := [] |}]));
      reflexivity.
Defined.

(** ** Status updates *)

Lemma setRow_key u now cur r uid mid :
  sameKey uid mid (setRow u now cur r) = sameKey uid mid r.
Proof. reflexivity. Qed.

Lemma find_filter_head {A} (p : A -> bool) l x :
  find p l = Some x -> exists rest, filter p l = x :: rest.
Proof.
  induction l as [|a l IH]; simpl; [discriminate|].
  destruct (p a) eqn:E.
  - intros [= ->]. eexists; reflexivity.
  - exact IH.
Qed.

Lemma filter_after_update uid mid f rows :
  (forall r, sameKey uid mid (f r) = sameKey uid mid r) ->
  filter (sameKey uid mid) (map (fun r => if sameKey uid mid r then f r else r) rows)
  = map f (filter (sameKey uid mid) rows).
Proof.
  intros Hkey. induction rows as [|r rows IH]; simpl; [reflexivity|].
  destruct (sameKey uid mid r) eqn:E.
  - rewrite Hkey, E. simpl. now rewrite IH.
  - rewrite E. exact IH.
Qed.

Section Updates.

Variable publishToRealtime : RealtimeEvent -> bool.

(** What [updateUserAvailability] does to an existing record. *)
Lemma updateUserAvailability_existing uid mid updates now w cur :
  find (sameKey uid mid) (userAvailability w) = Some cur ->
  let result := setRow updates now cur cur in
  updateUserAvailability publishToRealtime uid mid updates now w
  = if publishToRealtime (updatedEvent mid result)
    then (Returned result,
          committed (rowsAfter uid mid updates now cur w)
                    (historyAfter uid mid updates now cur w)
                    (updatedEvent mid result) w)
    else (Thrown "Failed to publish", w).
Proof.
  intros Hfind result.
  destruct (find_filter_head _ _ _ Hfind) as [rest Hrest].
  assert (Hret : filter (sameKey uid mid) (rowsAfter uid mid updates now cur w)
                 = result :: map (setRow updates now cur) rest).
  { unfold rowsAfter. rewrite filter_after_update by reflexivity.
    now rewrite Hrest. }
  unfold updateUserAvailability, getUserAvailability, bind at 1, gets.
  rewrite Hfind.
  unfold transaction, bind, publish, updateRows, insertHistory, modify, ret,
    historyAfter.
  destruct (u_status updates) as [s|] eqn:Es;
    [destruct (status_eqb s (status cur)) eqn:Eq; cbn [negb]|];
    cbn [userAvailability set_userAvailability set_availabilityHistory];
    fold (rowsAfter uid mid updates now cur w); rewrite Hret;
    fold (updatedEvent mid result);
    (destruct (publishToRealtime (updatedEvent mid result));
     [reflexivity | now destruct w]).
Qed.

(** What [updateUserAvailability] does when the record does not exist. *)
Lemma updateUserAvailability_created uid mid updates now w :
  find (sameKey uid mid) (userAvailability w) = None ->
  let result := newRow uid mid updates now in
  updateUserAvailability publishToRealtime uid mid updates now w
  = if publishToRealtime (updatedEvent mid result)
    then (Returned result,
          committed (userAvailability w ++ [result]) (availabilityHistory w)
                    (updatedEvent mid result) w)
    else (Thrown "Failed to publish", w).
Proof.
  intros Hfind result.
  unfold updateUserAvailability, getUserAvailability, bind at 1, gets.
  rewrite Hfind. unfold transaction, bind, publish, insertRow, ret.
  fold result. fold (updatedEvent mid result).
  destruct (publishToRealtime (updatedEvent mid result));
    [reflexivity | now destruct w].
Qed.

End Updates.

(** An update that names the current status writes no history row, for
    every record and every set of other fields, and stamps
    [lastStatusChangeAt] with the time of the call. *)
Lemma same_status_update publishToRealtime uid mid updates now w cur :
  find (sameKey uid mid) (userAvailability w) = Some cur ->
  u_status updates = Some (status cur) ->
  publishToRealtime (updatedEvent mid (setRow updates now cur cur)) = true ->
  exists w',
    updateUserAvailability publishToRealtime uid mid updates now w
    = (Returned (setRow updates now cur cur), w')
    /\ availabilityHistory w' = availabilityHistory w
    /\ lastStatusChangeAt (setRow updates now cur cur) = now.
Proof.
  intros Hfind Hstatus Hpub.
  rewrite (updateUserAvailability_existing _ _ _ _ _ _ _ Hfind). cbv zeta.
  rewrite Hpub. eexists. split; [reflexivity|].
  split.
  - cbn [availabilityHistory committed]. unfold historyAfter.
    now rewrite Hstatus, status_eqb_refl.
  - cbn [lastStatusChangeAt setRow]. now rewrite Hstatus.
Qed.

(** C2 at the failing input: a member online since 1000 sends, at time
    61000, the same status with a new message.  No history row is written,
    but [lastStatusChangeAt] moves from 1000 to 61000; the patch that names
    no status leaves it at 1000. *)
Theorem C2_same_status_moves_lastStatusChangeAt :
  let after := updateUserAvailability (fun _ => true) "u1" 1 messagePatch 61000
                 onlineWorld in
  let afterHours := updateUserAvailability (fun _ => true) "u1" 1 hoursPatch 61000
                      onlineWorld in
  map status (userAvailability (snd after)) = [online]
  /\ availabilityHistory (snd after) = []
  /\ map lastStatusChangeAt (userAvailability onlineWorld) = [1000]
  /\ map lastStatusChangeAt (userAvailability (snd after)) = [61000]
  /\ map lastStatusChangeAt (userAvailability (snd afterHours)) = [1000].
Proof. vm_compute. repeat split. Qed.

(** ** Analytics *)

(** The average session duration divides by the number of entries, for
    every range. *)
Lemma averageSessionDuration_denominator history :
  history <> [] ->
  averageSessionDuration (analyze history)
  = (inject_Z (totalDuration (fold_left analyticsStep history initialTotals))
     / inject_Z (Z.of_nat (List.length history)))%Q.
Proof.
  intros Hne. unfold analyze. cbn [averageSessionDuration].
  destruct history as [|h hs]; [contradiction|].
  reflexivity.
Qed.

(** The column [durationSeconds] is nullable.  Over a table that holds a
    row without a duration, which no call of the store writes, the two
    denominators differ: with one timed entry (10 seconds) and one entry
    without a duration the average is 10 / 2 = 5 and not 10 / 1 = 10, while
    the average response time of the same range divides by the one entry
    that carries a response time. *)
Example untimed_row_counts_in_the_average :
  let result := fst (getAvailabilityAnalytics 1 0 10000 analyticsWorld) in
  exists analytics,
    result = Returned analytics
    /\ totalSessions analytics = 2
    /\ recordedDurations (historyInRange 1 0 10000 analyticsWorld) = 1
    /\ (averageSessionDuration analytics == 5)%Q
    /\ ~ (averageSessionDuration analytics == 10 / 1)%Q
    /\ (p_averageResponseTime (productivityMetrics analytics) == 4 / 1)%Q.
Proof.
  eexists. split; [reflexivity|].
  repeat split; try reflexivity.
  intros H. vm_compute in H. discriminate.
Qed.

(** ** The broadcast *)

(** C4, as stated, fails: when the broadcast rejects, the transition of
    the member from online to busy fails with it and neither the history row
    nor the new status is kept; with a working broadcast the same call
    commits both. *)
Lemma C4_failed_broadcast_undoes_transition :
  updateUserAvailability (fun _ => false) "u1" 1 goBusy 61000 onlineWorld
  = (Thrown "Failed to publish", onlineWorld)
  /\ map status
       (userAvailability
          (snd (updateUserAvailability (fun _ => true) "u1" 1 goBusy 61000 onlineWorld)))
     = [busy]
  /\ map (fun h => (fromStatus h, toStatus h, durationSeconds h))
       (availabilityHistory
          (snd (updateUserAvailability (fun _ => true) "u1" 1 goBusy 61000 onlineWorld)))
     = [(online, busy, Some 60)].
Proof. vm_compute. repeat split. Qed.

Section Broadcast.

Variable publishToRealtime : RealtimeEvent -> bool.

(** C4, amended: for every status transition of an existing record the
    broadcast is issued inside the transaction, after the history insert
    and the record update, and carries the updated record; if it is
    delivered, the history row and the new record are committed and the
    event is logged; if it fails, the call fails and the history insert and
    the record update are rolled back, leaving the world as it was. *)
Theorem C4_broadcast_inside_transaction
    (uid : string) (mid : Z) (updates : AvailabilityUpdates) (now : Z)
    (w : World) (cur : UserAvailabilityData) (newStatus : AvailabilityStatus)
    (Hfind : find (sameKey uid mid) (userAvailability w) = Some cur)
    (Hstatus : u_status updates = Some newStatus)
    (Hchange : newStatus <> status cur) :
  let result := setRow updates now cur cur in
  let e := updatedEvent mid result in
  status result = newStatus
  /\ lastStatusChangeAt result = now
  /\ (publishToRealtime e = true ->
      updateUserAvailability publishToRealtime uid mid updates now w
      = (Returned result,
         committed (rowsAfter uid mid updates now cur w)
           (availabilityHistory w ++ [historyRow uid mid cur newStatus updates now])
           e w))
  /\ (publishToRealtime e = false ->
      updateUserAvailability publishToRealtime uid mid updates now w
      = (Thrown "Failed to publish", w)).
Proof.
  intros result e.
  assert (Hne : status_eqb newStatus (status cur) = false).
  { destruct (status_eqb newStatus (status cur)) eqn:E; [|reflexivity].
    apply status_eqb_eq in E. contradiction. }
  split; [cbn; now rewrite Hstatus|].
  split; [cbn; now rewrite Hstatus|].
  rewrite (updateUserAvailability_existing _ _ _ _ _ _ _ Hfind). cbv zeta.
  fold result. fold e.
  split; intros Hpub; rewrite Hpub; [|reflexivity].
  unfold historyAfter. now rewrite Hstatus, Hne.
Qed.

End Broadcast.

Lemma C4_broadcast_inside_transaction_witness :
  find (sameKey "u1" 1) (userAvailability onlineWorld) = Some onlineRecord
  /\ busy <> status onlineRecord
  /\ updateUserAvailability (fun _ => false) "u1" 1 goBusy 61000 onlineWorld
     = (Thrown "Failed to publish", onlineWorld).
Proof.
  split; [reflexivity|]. split; [discriminate|].
  apply (C4_broadcast_inside_transaction (fun _ => false) "u1" 1 goBusy 61000
           onlineWorld onlineRecord busy eq_refl eq_refl);
    [discriminate | reflexivity].
Defined.

(** ** The auto-away deadline *)

Lemma preserves_ret P {A} (a : A) : preserves P (ret a).
Proof. intros w H. exact H. Qed.

Lemma preserves_throw P {A} msg : preserves P (@throw A msg).
Proof. intros w H. exact H. Qed.

Lemma preserves_gets P {A} (f : World -> A) : preserves P (gets f).
Proof. intros w H. exact H. Qed.

Lemma preserves_bind P {A B} (t : Task A) (k : A -> Task B) :
  preserves P t -> (forall a, preserves P (k a)) -> preserves P (bind t k).
Proof.
  intros Ht Hk w H. unfold bind.
  specialize (Ht w H). destruct (t w) as [[a|msg] w']; simpl in *.
  - now apply Hk.
  - exact Ht.
Qed.

Lemma preserves_rethrowAs P {A} msg (t : Task A) :
  preserves P t -> preserves P (rethrowAs msg t).
Proof.
  intros Ht w H. unfold rethrowAs.
  specialize (Ht w H). now destruct (t w) as [[a|m] w'].
Qed.

Lemma preserves_forEach P {A} (xs : list A) body :
  (forall x, preserves P (body x)) -> preserves P (forEach xs body).
Proof.
  intros Hb. induction xs as [|x xs IH]; simpl.
  - apply preserves_ret.
  - apply preserves_bind; [apply Hb | intros _; exact IH].
Qed.

Lemma preserves_assertDefined P {A} (v : option A) : preserves P (assertDefined v).
Proof. destruct v; [apply preserves_ret | apply preserves_throw]. Qed.

(** A task that leaves the availability table alone preserves a property
    of that table. *)
Lemma preserves_rows uid mid {A} (t : Task A) :
  (forall w, userAvailability (snd (t w)) = userAvailability w) ->
  preserves (unarmed uid mid) t.
Proof. intros Hrows w H. unfold unarmed. rewrite Hrows. exact H. Qed.

Lemma sameKey_both uid mid uid' mid' r :
  sameKey uid mid r = true -> sameKey uid' mid' r = true ->
  uid' = uid /\ mid' = mid.
Proof.
  unfold sameKey. rewrite !andb_true_iff, !String.eqb_eq, !Z.eqb_eq.
  intros [<- <-] [<- <-]. split; reflexivity.
Qed.

Section Unarmed.

Variable publishToRealtime : RealtimeEvent -> bool.
Variable runAIObjectQuery :
  Mailbox -> list AvailableTeamMember -> string -> option AIResult.
Variables (uid : string) (mid : Z).

(** An update keeps the deadline of (uid, mid) unset when it is for another
    record, or when it leaves [autoAwayAt] out or clears it. *)
Lemma updateUserAvailability_unarmed uid' mid' updates now w :
  (uid' = uid -> mid' = mid ->
   u_autoAwayAt updates = None \/ u_autoAwayAt updates = Some None) ->
  unarmed uid mid w ->
  unarmed uid mid
    (snd (updateUserAvailability publishToRealtime uid' mid' updates now w)).
Proof.
  intros Hupd Hw.
  destruct (find (sameKey uid' mid') (userAvailability w)) as [cur|] eqn:Hfind.
  - rewrite (updateUserAvailability_existing _ _ _ _ _ _ _ Hfind). cbv zeta.
    destruct (publishToRealtime _); [|exact Hw].
    intros r' Hin Hkey. cbn [snd userAvailability committed] in Hin.
    unfold rowsAfter in Hin. apply in_map_iff in Hin.
    destruct Hin as [r [Hr Hin]].
    destruct (sameKey uid' mid' r) eqn:Hk'; subst r'; [|now apply Hw].
    rewrite setRow_key in Hkey.
    destruct (sameKey_both _ _ _ _ _ Hkey Hk') as [Hu Hm].
    cbn [autoAwayAt setRow].
    destruct (Hupd Hu Hm) as [-> | ->]; [|reflexivity].
    cbn [orElse]. now apply Hw.
  - rewrite (updateUserAvailability_created _ _ _ _ _ _ Hfind). cbv zeta.
    destruct (publishToRealtime _); [|exact Hw].
    intros r' Hin Hkey. cbn [snd userAvailability committed] in Hin.
    apply in_app_iff in Hin. destruct Hin as [Hin|[<-|[]]]; [now apply Hw|].
    assert (Hk' : sameKey uid' mid' (newRow uid' mid' updates now) = true).
    { unfold sameKey. cbn. now rewrite String.eqb_refl, Z.eqb_refl. }
    destruct (sameKey_both _ _ _ _ _ Hkey Hk') as [Hu Hm].
    cbn [autoAwayAt newRow].
    destruct (Hupd Hu Hm) as [-> | ->]; reflexivity.
Qed.

Lemma snd_then_ret {A B} (t : Task A) (b : B) w :
  snd ((t ;;; ret b) w) = snd (t w).
Proof. unfold bind, ret. now destruct (t w) as [[a|m] w']. Qed.

Lemma recordUserActivity_unarmed uid' mid' now :
  preserves (unarmed uid mid) (recordUserActivity publishToRealtime uid' mid' now).
Proof.
  intros w Hw. unfold recordUserActivity, getUserAvailability, bind at 1, gets.
  destruct (find (sameKey uid' mid') (userAvailability w)) as [cur|] eqn:Hfind;
    rewrite snd_then_ret;
    (apply updateUserAvailability_unarmed; [|exact Hw]).
  - intros -> ->. left. cbn [u_autoAwayAt].
    apply find_some in Hfind. destruct Hfind as [Hin Hk].
    now rewrite (Hw cur Hin Hk).
  - intros _ _. now left.
Qed.

Lemma processScheduledStatusChanges_unarmed now :
  preserves (unarmed uid mid) (processScheduledStatusChanges publishToRealtime now).
Proof.
  unfold processScheduledStatusChanges, processScheduledReturns, processAutoAway.
  apply preserves_bind; [|intros _].
  - apply preserves_bind; [apply preserves_gets | intros rows].
    apply preserves_forEach. intros r w Hw. rewrite snd_then_ret.
    apply updateUserAvailability_unarmed; [|exact Hw]. intros _ _. now left.
  - apply preserves_bind; [apply preserves_gets | intros rows].
    apply preserves_forEach. intros r w Hw. rewrite snd_then_ret.
    apply updateUserAvailability_unarmed; [|exact Hw]. intros _ _. now right.
Qed.

Lemma selectBestMember_rows members expertiseMatches q w :
  userAvailability (snd (selectBestMember members expertiseMatches q w))
  = userAvailability w.
Proof.
  unfold selectBestMember.
  destruct members as [|m ms]; [reflexivity|].
  destruct (topCandidates (m :: ms) expertiseMatches) as [|a [|b rest]]; reflexivity.
Qed.

Lemma getExpertiseMatchingMembers_rows members content mailbox w :
  snd (getExpertiseMatchingMembers runAIObjectQuery members content mailbox w) = w.
Proof.
  unfold getExpertiseMatchingMembers.
  destruct (_ || _); [reflexivity|].
  destruct (_ =? 0); [reflexivity|].
  unfold bind, queryMatcher.
  destruct (runAIObjectQuery _ _ _); reflexivity.
Qed.

Lemma getNextTeamMember_unarmed teamMembers conversation mailbox :
  preserves (unarmed uid mid)
    (getNextTeamMember runAIObjectQuery teamMembers conversation mailbox).
Proof.
  apply preserves_rows. intros w.
  unfold getNextTeamMember, bind at 1.
  rewrite getAvailableTeamMembers_reads.
  destruct (_ =? 0); [reflexivity|].
  unfold bind at 1.
  pose proof (getExpertiseMatchingMembers_rows
                (membersToConsider
                   (availableMembersOf teamMembers (mb_id mailbox) w))
                (getConversationContent conversation) mailbox w) as Hm.
  destruct (getExpertiseMatchingMembers _ _ _ _ _) as [[[ms ai]|msg] w1];
    simpl in Hm; subst w1; [|reflexivity].
  unfold bind.
  pose proof (selectBestMember_rows
                (membersToConsider
                   (availableMembersOf teamMembers (mb_id mailbox) w))
                ms (mb_id mailbox) w) as Hs.
  destruct (selectBestMember _ _ _ _) as [[sel|msg] w2]; exact Hs.
Qed.

Lemma autoAssignConversation_unarmed conversationId now :
  preserves (unarmed uid mid)
    (autoAssignConversation publishToRealtime runAIObjectQuery conversationId now).
Proof.
  unfold autoAssignConversation.
  apply preserves_bind; [apply preserves_gets | intros found].
  apply preserves_bind; [apply preserves_assertDefined | intros conversation].
  destruct (truthyString _); [apply preserves_ret|].
  destruct (truthyNumber _); [apply preserves_ret|].
  apply preserves_bind; [apply preserves_gets | intros foundMailbox].
  apply preserves_bind; [apply preserves_assertDefined | intros mailbox].
  apply preserves_bind; [apply preserves_gets | intros access].
  apply preserves_bind; [apply preserves_assertDefined | intros teamMembers].
  destruct (_ =? 0); [apply preserves_ret|].
  apply preserves_bind; [apply getNextTeamMember_unarmed | intros next].
  destruct (n_member next) as [m|]; [|apply preserves_ret].
  apply preserves_bind; [apply recordUserActivity_unarmed | intros _].
  apply preserves_bind; [|intros _; apply preserves_ret].
  apply preserves_rows. reflexivity.
Qed.

Lemma runOperation_unarmed op now :
  preserves (unarmed uid mid) (runOperation publishToRealtime runAIObjectQuery op now).
Proof.
  destruct op; cbn [runOperation];
    try (apply preserves_bind; [|intros _; apply preserves_ret]).
  - apply preserves_rethrowAs. intros w Hw.
    apply updateUserAvailability_unarmed; [|exact Hw]. intros _ _. now left.
  - apply preserves_gets.
  - apply preserves_gets.
  - apply preserves_bind; [apply recordUserActivity_unarmed|].
    intros _. apply preserves_ret.
  - apply preserves_rows. reflexivity.
  - apply preserves_gets.
  - apply preserves_rethrowAs. intros w Hw.
    apply updateUserAvailability_unarmed; [|exact Hw]. intros _ _. now left.
  - apply preserves_rethrowAs. intros w Hw.
    apply updateUserAvailability_unarmed; [|exact Hw]. intros _ _. now left.
  - apply processScheduledStatusChanges_unarmed.
  - apply autoAssignConversation_unarmed.
Qed.

Lemma runAll_unarmed trace :
  forall w, unarmed uid mid w ->
            unarmed uid mid (runAll publishToRealtime runAIObjectQuery trace w).
Proof.
  induction trace as [|[op now] rest IH]; intros w Hw; [exact Hw|].
  cbn [runAll]. apply IH. now apply runOperation_unarmed.
Qed.

End Unarmed.

Lemma unarmed_never_due uid mid w :
  unarmed uid mid w ->
  forall now r, In r (userAvailability w) -> sameKey uid mid r = true ->
                dueForAutoAway now r = false.
Proof.
  intros Hw now r Hin Hk. unfold dueForAutoAway.
  now rewrite (Hw r Hin Hk).
Qed.

(** C10: if no row of a (user, mailbox) pair has [autoAwayAt] set, in
    particular if the pair has no row yet, then this still holds after any
    single operation (endpoint, sweep or assignment job) and after any
    history of operations, whether they return or throw; hence the
    online-to-away pass of the sweep never selects a row of that pair. *)
Theorem C10_autoAwayAt_is_never_armed
    (publishToRealtime : RealtimeEvent -> bool)
    (runAIObjectQuery : Mailbox -> list AvailableTeamMember -> string -> option AIResult)
    (uid : string) (mid : Z) (w : World)
    (Hnull : unarmed uid mid w) :
  (forall op now,
      unarmed uid mid (snd (runOperation publishToRealtime runAIObjectQuery op now w)))
  /\ (forall trace,
        unarmed uid mid (runAll publishToRealtime runAIObjectQuery trace w))
  /\ (forall trace now r,
        In r (userAvailability (runAll publishToRealtime runAIObjectQuery trace w)) ->
        sameKey uid mid r = true ->
        dueForAutoAway now r = false).
Proof.
  split; [|split].
  - intros op now. now apply runOperation_unarmed.
  - intros trace. now apply runAll_unarmed.
  - intros trace now r. apply unarmed_never_due. now apply runAll_unarmed.
Qed.

Example quietDay_leaves_deadline_unset :
  map (fun r => (status r, autoAwayAt r, scheduledReturnAt r))
      (userAvailability (runAll (fun _ => true) matcherDown quietDay onlineWorld))
  = [(online, None, None)].
Proof. vm_compute. reflexivity. Qed.

(** The only writer of a deadline: an activity ping on a record whose
    deadline is already set moves it to fifteen minutes after the ping. *)
Example armed_deadline_is_rescheduled :
  let armed :=
    set_userAvailability
      [{| userId := "u1"; mailboxId := 1; status := online; customMessage := None;
          lastActivityAt := 1000; lastStatusChangeAt := 1000;
          autoAwayAt := Some 5000; scheduledReturnAt := None;
          businessHours := None |}] onlineWorld in
  map autoAwayAt
      (userAvailability (snd (recordUserActivity (fun _ => true) "u1" 1 2000 armed)))
  = [Some (2000 + 15 * 60 * 1000)].
Proof. vm_compute. reflexivity. Qed.

Lemma C10_autoAwayAt_is_never_armed_witness :
  unarmed "u1" 1 onlineWorld
  /\ unarmed "u1" 1 (runAll (fun _ => true) matcherDown quietDay onlineWorld).
Proof.
  assert (H : unarmed "u1" 1 onlineWorld).
  { intros r [<-|[]] _. reflexivity. }
  split; [exact H|].
  apply (C10_autoAwayAt_is_never_armed (fun _ => true) matcherDown "u1" 1
           onlineWorld H).
Defined.

(** ** The sweep *)

Lemma sameKey_keyOf x r :
  sameKey (userId x) (mailboxId x) r = true <-> keyOf r = keyOf x.
Proof.
  unfold sameKey, keyOf. rewrite andb_true_iff, String.eqb_eq, Z.eqb_eq.
  split; [intros [-> ->]; reflexivity | intros [= -> ->]; split; reflexivity].
Qed.

Lemma sameKey_self r : sameKey (userId r) (mailboxId r) r = true.
Proof. now apply sameKey_keyOf. Qed.

Lemma keyOf_setRow u now cur r : keyOf (setRow u now cur r) = keyOf r.
Proof. reflexivity. Qed.

(** With a status among the updates, the row written does not depend on
    the record that was read. *)
Lemma setRow_with_status u now cur cur' r s :
  u_status u = Some s -> setRow u now cur r = setRow u now cur' r.
Proof. intros H. unfold setRow. now rewrite H. Qed.

Lemma NoDup_keys_unique rows x y :
  NoDup (map keyOf rows) -> In x rows -> In y rows -> keyOf x = keyOf y -> x = y.
Proof.
  induction rows as [|r rows IH]; simpl; [intros _ []|].
  intros Hnd Hx Hy Hk. inversion Hnd as [|? ? Hnotin Hnd']; subst.
  destruct Hx as [->|Hx], Hy as [->|Hy]; try reflexivity.
  - exfalso. apply Hnotin. rewrite Hk. now apply in_map.
  - exfalso. apply Hnotin. rewrite <- Hk. now apply in_map.
  - now apply IH.
Qed.

Lemma find_unique rows x :
  NoDup (map keyOf rows) -> In x rows ->
  find (sameKey (userId x) (mailboxId x)) rows = Some x.
Proof.
  intros Hnd Hx.
  destruct (find (sameKey (userId x) (mailboxId x)) rows) as [y|] eqn:E.
  - apply find_some in E. destruct E as [Hy Hk].
    apply sameKey_keyOf in Hk.
    f_equal. eapply NoDup_keys_unique; eauto.
  - exfalso. pose proof (find_none _ _ E x Hx) as H.
    now rewrite sameKey_self in H.
Qed.

Lemma find_other_key uid mid x u now cur rows :
  keyOf x <> (uid, mid) ->
  find (sameKey (userId x) (mailboxId x))
       (map (fun r => if sameKey uid mid r then setRow u now cur r else r) rows)
  = find (sameKey (userId x) (mailboxId x)) rows.
Proof.
  intros Hne. induction rows as [|r rows IH]; simpl; [reflexivity|].
  destruct (sameKey uid mid r) eqn:Hk; [|now rewrite IH].
  rewrite setRow_key.
  destruct (sameKey (userId x) (mailboxId x) r) eqn:E; [|exact IH].
  exfalso. apply Hne.
  destruct (sameKey_both _ _ _ _ _ E Hk) as [-> ->]. reflexivity.
Qed.

Lemma touched_false sel r :
  ~ In (keyOf r) (map keyOf sel) -> touched sel r = false.
Proof.
  intros Hnot. unfold touched.
  destruct (existsb _ sel) eqn:E; [|reflexivity].
  apply existsb_exists in E. destruct E as [x [Hx Hk]].
  exfalso. apply Hnot. apply sameKey_keyOf in Hk. rewrite Hk. now apply in_map.
Qed.

Lemma touched_filter p rows r :
  NoDup (map keyOf rows) -> In r rows -> touched (filter p rows) r = p r.
Proof.
  intros Hnd Hr. unfold touched.
  destruct (p r) eqn:Hp.
  - apply existsb_exists. exists r. split; [|apply sameKey_self].
    apply filter_In. now split.
  - destruct (existsb _ (filter p rows)) eqn:E; [|reflexivity].
    apply existsb_exists in E. destruct E as [x [Hx Hk]].
    apply filter_In in Hx. destruct Hx as [Hx Hpx].
    apply sameKey_keyOf in Hk.
    assert (r = x) by (eapply NoDup_keys_unique; eauto).
    subst. congruence.
Qed.

Lemma NoDup_keys_filter p rows :
  NoDup (map keyOf rows) -> NoDup (map keyOf (filter p rows)).
Proof.
  induction rows as [|r rows IH]; simpl; [intros; constructor|].
  intros Hnd. inversion Hnd as [|? ? Hnotin Hnd']; subst.
  destruct (p r); simpl; [|now apply IH].
  constructor; [|now apply IH].
  intros Hin. apply Hnotin. apply in_map_iff in Hin.
  destruct Hin as [x [Hk Hx]]. apply filter_In in Hx.
  rewrite <- Hk. apply in_map. tauto.
Qed.

Section SweepLoop.

Variable publishToRealtime : RealtimeEvent -> bool.
Hypothesis publish_ok : forall e, publishToRealtime e = true.

Variables (updates : AvailabilityUpdates) (target : AvailabilityStatus) (now : Z).
Hypothesis updates_status : u_status updates = Some target.

(** One loop of the sweep over selected records with distinct keys, each
    still the record stored under its key and not yet in the target
    status: every selected record is rewritten and gets its history row. *)
Lemma sweep_loop sel :
  forall w,
    NoDup (map keyOf sel) ->
    (forall x, In x sel ->
               find (sameKey (userId x) (mailboxId x)) (userAvailability w) = Some x) ->
    (forall x, In x sel -> status x <> target) ->
    exists w',
      forEach sel (fun user =>
        updateUserAvailability publishToRealtime (userId user) (mailboxId user)
          updates now ;;; ret tt) w
      = (Returned tt, w')
      /\ userAvailability w'
         = map (fun r => if touched sel r then setRow updates now r r else r)
               (userAvailability w)
      /\ availabilityHistory w'
         = (availabilityHistory w
            ++ map (fun x => historyRow (userId x) (mailboxId x) x target updates now)
                 sel)%list.
Proof.
  induction sel as [|x sel IH]; intros w Hnd Hfind Hstatus.
  - exists w. split; [reflexivity|]. split.
    + cbn [touched existsb]. now rewrite map_id.
    + cbn [map]. now rewrite app_nil_r.
  - inversion Hnd as [|? ? Hnotin Hnd']; subst.
    pose proof (Hfind x (or_introl eq_refl)) as Hx.
    assert (Hne : status_eqb target (status x) = false).
    { destruct (status_eqb target (status x)) eqn:E; [|reflexivity].
      apply status_eqb_eq in E. exfalso.
      apply (Hstatus x (or_introl eq_refl)). congruence. }
    pose proof (updateUserAvailability_existing publishToRealtime
                  (userId x) (mailboxId x) updates now w x Hx) as Hupd.
    cbv zeta in Hupd. rewrite publish_ok in Hupd.
    set (w1 := committed (rowsAfter (userId x) (mailboxId x) updates now x w)
                 (historyAfter (userId x) (mailboxId x) updates now x w)
                 (updatedEvent (mailboxId x) (setRow updates now x x)) w) in *.
    destruct (IH w1) as [w' [Hrun [Hrows Hhist]]].
    + exact Hnd'.
    + intros y Hy. cbn [userAvailability w1 committed]. unfold rowsAfter.
      rewrite find_other_key; [now apply Hfind; right|].
      intros Hk. apply Hnotin. change (userId x, mailboxId x) with (keyOf x) in Hk.
      rewrite <- Hk. now apply in_map.
    + intros y Hy. apply Hstatus. now right.
    + exists w'. split; [|split].
      * cbn [forEach]. unfold bind at 1. unfold bind at 1. rewrite Hupd.
        cbn [ret]. exact Hrun.
      * rewrite Hrows. cbn [userAvailability w1 committed]. unfold rowsAfter.
        rewrite map_map. apply map_ext. intros r.
        cbn [touched existsb]. fold (touched sel r).
        destruct (sameKey (userId x) (mailboxId x) r) eqn:Hk; cbn [orb].
        -- assert (Ht : touched sel (setRow updates now x r) = false).
           { apply touched_false. rewrite keyOf_setRow.
             apply sameKey_keyOf in Hk. now rewrite Hk. }
           rewrite Ht. now apply setRow_with_status with target.
        -- reflexivity.
      * rewrite Hhist. cbn [availabilityHistory w1 committed]. unfold historyAfter.
        rewrite updates_status, Hne. cbn [negb map].
        now rewrite <- app_assoc.
Qed.

End SweepLoop.

Lemma keyOf_afterReturns now r : keyOf (afterReturns now r) = keyOf r.
Proof. unfold afterReturns. now destruct (dueForReturn now r). Qed.

Lemma keyOf_afterAutoAway now r : keyOf (afterAutoAway now r) = keyOf r.
Proof. unfold afterAutoAway. now destruct (dueForAutoAway now r). Qed.

Lemma keyOf_afterSweep now r : keyOf (afterSweep now r) = keyOf r.
Proof. unfold afterSweep. now rewrite keyOf_afterAutoAway, keyOf_afterReturns. Qed.

Lemma keys_after_map f rows :
  (forall r, keyOf (f r) = keyOf r) -> map keyOf (map f rows) = map keyOf rows.
Proof. intros Hf. rewrite map_map. apply map_ext. exact Hf. Qed.

Lemma mapped_row_unique f rows r y :
  (forall x, keyOf (f x) = keyOf x) ->
  NoDup (map keyOf rows) -> In r rows ->
  In y (map f rows) -> keyOf y = keyOf r -> y = f r.
Proof.
  intros Hf Hnd Hr Hy Hk. apply in_map_iff in Hy.
  destruct Hy as [x [<- Hx]]. f_equal.
  eapply NoDup_keys_unique; eauto. now rewrite <- Hf.
Qed.

Lemma find_mapped_row f rows r :
  (forall x, keyOf (f x) = keyOf x) ->
  NoDup (map keyOf rows) -> In r rows ->
  find (sameKey (userId r) (mailboxId r)) (map f rows) = Some (f r).
Proof.
  intros Hf Hnd Hr.
  pose proof (Hf r) as Hk. unfold keyOf in Hk. injection Hk as Hu Hm.
  rewrite <- Hu, <- Hm. apply find_unique.
  - now rewrite keys_after_map.
  - now apply in_map.
Qed.

Lemma dueForReturn_spec now r :
  dueForReturn now r = true <->
  status r = away /\ exists t, scheduledReturnAt r = Some t /\ t <= now.
Proof.
  unfold dueForReturn, lte. rewrite andb_true_iff, status_eqb_eq.
  destruct (scheduledReturnAt r) as [t|].
  - rewrite Z.leb_le. split.
    + intros [H1 H2]. split; [exact H2|]. now exists t.
    + intros [H1 [t' [[= <-] H2]]]. now split.
  - split; [intros [[=] _] | intros [_ [t [[=] _]]]].
Qed.

Lemma afterSweep_settled now r :
  dueForReturn now r = true ->
  scheduledReturnAt (afterSweep now r) = None
  /\ dueForReturn now (afterSweep now r) = false
  /\ dueForAutoAway now (afterSweep now r) = false
  /\ afterSweep now (afterSweep now r) = afterSweep now r.
Proof.
  intros Hdue.
  assert (Hs : scheduledReturnAt (afterSweep now r) = None).
  { unfold afterSweep, afterReturns, afterAutoAway. rewrite Hdue.
    now destruct (dueForAutoAway now (returnedRow now r)). }
  assert (Ha : dueForReturn now (afterSweep now r) = false).
  { unfold dueForReturn. now rewrite Hs. }
  assert (Hb : dueForAutoAway now (afterSweep now r) = false).
  { unfold afterSweep, afterReturns, afterAutoAway. rewrite Hdue.
    destruct (dueForAutoAway now (returnedRow now r)) eqn:E; [|exact E].
    reflexivity. }
  repeat split; try assumption.
  unfold afterSweep at 1. unfold afterReturns at 1. rewrite Ha.
  unfold afterAutoAway at 1. now rewrite Hb.
Qed.

Section SweepPasses.

Variable publishToRealtime : RealtimeEvent -> bool.
Hypothesis publish_ok : forall e, publishToRealtime e = true.

Lemma processScheduledReturns_effect now w :
  NoDup (map keyOf (userAvailability w)) ->
  exists wA,
    processScheduledReturns publishToRealtime now w = (Returned tt, wA)
    /\ userAvailability wA = map (afterReturns now) (userAvailability w)
    /\ availabilityHistory wA
       = (availabilityHistory w
          ++ map (returnEntry now) (filter (dueForReturn now) (userAvailability w)))%list.
Proof.
  intros Hnd.
  destruct (sweep_loop publishToRealtime publish_ok returnUpdates online now eq_refl
              (filter (dueForReturn now) (userAvailability w)) w)
    as [wA [Hrun [Hrows Hhist]]].
  - now apply NoDup_keys_filter.
  - intros x Hx. apply filter_In in Hx. now apply find_unique.
  - intros x Hx. apply filter_In in Hx. destruct Hx as [_ Hd].
    apply dueForReturn_spec in Hd. destruct Hd as [-> _]. discriminate.
  - exists wA. split; [exact Hrun|]. split; [|exact Hhist].
    rewrite Hrows. apply map_ext_in. intros r Hr.
    now rewrite touched_filter.
Qed.

Lemma processAutoAway_effect now w :
  NoDup (map keyOf (userAvailability w)) ->
  exists wB,
    processAutoAway publishToRealtime now w = (Returned tt, wB)
    /\ userAvailability wB = map (afterAutoAway now) (userAvailability w)
    /\ availabilityHistory wB
       = (availabilityHistory w
          ++ map (awayEntry now) (filter (dueForAutoAway now) (userAvailability w)))%list.
Proof.
  intros Hnd.
  destruct (sweep_loop publishToRealtime publish_ok autoAwayUpdates away now eq_refl
              (filter (dueForAutoAway now) (userAvailability w)) w)
    as [wB [Hrun [Hrows Hhist]]].
  - now apply NoDup_keys_filter.
  - intros x Hx. apply filter_In in Hx. now apply find_unique.
  - intros x Hx. apply filter_In in Hx. destruct Hx as [_ Hd].
    unfold dueForAutoAway in Hd. apply andb_true_iff in Hd.
    destruct Hd as [_ Hd]. apply status_eqb_eq in Hd. rewrite Hd. discriminate.
  - exists wB. split; [exact Hrun|]. split; [|exact Hhist].
    rewrite Hrows. apply map_ext_in. intros r Hr.
    now rewrite touched_filter.
Qed.

Lemma processScheduledStatusChanges_effect now w :
  NoDup (map keyOf (userAvailability w)) ->
  exists wA w1,
    processScheduledReturns publishToRealtime now w = (Returned tt, wA)
    /\ processAutoAway publishToRealtime now wA = (Returned tt, w1)
    /\ processScheduledStatusChanges publishToRealtime now w = (Returned tt, w1)
    /\ userAvailability wA = map (afterReturns now) (userAvailability w)
    /\ userAvailability w1 = map (afterSweep now) (userAvailability w)
    /\ availabilityHistory wA
       = (availabilityHistory w
          ++ map (returnEntry now) (filter (dueForReturn now) (userAvailability w)))%list
    /\ availabilityHistory w1
       = (availabilityHistory w ++ sweepEntries now (userAvailability w))%list.
Proof.
  intros Hnd.
  destruct (processScheduledReturns_effect now w Hnd) as [wA [HrunA [HrowsA HhistA]]].
  assert (HndA : NoDup (map keyOf (userAvailability wA))).
  { rewrite HrowsA, keys_after_map; [exact Hnd | apply keyOf_afterReturns]. }
  destruct (processAutoAway_effect now wA HndA) as [w1 [HrunB [HrowsB HhistB]]].
  exists wA, w1. repeat split; try assumption.
  - unfold processScheduledStatusChanges, bind. now rewrite HrunA.
  - rewrite HrowsB, HrowsA, map_map. reflexivity.
  - rewrite HhistB, HhistA, HrowsA. unfold sweepEntries. now rewrite app_assoc.
Qed.

End SweepPasses.

Lemma sweepEntries_keys now rows h :
  In h (sweepEntries now rows) ->
  (exists x, In x rows /\ dueForReturn now x = true /\ entryKey h = keyOf x)
  \/ (exists x, In x rows /\ dueForAutoAway now (afterReturns now x) = true
                /\ entryKey h = keyOf x).
Proof.
  unfold sweepEntries. rewrite in_app_iff, !in_map_iff.
  intros [[x [<- Hx]]|[y [<- Hy]]].
  - left. apply filter_In in Hx. exists x. tauto.
  - right. apply filter_In in Hy. destruct Hy as [Hy Hd].
    apply in_map_iff in Hy. destruct Hy as [x [<- Hx]].
    exists x. repeat split; try assumption.
    unfold entryKey, awayEntry, historyRow. cbn.
    apply (keyOf_afterReturns now x).
Qed.

(** C9, as stated, fails: the loops of the sweep have no error handling
    and the broadcast runs inside the transaction of each update.  Over a
    table with one row per pair in which the returns of u1 and u3 are both
    due, and with a broadcast that rejects the events about u3, the sweep
    throws: u1 is back online, u3 is still away with its return time stored
    and has no history row, and the auto-away pass never runs, so u2 stays
    online with its expired deadline. *)
Lemma C9_rejected_broadcast_leaves_due_record :
  uniqueKeys twoDueWorld
  /\ map statusLine (userAvailability twoDueWorld)
     = [("u1", away, Some 5000, None); ("u2", online, None, Some 4000);
        ("u3", away, Some 5500, None)]
  /\ fst (processScheduledStatusChanges (rejectFor "u3") 6000 twoDueWorld)
     = Thrown "Failed to publish"
  /\ map statusLine
       (userAvailability
          (snd (processScheduledStatusChanges (rejectFor "u3") 6000 twoDueWorld)))
     = [("u1", online, None, None); ("u2", online, None, Some 4000);
        ("u3", away, Some 5500, None)]
  /\ map historyLine
       (availabilityHistory
          (snd (processScheduledStatusChanges (rejectFor "u3") 6000 twoDueWorld)))
     = [("u1", away, online, Some scheduled)]
  /\ ~ (forall publishToRealtime now w r,
          uniqueKeys w ->
          In r (userAvailability w) ->
          dueForReturn now r = true ->
          exists r',
            find (sameKey (userId r) (mailboxId r))
              (userAvailability
                 (snd (processScheduledStatusChanges publishToRealtime now w)))
            = Some r'
            /\ status r' = online /\ scheduledReturnAt r' = None).
Proof.
  assert (Hkeys : uniqueKeys twoDueWorld).
  { unfold uniqueKeys.
    repeat (constructor; [simpl; intuition discriminate|]). constructor. }
  split; [exact Hkeys|].
  split; [reflexivity|]. split; [reflexivity|].
  split; [reflexivity|]. split; [reflexivity|].
  intros H.
  destruct (H (rejectFor "u3") 6000 twoDueWorld
              {| userId := "u3"; mailboxId := 1; status := away; customMessage := None;
                 lastActivityAt := 3000; lastStatusChangeAt := 3000;
                 autoAwayAt := None; scheduledReturnAt := Some 5500;
                 businessHours := None |}
              Hkeys ltac:(simpl; tauto) eq_refl)
    as [r' [Hfind [Hstatus _]]].
  vm_compute in Hfind. injection Hfind as <-. discriminate.
Qed.

(** C9, amended: provided every broadcast is delivered and the table
    holds one row per (user, mailbox), the sweep returns; its first pass
    turns every record that is away with [scheduledReturnAt <= now] into an
    online record with the field cleared and appends the history row
    away -> online with reason scheduled; the record ends the sweep in that
    state unless its own [autoAwayAt] has also passed, in which case the
    second pass of the same sweep puts it away again and clears that field;
    a second sweep at the same [now] returns, leaves each such record as the
    first sweep left it and appends no history row for it; and a record the
    online-with-expired-[autoAwayAt] pass has put away is not selected by
    that pass in the second sweep. *)
Theorem C9_sweep_transitions_once
    (publishToRealtime : RealtimeEvent -> bool) (now : Z) (w : World)
    (Hpublish : forall e, publishToRealtime e = true)
    (Hkeys : NoDup (map keyOf (userAvailability w))) :
  exists wA w1 w2A w2,
    processScheduledReturns publishToRealtime now w = (Returned tt, wA)
    /\ processScheduledStatusChanges publishToRealtime now w = (Returned tt, w1)
    /\ processScheduledReturns publishToRealtime now w1 = (Returned tt, w2A)
    /\ processScheduledStatusChanges publishToRealtime now w1 = (Returned tt, w2)
    /\ availabilityHistory w2
       = (availabilityHistory w1 ++ sweepEntries now (userAvailability w1))%list
    /\ (forall r t,
          In r (userAvailability w) ->
          status r = away -> scheduledReturnAt r = Some t -> t <= now ->
          let stored := find (sameKey (userId r) (mailboxId r)) in
          stored (userAvailability wA) = Some (returnedRow now r)
          /\ status (returnedRow now r) = online
          /\ scheduledReturnAt (returnedRow now r) = None
          /\ In (returnEntry now r) (availabilityHistory wA)
          /\ (fromStatus (returnEntry now r), toStatus (returnEntry now r),
              changeReason (returnEntry now r)) = (away, online, Some scheduled)
          /\ stored (userAvailability w1) = Some (afterSweep now r)
          /\ scheduledReturnAt (afterSweep now r) = None
          /\ (lte (autoAwayAt r) now = false -> afterSweep now r = returnedRow now r)
          /\ (lte (autoAwayAt r) now = true ->
              afterSweep now r = awayRow now (returnedRow now r)
              /\ status (afterSweep now r) = away
              /\ autoAwayAt (afterSweep now r) = None)
          /\ stored (userAvailability w2) = Some (afterSweep now r)
          /\ (forall h, In h (sweepEntries now (userAvailability w1)) ->
                        entryKey h <> keyOf r))
    /\ (forall x,
          In x (userAvailability wA) -> dueForAutoAway now x = true ->
          find (sameKey (userId x) (mailboxId x)) (userAvailability w1)
          = Some (awayRow now x)
          /\ status (awayRow now x) = away
          /\ autoAwayAt (awayRow now x) = None
          /\ (forall y, In y (userAvailability w2A) -> keyOf y = keyOf x ->
                        dueForAutoAway now y = false)).
Proof.
  destruct (processScheduledStatusChanges_effect publishToRealtime Hpublish now w Hkeys)
    as [wA [w1 [HrunA [HrunB [Hrun1 [HrowsA [Hrows1 [HhistA Hhist1]]]]]]]].
  assert (HkeysA : NoDup (map keyOf (userAvailability wA))).
  { rewrite HrowsA, keys_after_map; [exact Hkeys | apply keyOf_afterReturns]. }
  assert (Hkeys1 : NoDup (map keyOf (userAvailability w1))).
  { rewrite Hrows1, keys_after_map; [exact Hkeys | apply keyOf_afterSweep]. }
  destruct (processScheduledStatusChanges_effect publishToRealtime Hpublish now w1 Hkeys1)
    as [w2A [w2 [Hrun2A [_ [Hrun2 [Hrows2A [Hrows2 [_ Hhist2]]]]]]]].
  exists wA, w1, w2A, w2.
  split; [exact HrunA|]. split; [exact Hrun1|].
  split; [exact Hrun2A|]. split; [exact Hrun2|].
  split; [exact Hhist2|]. split.
  - intros r t Hr Haway Hsched Ht stored.
    assert (Hdue : dueForReturn now r = true).
    { apply dueForReturn_spec. split; [exact Haway|]. now exists t. }
    destruct (afterSweep_settled now r Hdue) as [Hclear [HnotA [HnotB Hfix]]].
    assert (Hin1 : In (afterSweep now r) (userAvailability w1)).
    { rewrite Hrows1. now apply in_map. }
    split.
    { unfold stored. rewrite HrowsA.
      rewrite (find_mapped_row _ _ r (keyOf_afterReturns now) Hkeys Hr).
      unfold afterReturns. now rewrite Hdue. }
    split; [reflexivity|]. split; [reflexivity|].
    split.
    { rewrite HhistA. apply in_or_app. right. apply in_map.
      apply filter_In. now split. }
    split; [cbn; now rewrite Haway|].
    split.
    { unfold stored. rewrite Hrows1.
      apply (find_mapped_row _ _ r (keyOf_afterSweep now) Hkeys Hr). }
    split; [exact Hclear|].
    split.
    { intros Hlive. unfold afterSweep, afterReturns, afterAutoAway. rewrite Hdue.
      unfold dueForAutoAway. cbn [autoAwayAt returnedRow setRow returnUpdates
                                   u_autoAwayAt orElse].
      now rewrite Hlive. }
    split.
    { intros Hexpired.
      assert (He : afterSweep now r = awayRow now (returnedRow now r)).
      { unfold afterSweep, afterReturns, afterAutoAway. rewrite Hdue.
        unfold dueForAutoAway. cbn [autoAwayAt returnedRow setRow returnUpdates
                                     u_autoAwayAt orElse].
        now rewrite Hexpired. }
      rewrite He. repeat split. }
    split.
    { unfold stored. rewrite Hrows2.
      pose proof (find_mapped_row _ _ _ (keyOf_afterSweep now) Hkeys1 Hin1) as Hf.
      rewrite Hfix in Hf.
      pose proof (keyOf_afterSweep now r) as Hk. unfold keyOf in Hk.
      injection Hk as Hu Hm. now rewrite Hu, Hm in Hf. }
    intros h Hh Hk.
    assert (Hsame : forall x, In x (userAvailability w1) -> keyOf x = keyOf r ->
                              x = afterSweep now r).
    { intros x Hx Hkx. rewrite Hrows1 in Hx.
      exact (mapped_row_unique _ _ r x (keyOf_afterSweep now) Hkeys Hr Hx Hkx). }
    apply sweepEntries_keys in Hh.
    destruct Hh as [[x [Hx [Hd Hkx]]]|[x [Hx [Hd Hkx]]]];
      (assert (x = afterSweep now r) by (apply Hsame; congruence)); subst x.
    + congruence.
    + unfold afterReturns in Hd. rewrite HnotA in Hd. congruence.
  - intros x Hx Hdue.
    split.
    { destruct (processAutoAway_effect publishToRealtime Hpublish now wA HkeysA)
        as [wB [HrunB' [HrowsB _]]].
      rewrite HrunB in HrunB'. injection HrunB' as <-.
      rewrite HrowsB.
      rewrite (find_mapped_row _ _ x (keyOf_afterAutoAway now) HkeysA Hx).
      unfold afterAutoAway. now rewrite Hdue. }
    split; [reflexivity|]. split; [reflexivity|].
    intros y Hy Hk.
    assert (Hin1 : In (awayRow now x) (userAvailability w1)).
    { destruct (processAutoAway_effect publishToRealtime Hpublish now wA HkeysA)
        as [wB [HrunB' [HrowsB _]]].
      rewrite HrunB in HrunB'. injection HrunB' as <-.
      rewrite HrowsB. apply in_map_iff. exists x. split; [|exact Hx].
      unfold afterAutoAway. now rewrite Hdue. }
    rewrite Hrows2A in Hy.
    assert (Hy' : y = afterReturns now (awayRow now x)).
    { apply (mapped_row_unique _ _ _ y (keyOf_afterReturns now) Hkeys1 Hin1 Hy).
      exact Hk. }
    subst y. unfold dueForAutoAway, afterReturns.
    now destruct (dueForReturn now (awayRow now x)).
Qed.

Example sweepWorld_swept_twice :
  let once := snd (processScheduledStatusChanges (fun _ => true) 6000 sweepWorld) in
  let twice := snd (processScheduledStatusChanges (fun _ => true) 6000 once) in
  map statusLine (userAvailability once)
  = [("u1", online, None, None); ("u2", away, None, None);
     ("u3", away, Some 9000, None)]
  /\ map historyLine (availabilityHistory once)
     = [("u1", away, online, Some scheduled);
        ("u2", online, away, Some auto_inactivity)]
  /\ userAvailability twice = userAvailability once
  /\ availabilityHistory twice = availabilityHistory once.
Proof. vm_compute. repeat split. Qed.

Lemma C9_sweep_transitions_once_witness :
  (forall e : RealtimeEvent, (fun _ : RealtimeEvent => true) e = true)
  /\ NoDup (map keyOf (userAvailability sweepWorld))
  /\ exists w1 w2,
       processScheduledStatusChanges (fun _ => true) 6000 sweepWorld = (Returned tt, w1)
       /\ processScheduledStatusChanges (fun _ => true) 6000 w1 = (Returned tt, w2).
Proof.
  assert (Hkeys : NoDup (map keyOf (userAvailability sweepWorld))).
  { repeat (constructor; [simpl; intuition discriminate|]). constructor. }
  split; [reflexivity|]. split; [exact Hkeys|].
  destruct (C9_sweep_transitions_once (fun _ => true) 6000 sweepWorld
              (fun _ => eq_refl) Hkeys)
    as [wA [w1 [w2A [w2 [_ [H1 [_ [H2 _]]]]]]]].
  exists w1, w2. split; assumption.
Defined.

(** ** The workload gate inside [getNextTeamMember] *)

(** With somebody available and a cursor that is absent or non-negative,
    [getNextTeamMember] throws exactly when the matcher, asked about the
    members that are considered, fails; otherwise it returns the member the
    selection picks among them. *)
Lemma getNextTeamMember_outcome
    (runAIObjectQuery : Mailbox -> list AvailableTeamMember -> string -> option AIResult)
    (teamMembers : list UserWithMailboxAccessData)
    (conversation : Conversation) (mailbox : Mailbox) (w : World) :
  availableMembersOf teamMembers (mb_id mailbox) w <> [] ->
  0 <= cursorOf (mb_id mailbox) w ->
  match getExpertiseMatchingMembers runAIObjectQuery
          (membersToConsider (availableMembersOf teamMembers (mb_id mailbox) w))
          (getConversationContent conversation) mailbox w with
  | (Thrown msg, _) =>
      getNextTeamMember runAIObjectQuery teamMembers conversation mailbox w
      = (Thrown msg, w)
  | (Returned (expertiseMatches, aiResult), _) =>
      exists m next w',
        getNextTeamMember runAIObjectQuery teamMembers conversation mailbox w
        = (Returned next, w')
        /\ n_member next = Some m
        /\ n_error next = None
        /\ selectBestMember
             (membersToConsider (availableMembersOf teamMembers (mb_id mailbox) w))
             expertiseMatches (mb_id mailbox) w
           = (Returned (Some m), w')
        /\ In m (membersToConsider (availableMembersOf teamMembers (mb_id mailbox) w))
  end.
Proof.
  intros Hne Hcursor.
  remember (availableMembersOf teamMembers (mb_id mailbox) w) as available eqn:Eav.
  pose proof (getExpertiseMatchingMembers_rows runAIObjectQuery
                (membersToConsider available)
                (getConversationContent conversation) mailbox w) as Hrows.
  destruct (getExpertiseMatchingMembers runAIObjectQuery (membersToConsider available)
              (getConversationContent conversation) mailbox w)
    as [[[ms ai]|msg] w0] eqn:Em; simpl in Hrows; subst w0.
  - destruct (selectBestMember_returns_member (membersToConsider available) ms
                (mb_id mailbox) w (membersToConsider_nonempty _ Hne) Hcursor)
      as [m [Hsel Hin]].
    destruct (selectBestMember (membersToConsider available) ms (mb_id mailbox) w)
      as [[sel|msg] w2] eqn:Es; simpl in Hsel; [|discriminate].
    injection Hsel as ->.
    exists m. eexists. exists w2.
    split.
    { unfold getNextTeamMember, bind at 1.
      rewrite getAvailableTeamMembers_reads, <- Eav, length_is_zero.
      destruct available as [|a rest]; [contradiction|].
      unfold bind at 1. rewrite Em. unfold bind. rewrite Es. reflexivity. }
    repeat split. exact Hin.
  - unfold getNextTeamMember, bind at 1.
    rewrite getAvailableTeamMembers_reads, <- Eav, length_is_zero.
    destruct available as [|a rest]; [contradiction|].
    unfold bind at 1. now rewrite Em.
Qed.

(** C7: inside [getNextTeamMember] the gate keeps exactly the available
    members whose workload is strictly below the threshold of their status
    (online 8, busy 3, away 0, offline 0), and the members considered are
    the kept ones, or all available members when nobody is kept.  With
    somebody available (and a rotation cursor that is absent or
    non-negative) the engine then always selects: unless the matcher fails,
    it returns a member, that member is one of the considered, hence an
    available one, and passes the gate whenever somebody does.  A busy
    member at workload 3 fails the gate, is considered when nobody passes
    it, and is the member returned when nobody else is available. *)
Theorem C7_workload_gate_and_fallback
    (runAIObjectQuery : Mailbox -> list AvailableTeamMember -> string -> option AIResult)
    (teamMembers : list UserWithMailboxAccessData)
    (conversation : Conversation) (mailbox : Mailbox) (w : World)
    (Havailable : availableMembersOf teamMembers (mb_id mailbox) w <> [])
    (Hcursor : 0 <= cursorOf (mb_id mailbox) w) :
  let available := availableMembersOf teamMembers (mb_id mailbox) w in
  let kept := filter canHandleWorkload available in
  let considered := match kept with [] => available | _ :: _ => kept end in
  let content := getConversationContent conversation in
  (WORKLOAD_THRESHOLDS online = 8 /\ WORKLOAD_THRESHOLDS busy = 3
   /\ WORKLOAD_THRESHOLDS away = 0 /\ WORKLOAD_THRESHOLDS offline = 0)
  /\ (forall m,
        In m kept <->
        In m available
        /\ currentWorkload (availability m)
           < WORKLOAD_THRESHOLDS (a_status (availability m)))
  /\ match getExpertiseMatchingMembers runAIObjectQuery considered content mailbox w with
     | (Thrown msg, _) =>
         getNextTeamMember runAIObjectQuery teamMembers conversation mailbox w
         = (Thrown msg, w)
     | (Returned (expertiseMatches, aiResult), _) =>
         exists m next w',
           getNextTeamMember runAIObjectQuery teamMembers conversation mailbox w
           = (Returned next, w')
           /\ n_member next = Some m
           /\ n_error next = None
           /\ selectBestMember considered expertiseMatches (mb_id mailbox) w
              = (Returned (Some m), w')
           /\ In m considered
           /\ In m available
           /\ (kept <> [] -> canHandleWorkload m = true)
     end
  /\ (forall m,
        In m available ->
        a_status (availability m) = busy ->
        currentWorkload (availability m) = 3 ->
        canHandleWorkload m = false
        /\ ~ In m kept
        /\ (kept = [] -> In m considered)
        /\ (available = [m] ->
            match getExpertiseMatchingMembers runAIObjectQuery [m] content mailbox w with
            | (Thrown msg, _) =>
                getNextTeamMember runAIObjectQuery teamMembers conversation mailbox w
                = (Thrown msg, w)
            | (Returned _, _) =>
                exists next w',
                  getNextTeamMember runAIObjectQuery teamMembers conversation mailbox w
                  = (Returned next, w')
                  /\ n_member next = Some m
            end)).
Proof.
  intros available kept considered content.
  pose proof (getNextTeamMember_outcome runAIObjectQuery teamMembers conversation
                mailbox w Havailable Hcursor) as Hout.
  fold available content in Hout.
  assert (Hcons : membersToConsider available = considered).
  { rewrite membersToConsider_cases. fold kept. unfold considered.
    now destruct kept. }
  rewrite Hcons in Hout.
  assert (Hkept : forall m,
             In m kept <->
             In m available
             /\ currentWorkload (availability m)
                < WORKLOAD_THRESHOLDS (a_status (availability m))).
  { intros m. unfold kept. rewrite filter_In. unfold canHandleWorkload.
    rewrite Z.ltb_lt. reflexivity. }
  assert (Hsub : forall m, In m considered -> In m available).
  { intros m. unfold considered, kept.
    destruct (filter canHandleWorkload available) as [|k ks] eqn:Ek; [tauto|].
    rewrite <- Ek, filter_In. tauto. }
  split; [repeat split|]. split; [exact Hkept|]. split.
  - destruct (getExpertiseMatchingMembers runAIObjectQuery considered content mailbox w)
      as [[[ms ai]|msg] w0]; [|exact Hout].
    destruct Hout as (m & next & w' & Hrun & Hmember & Herror & Hsel & Hin).
    exists m, next, w'. repeat split; try assumption.
    + now apply Hsub.
    + intros Hsome. unfold considered, kept in Hin, Hsome.
      destruct (filter canHandleWorkload available) as [|k ks] eqn:Ek;
        [contradiction|].
      rewrite <- Ek in Hin. now apply filter_In in Hin.
  - intros m Hin Hbusy Hthree.
    assert (Hgate : canHandleWorkload m = false).
    { unfold canHandleWorkload. now rewrite Hbusy, Hthree. }
    split; [exact Hgate|]. split.
    { unfold kept. rewrite filter_In. intros [_ H]. congruence. }
    split.
    { intros Hnone. unfold considered. now rewrite Hnone. }
    intros Honly.
    assert (Hone : considered = [m]).
    { unfold considered, kept. rewrite Honly. cbn [filter]. now rewrite Hgate. }
    rewrite Hone in Hout.
    destruct (getExpertiseMatchingMembers runAIObjectQuery [m] content mailbox w)
      as [[[ms ai]|msg] w0]; [|exact Hout].
    destruct Hout as (m' & next & w' & Hrun & Hmember & _ & _ & Hin').
    exists next, w'. split; [exact Hrun|].
    destruct Hin' as [<-|[]]. exact Hmember.
Qed.

Lemma C7_workload_gate_and_fallback_witness :
  let m := {| user := busyAtThree;
              availability := {| a_status := busy; currentWorkload := 3;
                                 isAvailableForAssignment := true;
                                 a_customMessage := None |} |} in
  let refund := {| c_id := 4; c_mailboxId := 1; c_open := true;
                   assignedToId := None; mergedIntoId := None;
                   subject := Some "Refund"; messages := [] |} in
  availableMembersOf [busyAtThree] 1 busyAtThreeWorld = [m]
  /\ 0 <= cursorOf 1 busyAtThreeWorld
  /\ canHandleWorkload m = false
  /\ exists next w',
       getNextTeamMember matcherDown [busyAtThree] refund {| mb_id := 1 |}
         busyAtThreeWorld
       = (Returned next, w')
       /\ n_member next = Some m.
Proof.
  intros m refund.
  assert (Hav : availableMembersOf [busyAtThree] 1 busyAtThreeWorld = [m])
    by reflexivity.
  assert (Hc : 0 <= cursorOf 1 busyAtThreeWorld) by (vm_compute; discriminate).
  split; [exact Hav|]. split; [exact Hc|].
  destruct (C7_workload_gate_and_fallback matcherDown [busyAtThree] refund
              {| mb_id := 1 |} busyAtThreeWorld
              ltac:(vm_compute; discriminate) Hc)
    as (_ & _ & _ & Hbusy).
  destruct (Hbusy m ltac:(left; reflexivity) eq_refl eq_refl)
    as (Hgate & _ & _ & Honly).
  split; [exact Hgate|].
  exact (Honly Hav).
Defined.

(** * Further properties of the code *)

(** ** What the calls leave alone *)

Lemma exceptCache_refl w : exceptCache w w.
Proof. repeat split. Qed.

Lemma exceptCache_trans w1 w2 w3 :
  exceptCache w1 w2 -> exceptCache w2 w3 -> exceptCache w1 w3.
Proof.
  unfold exceptCache.
  intros (A1 & A2 & A3 & A4 & A5 & A6 & A7) (B1 & B2 & B3 & B4 & B5 & B6 & B7).
  repeat split; congruence.
Qed.

Lemma selectBestMember_exceptCache members expertiseMatches q w :
  exceptCache w (snd (selectBestMember members expertiseMatches q w)).
Proof.
  unfold selectBestMember.
  destruct members as [|m ms]; [apply exceptCache_refl|].
  destruct (topCandidates (m :: ms) expertiseMatches) as [|a [|b rest]];
    repeat split.
Qed.

Lemma getNextCoreTeamMemberInRotation_exceptCache coreTeamMembers q w :
  exceptCache w (snd (getNextCoreTeamMemberInRotation coreTeamMembers q w)).
Proof.
  unfold getNextCoreTeamMemberInRotation.
  destruct coreTeamMembers; repeat split.
Qed.

Section Frames.

Variable publishToRealtime : RealtimeEvent -> bool.
Variable runAIObjectQuery :
  Mailbox -> list AvailableTeamMember -> string -> option AIResult.

Lemma getNextTeamMember_exceptCache teamMembers conversation mailbox w :
  exceptCache w
    (snd (getNextTeamMember runAIObjectQuery teamMembers conversation mailbox w)).
Proof.
  unfold getNextTeamMember, bind at 1.
  rewrite getAvailableTeamMembers_reads.
  destruct (_ =? 0); [apply exceptCache_refl|].
  unfold bind at 1.
  pose proof (getExpertiseMatchingMembers_rows runAIObjectQuery
                (membersToConsider
                   (availableMembersOf teamMembers (mb_id mailbox) w))
                (getConversationContent conversation) mailbox w) as Hm.
  destruct (getExpertiseMatchingMembers _ _ _ _ _) as [[[ms ai]|msg] w1];
    simpl in Hm; subst w1; [|apply exceptCache_refl].
  unfold bind.
  pose proof (selectBestMember_exceptCache
                (membersToConsider
                   (availableMembersOf teamMembers (mb_id mailbox) w))
                ms (mb_id mailbox) w) as Hs.
  destruct (selectBestMember _ _ _ _) as [[sel|msg] w2]; exact Hs.
Qed.

(** An update writes the two availability tables and the realtime log,
    nothing else. *)
Lemma updateUserAvailability_other_tables uid mid updates now w :
  let w' := snd (updateUserAvailability publishToRealtime uid mid updates now w) in
  conversations w' = conversations w
  /\ conversationNotes w' = conversationNotes w
  /\ mailboxes w' = mailboxes w
  /\ mailboxAccess w' = mailboxAccess w
  /\ roundRobinCache w' = roundRobinCache w.
Proof.
  destruct (find (sameKey uid mid) (userAvailability w)) as [cur|] eqn:Hfind.
  - rewrite (updateUserAvailability_existing _ _ _ _ _ _ _ Hfind). cbv zeta.
    destruct (publishToRealtime _); repeat split.
  - rewrite (updateUserAvailability_created _ _ _ _ _ _ Hfind). cbv zeta.
    destruct (publishToRealtime _); repeat split.
Qed.

End Frames.

(** ** Invariants of the store under every operation *)

Lemma preserves_store P {A} (t : Task A) :
  storeOnly P ->
  (forall w, userAvailability (snd (t w)) = userAvailability w
             /\ availabilityHistory (snd (t w)) = availabilityHistory w) ->
  preserves P t.
Proof. intros HP Ht w Hw. destruct (Ht w) as [H1 H2]. now apply (HP w). Qed.

Section StoreInvariants.

Variable publishToRealtime : RealtimeEvent -> bool.
Variable runAIObjectQuery :
  Mailbox -> list AvailableTeamMember -> string -> option AIResult.
Variable P : World -> Prop.
Hypothesis P_store : storeOnly P.
Hypothesis P_update :
  forall uid mid updates now,
    preserves P (updateUserAvailability publishToRealtime uid mid updates now).

Lemma recordUserActivity_keeps uid mid now :
  preserves P (recordUserActivity publishToRealtime uid mid now).
Proof.
  unfold recordUserActivity.
  apply preserves_bind; [apply preserves_gets | intros current].
  destruct current as [cur|];
    (apply preserves_bind; [apply P_update | intros _; apply preserves_ret]).
Qed.

Lemma processScheduledStatusChanges_keeps now :
  preserves P (processScheduledStatusChanges publishToRealtime now).
Proof.
  unfold processScheduledStatusChanges, processScheduledReturns, processAutoAway.
  apply preserves_bind; [|intros _];
    (apply preserves_bind; [apply preserves_gets | intros rows];
     apply preserves_forEach; intros r;
     apply preserves_bind; [apply P_update | intros _; apply preserves_ret]).
Qed.

Lemma autoAssignConversation_keeps conversationId now :
  preserves P
    (autoAssignConversation publishToRealtime runAIObjectQuery conversationId now).
Proof.
  unfold autoAssignConversation.
  apply preserves_bind; [apply preserves_gets | intros found].
  apply preserves_bind; [apply preserves_assertDefined | intros conversation].
  destruct (truthyString _); [apply preserves_ret|].
  destruct (truthyNumber _); [apply preserves_ret|].
  apply preserves_bind; [apply preserves_gets | intros foundMailbox].
  apply preserves_bind; [apply preserves_assertDefined | intros mailbox].
  apply preserves_bind; [apply preserves_gets | intros access].
  apply preserves_bind; [apply preserves_assertDefined | intros teamMembers].
  destruct (_ =? 0); [apply preserves_ret|].
  apply preserves_bind; [|intros next].
  { apply preserves_store; [exact P_store|]. intros w.
    destruct (getNextTeamMember_exceptCache runAIObjectQuery
                (filter (fun m => isActiveRole (role m)) teamMembers)
                conversation mailbox w) as (H1 & H2 & _).
    now split. }
  destruct (n_member next) as [m|]; [|apply preserves_ret].
  apply preserves_bind; [apply recordUserActivity_keeps | intros _].
  apply preserves_bind; [|intros _; apply preserves_ret].
  apply preserves_store; [exact P_store|]. intros w. now split.
Qed.

Lemma runOperation_keeps op now :
  preserves P (runOperation publishToRealtime runAIObjectQuery op now).
Proof.
  destruct op; cbn [runOperation];
    try (apply preserves_bind; [|intros _; apply preserves_ret]).
  - apply preserves_rethrowAs, P_update.
  - apply preserves_gets.
  - apply preserves_gets.
  - apply preserves_bind; [apply recordUserActivity_keeps|].
    intros _. apply preserves_ret.
  - apply preserves_store; [exact P_store|]. intros w. now split.
  - apply preserves_gets.
  - apply preserves_rethrowAs, P_update.
  - apply preserves_rethrowAs, P_update.
  - apply processScheduledStatusChanges_keeps.
  - apply autoAssignConversation_keeps.
Qed.

Lemma runAll_keeps trace :
  forall w, P w -> P (runAll publishToRealtime runAIObjectQuery trace w).
Proof.
  induction trace as [|[op now] rest IH]; intros w Hw; [exact Hw|].
  cbn [runAll]. apply IH. now apply runOperation_keeps.
Qed.

End StoreInvariants.

Lemma find_none_key uid mid rows :
  find (sameKey uid mid) rows = None -> ~ In (uid, mid) (map keyOf rows).
Proof.
  intros Hnone Hin. apply in_map_iff in Hin. destruct Hin as [r [Hk Hr]].
  pose proof (find_none _ _ Hnone r Hr) as Hf.
  unfold keyOf in Hk. injection Hk as Hu Hm.
  unfold sameKey in Hf. now rewrite Hu, Hm, String.eqb_refl, Z.eqb_refl in Hf.
Qed.

Lemma NoDup_snoc {A} (l : list A) x : NoDup l -> ~ In x l -> NoDup (l ++ [x]).
Proof.
  induction l as [|a l IH]; simpl; intros Hnd Hx.
  - constructor; [intros []|constructor].
  - inversion Hnd as [|? ? Ha Hl]; subst. constructor.
    + rewrite in_app_iff. intros [H|[H|[]]]; [contradiction|].
      apply Hx. now left.
    + apply IH; [exact Hl|]. intros H. apply Hx. now right.
Qed.

Lemma updateUserAvailability_uniqueKeys publishToRealtime uid mid updates now :
  preserves uniqueKeys (updateUserAvailability publishToRealtime uid mid updates now).
Proof.
  intros w Hw. unfold uniqueKeys in *.
  destruct (find (sameKey uid mid) (userAvailability w)) as [cur|] eqn:Hfind.
  - rewrite (updateUserAvailability_existing _ _ _ _ _ _ _ Hfind). cbv zeta.
    destruct (publishToRealtime _); [|exact Hw].
    cbn [snd userAvailability committed]. unfold rowsAfter.
    rewrite keys_after_map; [exact Hw|].
    intros r. now destruct (sameKey uid mid r).
  - rewrite (updateUserAvailability_created _ _ _ _ _ _ Hfind). cbv zeta.
    destruct (publishToRealtime _); [|exact Hw].
    cbn [snd userAvailability committed]. rewrite map_app. cbn [map].
    apply NoDup_snoc; [exact Hw|].
    now apply find_none_key.
Qed.

(** A call is its lookup followed by its transaction. *)
Lemma updateUserAvailability_lookup_then_transaction
    publishToRealtime uid mid updates now w :
  updateUserAvailability publishToRealtime uid mid updates now w
  = (current <- getUserAvailability uid mid ;;
     updateInTransaction publishToRealtime uid mid updates now current) w.
Proof. reflexivity. Qed.

(** Two first writes for one pair whose lookups are both answered before
    either transaction runs both insert. *)
Lemma overlappingUpdates_first_writes publishToRealtime uid mid
    updatesA nowA updatesB nowB w :
  find (sameKey uid mid) (userAvailability w) = None ->
  (forall e, publishToRealtime e = true) ->
  exists w',
    overlappingUpdates publishToRealtime uid mid updatesA nowA uid mid updatesB nowB w
    = (Returned (newRow uid mid updatesA nowA, newRow uid mid updatesB nowB), w')
    /\ userAvailability w'
       = (userAvailability w
          ++ [newRow uid mid updatesA nowA; newRow uid mid updatesB nowB])%list.
Proof.
  intros Hfind Hpublish.
  unfold overlappingUpdates, getUserAvailability, bind at 1, gets.
  rewrite Hfind. unfold bind at 1. rewrite Hfind.
  unfold updateInTransaction, transaction, bind, publish, insertRow, ret.
  rewrite !Hpublish. eexists. split; [reflexivity|].
  cbn [userAvailability set_userAvailability set_realtimeLog].
  now rewrite <- app_assoc.
Qed.

(** X1: calls that run one after another keep one row per (user,
    mailbox): if the table has no two rows with the same pair, it has none
    after any endpoint call, sweep or assignment job, and after any history
    of them in which each call ends before the next one starts, whether they
    return or throw.  The guarantee does not extend to calls that overlap.
    [updateUserAvailability] is a lookup followed by a transaction, and the
    lookup is awaited before the transaction starts: when two calls for a
    pair without a record both get their lookup answered before either
    transaction runs, and the broadcast works, both insert, and the table
    ends with two rows for the pair. *)
Theorem X1_one_row_per_pair
    (publishToRealtime : RealtimeEvent -> bool)
    (runAIObjectQuery : Mailbox -> list AvailableTeamMember -> string -> option AIResult)
    (w : World) (Hunique : uniqueKeys w) :
  (forall op now,
      uniqueKeys (snd (runOperation publishToRealtime runAIObjectQuery op now w)))
  /\ (forall trace,
        uniqueKeys (runAll publishToRealtime runAIObjectQuery trace w))
  /\ (forall uid mid updates now w0,
        updateUserAvailability publishToRealtime uid mid updates now w0
        = (current <- getUserAvailability uid mid ;;
           updateInTransaction publishToRealtime uid mid updates now current) w0)
  /\ (forall uid mid updatesA nowA updatesB nowB,
        find (sameKey uid mid) (userAvailability w) = None ->
        (forall e, publishToRealtime e = true) ->
        exists w',
          overlappingUpdates publishToRealtime
            uid mid updatesA nowA uid mid updatesB nowB w
          = (Returned (newRow uid mid updatesA nowA, newRow uid mid updatesB nowB), w')
          /\ userAvailability w'
             = (userAvailability w
                ++ [newRow uid mid updatesA nowA; newRow uid mid updatesB nowB])%list
          /\ ~ uniqueKeys w').
Proof.
  assert (Hstore : storeOnly uniqueKeys).
  { intros w1 w2 Hrows _. unfold uniqueKeys. now rewrite Hrows. }
  split.
  { intros op now.
    apply (runOperation_keeps publishToRealtime runAIObjectQuery uniqueKeys Hstore
             (updateUserAvailability_uniqueKeys publishToRealtime) op now w Hunique). }
  split.
  { intros trace.
    apply (runAll_keeps publishToRealtime runAIObjectQuery uniqueKeys Hstore
             (updateUserAvailability_uniqueKeys publishToRealtime) trace w Hunique). }
  split; [intros; apply updateUserAvailability_lookup_then_transaction|].
  intros uid mid updatesA nowA updatesB nowB Hfind Hpublish.
  destruct (overlappingUpdates_first_writes publishToRealtime uid mid
              updatesA nowA updatesB nowB w Hfind Hpublish) as [w' [Hrun Hrows]].
  exists w'. split; [exact Hrun|]. split; [exact Hrows|].
  unfold uniqueKeys. rewrite Hrows, map_app. cbn [map].
  intros Hnd. apply NoDup_remove_2 in Hnd. apply Hnd.
  rewrite in_app_iff. right. now left.
Qed.

Lemma X1_one_row_per_pair_witness :
  uniqueKeys onlineWorld
  /\ map keyOf (userAvailability onlineWorld) = [("u1", 1)]
  /\ map keyOf
       (userAvailability (runAll (fun _ => true) matcherDown firstWriteDay onlineWorld))
     = [("u1", 1); ("u2", 1); ("u3", 1)]
  /\ uniqueKeys (runAll (fun _ => true) matcherDown firstWriteDay onlineWorld)
  /\ exists w',
       snd (overlappingUpdates (fun _ => true)
              "u2" 1 goBusy 2000 "u2" 1 goBusy 2001 onlineWorld) = w'
       /\ map keyOf (userAvailability w') = [("u1", 1); ("u2", 1); ("u2", 1)].
Proof.
  assert (H : uniqueKeys onlineWorld).
  { unfold uniqueKeys. simpl. constructor; [intros []|constructor]. }
  split; [exact H|]. split; [reflexivity|]. split; [reflexivity|].
  destruct (X1_one_row_per_pair (fun _ => true) matcherDown onlineWorld H)
    as (_ & Htrace & _ & Hoverlap).
  split; [apply Htrace|].
  destruct (Hoverlap "u2" 1 goBusy 2000 goBusy 2001 eq_refl (fun _ => eq_refl))
    as (w' & Hrun & Hrows & _).
  exists w'. split; [now rewrite Hrun|].
  rewrite Hrows. reflexivity.
Defined.

Lemma updateUserAvailability_history publishToRealtime uid mid updates now w :
  exists added,
    availabilityHistory (snd (updateUserAvailability publishToRealtime uid mid updates now w))
    = (availabilityHistory w ++ added)%list
    /\ (List.length added <= 1)%nat.
Proof.
  destruct (find (sameKey uid mid) (userAvailability w)) as [cur|] eqn:Hfind.
  - rewrite (updateUserAvailability_existing _ _ _ _ _ _ _ Hfind). cbv zeta.
    destruct (publishToRealtime _);
      [|exists []; split; [now rewrite app_nil_r | simpl; lia]].
    cbn [snd availabilityHistory committed]. unfold historyAfter.
    destruct (u_status updates) as [s|];
      [destruct (negb (status_eqb s (status cur)))|];
      try (exists []; split; [now rewrite app_nil_r | simpl; lia]).
    eexists. split; [reflexivity | simpl; lia].
  - rewrite (updateUserAvailability_created _ _ _ _ _ _ Hfind). cbv zeta.
    destruct (publishToRealtime _);
      exists []; (split; [now rewrite app_nil_r | simpl; lia]).
Qed.

(** X2: the history table is append-only: after any endpoint call, sweep
    or assignment job, and after any history of them, the rows that were
    there are still there, unchanged and in place, followed by what was
    added. *)
Theorem X2_history_is_append_only
    (publishToRealtime : RealtimeEvent -> bool)
    (runAIObjectQuery : Mailbox -> list AvailableTeamMember -> string -> option AIResult)
    (w : World) :
  (forall op now,
      exists added,
        availabilityHistory
          (snd (runOperation publishToRealtime runAIObjectQuery op now w))
        = (availabilityHistory w ++ added)%list)
  /\ (forall trace,
        exists added,
          availabilityHistory (runAll publishToRealtime runAIObjectQuery trace w)
          = (availabilityHistory w ++ added)%list).
Proof.
  set (P := fun w' : World =>
              exists added,
                availabilityHistory w' = (availabilityHistory w ++ added)%list).
  assert (Hstore : storeOnly P).
  { intros w1 w2 _ Hh [added Ha]. exists added. now rewrite Hh. }
  assert (Hupd : forall uid mid updates now,
             preserves P (updateUserAvailability publishToRealtime uid mid updates now)).
  { intros uid mid updates now w1 [added Ha].
    destruct (updateUserAvailability_history publishToRealtime uid mid updates now w1)
      as [more [Hm _]].
    exists (added ++ more)%list. now rewrite Hm, Ha, app_assoc. }
  assert (Hw : P w) by (exists []; now rewrite app_nil_r).
  split.
  - intros op now.
    apply (runOperation_keeps publishToRealtime runAIObjectQuery P Hstore Hupd op now w Hw).
  - intros trace.
    apply (runAll_keeps publishToRealtime runAIObjectQuery P Hstore Hupd trace w Hw).
Qed.

(** ** The rotation cursor stays non-negative *)

Lemma preserves_cache {A} (t : Task A) :
  (forall w, roundRobinCache (snd (t w)) = roundRobinCache w) ->
  preserves cursorsNonNegative t.
Proof. intros Ht w Hw. unfold cursorsNonNegative. rewrite Ht. exact Hw. Qed.

Lemma cursorOf_nonneg mid w : cursorsNonNegative w -> 0 <= cursorOf mid w.
Proof.
  intros Hw. unfold cursorOf.
  destruct (find (fun e => fst e =? mid) (roundRobinCache w)) as [e|] eqn:E;
    cbn [option_map orElse]; [|lia].
  apply find_some in E. now apply Hw.
Qed.

Lemma nextCursor_nonneg cursor n : 0 <= cursor -> 0 <= nextCursor cursor n.
Proof.
  intros Hc. unfold nextCursor.
  destruct n as [|n]; [rewrite Z.rem_0_r_ext by reflexivity; lia|].
  apply Z.rem_nonneg; lia.
Qed.

Lemma withCursor_nonneg mid v w :
  0 <= v -> cursorsNonNegative w -> cursorsNonNegative (withCursor mid v w).
Proof.
  intros Hv Hw e He. unfold withCursor in He. cbn in He.
  destruct He as [<-|He]; [exact Hv|].
  apply filter_In in He. now apply Hw.
Qed.

Lemma selectBestMember_cursors members expertiseMatches mid :
  preserves cursorsNonNegative (selectBestMember members expertiseMatches mid).
Proof.
  intros w Hw. unfold selectBestMember.
  destruct members as [|m ms]; [exact Hw|].
  destruct (topCandidates (m :: ms) expertiseMatches) as [|a [|b rest]] eqn:E;
    [|exact Hw|];
    (apply withCursor_nonneg; [|exact Hw]);
    apply (nextCursor_nonneg (cursorOf mid w)); now apply cursorOf_nonneg.
Qed.

Lemma getNextCoreTeamMemberInRotation_cursors coreTeamMembers mid :
  preserves cursorsNonNegative (getNextCoreTeamMemberInRotation coreTeamMembers mid).
Proof.
  intros w Hw. unfold getNextCoreTeamMemberInRotation.
  destruct coreTeamMembers as [|m ms]; [exact Hw|].
  apply withCursor_nonneg; [|exact Hw].
  apply (nextCursor_nonneg (cursorOf mid w)); now apply cursorOf_nonneg.
Qed.

Section CursorInvariant.

Variable publishToRealtime : RealtimeEvent -> bool.
Variable runAIObjectQuery :
  Mailbox -> list AvailableTeamMember -> string -> option AIResult.

Lemma updateUserAvailability_cursors uid mid updates now :
  preserves cursorsNonNegative
    (updateUserAvailability publishToRealtime uid mid updates now).
Proof.
  apply preserves_cache. intros w.
  apply (updateUserAvailability_other_tables publishToRealtime uid mid updates now w).
Qed.

Lemma recordUserActivity_cursors uid mid now :
  preserves cursorsNonNegative (recordUserActivity publishToRealtime uid mid now).
Proof.
  unfold recordUserActivity.
  apply preserves_bind; [apply preserves_gets | intros current].
  destruct current as [cur|];
    (apply preserves_bind;
     [apply updateUserAvailability_cursors | intros _; apply preserves_ret]).
Qed.

Lemma getNextTeamMember_cursors teamMembers conversation mailbox :
  preserves cursorsNonNegative
    (getNextTeamMember runAIObjectQuery teamMembers conversation mailbox).
Proof.
  unfold getNextTeamMember.
  apply preserves_bind; [|intros available].
  { intros w Hw. now rewrite getAvailableTeamMembers_reads. }
  destruct (_ =? 0); [apply preserves_ret|].
  apply preserves_bind; [|intros [ms ai]].
  { intros w Hw. now rewrite getExpertiseMatchingMembers_rows. }
  apply preserves_bind; [apply selectBestMember_cursors|].
  intros sel. apply preserves_ret.
Qed.

Lemma runOperation_cursors op now :
  preserves cursorsNonNegative
    (runOperation publishToRealtime runAIObjectQuery op now).
Proof.
  destruct op; cbn [runOperation];
    try (apply preserves_bind; [|intros _; apply preserves_ret]).
  - apply preserves_rethrowAs, updateUserAvailability_cursors.
  - apply preserves_gets.
  - apply preserves_gets.
  - apply preserves_bind; [apply recordUserActivity_cursors|].
    intros _. apply preserves_ret.
  - apply preserves_cache. reflexivity.
  - apply preserves_gets.
  - apply preserves_rethrowAs, updateUserAvailability_cursors.
  - apply preserves_rethrowAs, updateUserAvailability_cursors.
  - unfold processScheduledStatusChanges, processScheduledReturns, processAutoAway.
    apply preserves_bind; [|intros _];
      (apply preserves_bind; [apply preserves_gets | intros rows];
       apply preserves_forEach; intros r;
       apply preserves_bind;
       [apply updateUserAvailability_cursors | intros _; apply preserves_ret]).
  - unfold autoAssignConversation.
    apply preserves_bind; [apply preserves_gets | intros found].
    apply preserves_bind; [apply preserves_assertDefined | intros conversation].
    destruct (truthyString _); [apply preserves_ret|].
    destruct (truthyNumber _); [apply preserves_ret|].
    apply preserves_bind; [apply preserves_gets | intros foundMailbox].
    apply preserves_bind; [apply preserves_assertDefined | intros mailbox].
    apply preserves_bind; [apply preserves_gets | intros access].
    apply preserves_bind; [apply preserves_assertDefined | intros teamMembers].
    destruct (_ =? 0); [apply preserves_ret|].
    apply preserves_bind; [apply getNextTeamMember_cursors | intros next].
    destruct (n_member next) as [m|]; [|apply preserves_ret].
    apply preserves_bind; [apply recordUserActivity_cursors | intros _].
    apply preserves_bind; [|intros _; apply preserves_ret].
    apply preserves_cache. reflexivity.
Qed.

End CursorInvariant.

(** X3: every rotation cursor the code stores is non-negative: if the
    cached cursors are non-negative (in particular if none is stored), they
    are after any endpoint call, sweep or assignment job and after any
    history of them, and then a selection over a non-empty candidate list
    always returns one of the candidates, never [null]. *)
Theorem X3_cursors_stay_non_negative
    (publishToRealtime : RealtimeEvent -> bool)
    (runAIObjectQuery : Mailbox -> list AvailableTeamMember -> string -> option AIResult)
    (w : World) (Hcursors : cursorsNonNegative w) :
  (forall op now,
      cursorsNonNegative
        (snd (runOperation publishToRealtime runAIObjectQuery op now w)))
  /\ (forall trace,
        cursorsNonNegative (runAll publishToRealtime runAIObjectQuery trace w))
  /\ (forall trace members expertiseMatches mid,
        members <> [] ->
        exists m,
          fst (selectBestMember members expertiseMatches mid
                 (runAll publishToRealtime runAIObjectQuery trace w))
          = Returned (Some m)
          /\ In m members).
Proof.
  assert (Hall : forall trace,
             cursorsNonNegative (runAll publishToRealtime runAIObjectQuery trace w)).
  { intros trace. revert w Hcursors.
    induction trace as [|[op now] rest IH]; intros w Hw; [exact Hw|].
    cbn [runAll]. apply IH. now apply runOperation_cursors. }
  split; [intros op now; now apply runOperation_cursors|].
  split; [exact Hall|].
  intros trace members expertiseMatches mid Hne.
  apply selectBestMember_returns_member; [exact Hne|].
  apply cursorOf_nonneg, Hall.
Qed.

Lemma X3_cursors_stay_non_negative_witness :
  roundRobinCache tieWorld = [(1, 5)]
  /\ cursorsNonNegative tieWorld
  /\ roundRobinCache (runAll (fun _ => true) matcherDown [(AutoAssign 4, 5000)] tieWorld)
     = [(1, 0)]
  /\ roundRobinCache (runAll (fun _ => true) matcherDown tieDay tieWorld) = [(1, 1)]
  /\ cursorsNonNegative (runAll (fun _ => true) matcherDown tieDay tieWorld).
Proof.
  assert (H : cursorsNonNegative tieWorld).
  { intros e [<-|[]]. simpl. lia. }
  split; [reflexivity|]. split; [exact H|].
  split; [reflexivity|]. split; [reflexivity|].
  apply (X3_cursors_stay_non_negative (fun _ => true) matcherDown tieWorld H).
Defined.

(** ** One update: all or nothing, and read back *)

Lemma find_after_update uid mid f rows :
  (forall r, sameKey uid mid (f r) = sameKey uid mid r) ->
  find (sameKey uid mid) (map (fun r => if sameKey uid mid r then f r else r) rows)
  = option_map f (find (sameKey uid mid) rows).
Proof.
  intros Hkey. induction rows as [|r rows IH]; simpl; [reflexivity|].
  destruct (sameKey uid mid r) eqn:E.
  - now rewrite Hkey, E.
  - now rewrite E.
Qed.

Lemma find_snoc_none {A} (p : A -> bool) l x :
  find p l = None -> find p (l ++ [x]) = if p x then Some x else None.
Proof.
  induction l as [|a l IH]; simpl; [reflexivity|].
  destruct (p a); [discriminate | exact IH].
Qed.

Lemma updateUserAvailability_cases
    (publishToRealtime : RealtimeEvent -> bool)
    (uid : string) (mid : Z) (updates : AvailabilityUpdates) (now : Z) (w : World) :
  updateUserAvailability publishToRealtime uid mid updates now w
  = (Thrown "Failed to publish", w)
  \/ exists result w',
       updateUserAvailability publishToRealtime uid mid updates now w
       = (Returned result, w')
       /\ getUserAvailability uid mid w' = (Returned (Some result), w')
       /\ realtimeLog w' = (realtimeLog w ++ [updatedEvent mid result])%list
       /\ userId result = uid /\ mailboxId result = mid.
Proof.
  destruct (find (sameKey uid mid) (userAvailability w)) as [cur|] eqn:Hfind.
  - rewrite (updateUserAvailability_existing _ _ _ _ _ _ _ Hfind). cbv zeta.
    destruct (publishToRealtime _); [right | now left].
    eexists. eexists. split; [reflexivity|].
    unfold getUserAvailability, gets.
    cbn [userAvailability realtimeLog committed]. unfold rowsAfter.
    rewrite find_after_update by reflexivity. rewrite Hfind.
    apply find_some in Hfind. destruct Hfind as [_ Hk].
    unfold sameKey in Hk. apply andb_true_iff in Hk.
    destruct Hk as [Hu Hm]. apply String.eqb_eq in Hu. apply Z.eqb_eq in Hm.
    repeat split; assumption.
  - rewrite (updateUserAvailability_created _ _ _ _ _ _ Hfind). cbv zeta.
    destruct (publishToRealtime _); [right | now left].
    eexists. eexists. split; [reflexivity|].
    unfold getUserAvailability, gets.
    cbn [userAvailability realtimeLog committed].
    rewrite (find_snoc_none _ _ _ Hfind).
    unfold sameKey at 1. cbn [userId mailboxId newRow].
    rewrite String.eqb_refl, Z.eqb_refl. repeat split.
Qed.

(** X4: one call of [updateUserAvailability] is all or nothing.  Either
    it throws and the world is exactly what it was, or it returns a record,
    that record is what a lookup of the pair reads afterwards, and the event
    carrying it is the one appended to the realtime log. *)
Theorem X4_update_all_or_nothing
    (publishToRealtime : RealtimeEvent -> bool)
    (uid : string) (mid : Z) (updates : AvailabilityUpdates) (now : Z) (w : World) :
  updateUserAvailability publishToRealtime uid mid updates now w
  = (Thrown "Failed to publish", w)
  \/ exists result w',
       updateUserAvailability publishToRealtime uid mid updates now w
       = (Returned result, w')
       /\ getUserAvailability uid mid w' = (Returned (Some result), w')
       /\ realtimeLog w' = (realtimeLog w ++ [updatedEvent mid result])%list
       /\ userId result = uid /\ mailboxId result = mid.
Proof.
  destruct (updateUserAvailability_cases publishToRealtime uid mid updates now w)
    as [Hthrown | Hreturned].
  - left. exact Hthrown.
  - right. exact Hreturned.
Qed.

(** ** Duration accounting over a series of status updates *)

(** X5: duration accounting.  When a member with a stored record sends a
    series of status updates and the broadcast works, the history grows by
    exactly one row per update that names a status other than the current
    one; each row is the member's, has reason manual, goes from the previous
    status to the new one, and records the whole seconds between the
    previous status-bearing update (or the record's stamp) and this one. *)
Theorem X5_history_counts_transitions
    (publishToRealtime : RealtimeEvent -> bool)
    (uid : string) (mid : Z) (steps : list (AvailabilityStatus * Z))
    (w : World) (cur : UserAvailabilityData)
    (Hpublish : forall e, publishToRealtime e = true)
    (Hfind : find (sameKey uid mid) (userAvailability w) = Some cur) :
  exists added,
    availabilityHistory (updateStatuses publishToRealtime uid mid steps w)
    = (availabilityHistory w ++ added)%list
    /\ map transitionLine added
       = transitionsOf (status cur) (lastStatusChangeAt cur) steps
    /\ Forall (fun h => h_userId h = uid /\ h_mailboxId h = mid
                        /\ changeReason h = Some manual) added.
Proof.
  revert w cur Hfind.
  induction steps as [|[s t] rest IH]; intros w cur Hfind.
  - exists []. cbn. rewrite app_nil_r. repeat split. constructor.
  - cbn [updateStatuses transitionsOf]. unfold updateStatus, rethrowAs.
    set (u := {| u_status := Some s; u_customMessage := None;
                 u_lastActivityAt := None; u_lastStatusChangeAt := None;
                 u_autoAwayAt := None; u_scheduledReturnAt := None;
                 u_businessHours := None; u_changeReason := Some manual;
                 u_sessionData := None |}).
    rewrite (updateUserAvailability_existing _ _ _ _ _ _ _ Hfind). cbv zeta.
    rewrite Hpublish. cbn [snd].
    set (w1 := committed _ _ _ w).
    assert (Hfind1 : find (sameKey uid mid) (userAvailability w1)
                     = Some (setRow u t cur cur)).
    { unfold w1. cbn [userAvailability committed]. unfold rowsAfter.
      rewrite find_after_update by reflexivity. now rewrite Hfind. }
    destruct (IH w1 _ Hfind1) as [added [Hh [Hlines Hall]]].
    cbn [status lastStatusChangeAt setRow u u_status orElse] in Hlines.
    assert (Hh1 : availabilityHistory w1 = historyAfter uid mid u t cur w)
      by reflexivity.
    unfold historyAfter in Hh1. cbn [u_status u] in Hh1.
    destruct (status_eqb s (status cur)) eqn:E; cbn [negb] in Hh1.
    + exists added. rewrite Hh, Hh1. repeat split; assumption.
    + exists (historyRow uid mid cur s u t :: added).
      rewrite Hh, Hh1, <- app_assoc. split; [reflexivity|]. split.
      * cbn [map]. now rewrite Hlines.
      * constructor; [repeat split | exact Hall].
Qed.

Lemma X5_history_counts_transitions_witness :
  (forall e : RealtimeEvent, (fun _ : RealtimeEvent => true) e = true)
  /\ find (sameKey "u1" 1) (userAvailability onlineWorld) = Some onlineRecord
  /\ exists added,
       availabilityHistory
         (updateStatuses (fun _ => true) "u1" 1
            [(busy, 61000); (busy, 70000); (away, 131500); (online, 132000)]
            onlineWorld)
       = added
       /\ map transitionLine added
          = [(online, busy, Some 60); (busy, away, Some 61); (away, online, Some 0)].
Proof.
  split; [reflexivity|]. split; [reflexivity|].
  destruct (X5_history_counts_transitions (fun _ => true) "u1" 1
              [(busy, 61000); (busy, 70000); (away, 131500); (online, 132000)]
              onlineWorld onlineRecord (fun _ => eq_refl) eq_refl)
    as [added [Hh [Hlines _]]].
  exists added. split; [exact Hh | exact Hlines].
Defined.

(** ** The activity ping *)

(** X6: the activity ping, with the broadcast working.  For a pair
    without a record it creates one that is online and stamped with the time
    of the ping, and writes no history row.  For a record that is offline or
    away it sets the status to online, stamps the change and appends one
    history row with reason auto_activity and the whole seconds spent in the
    previous status.  For a record that is online or busy it only moves
    [lastActivityAt]: status, [lastStatusChangeAt], message and scheduled
    return stay, and no history row is written. *)
Theorem X6_activity_ping
    (publishToRealtime : RealtimeEvent -> bool) (uid : string) (mid : Z) (now : Z)
    (w : World) (Hpublish : forall e, publishToRealtime e = true) :
  exists w',
    recordUserActivity publishToRealtime uid mid now w = (Returned tt, w')
    /\ match find (sameKey uid mid) (userAvailability w) with
       | None =>
           find (sameKey uid mid) (userAvailability w')
           = Some {| userId := uid; mailboxId := mid; status := online;
                     customMessage := None; lastActivityAt := now;
                     lastStatusChangeAt := now; autoAwayAt := None;
                     scheduledReturnAt := None; businessHours := None |}
           /\ availabilityHistory w' = availabilityHistory w
       | Some cur =>
           exists r,
             find (sameKey uid mid) (userAvailability w') = Some r
             /\ lastActivityAt r = now
             /\ customMessage r = customMessage cur
             /\ scheduledReturnAt r = scheduledReturnAt cur
             /\ businessHours r = businessHours cur
             /\ if status_eqb (status cur) offline || status_eqb (status cur) away
                then status r = online
                     /\ lastStatusChangeAt r = now
                     /\ availabilityHistory w'
                        = (availabilityHistory w
                           ++ [{| h_userId := uid; h_mailboxId := mid;
                                  fromStatus := status cur; toStatus := online;
                                  durationSeconds :=
                                    Some ((now - lastStatusChangeAt cur) / 1000);
                                  changeReason := Some auto_activity;
                                  sessionData := None; createdAt := now |}])%list
                else status r = status cur
                     /\ lastStatusChangeAt r = lastStatusChangeAt cur
                     /\ availabilityHistory w' = availabilityHistory w
       end.
Proof.
  unfold recordUserActivity, getUserAvailability, bind at 1, gets.
  destruct (find (sameKey uid mid) (userAvailability w)) as [cur|] eqn:Hfind.
  - unfold bind.
    rewrite (updateUserAvailability_existing _ _ _ _ _ _ _ Hfind). cbv zeta.
    rewrite Hpublish. eexists. split; [reflexivity|].
    eexists. split.
    { cbn [userAvailability committed]. unfold rowsAfter.
      rewrite find_after_update by reflexivity. now rewrite Hfind. }
    cbn [lastActivityAt customMessage scheduledReturnAt businessHours status
         lastStatusChangeAt setRow u_status u_customMessage u_scheduledReturnAt
         u_businessHours orElse availabilityHistory committed].
    repeat (split; [reflexivity|]).
    unfold historyAfter. cbn [u_status].
    destruct (status_eqb (status cur) offline || status_eqb (status cur) away) eqn:E.
    + assert (Hne : status_eqb online (status cur) = false).
      { destruct (status cur); simpl in E; try discriminate; reflexivity. }
      rewrite Hne. cbn [negb orElse]. repeat split.
    + repeat split.
  - unfold bind.
    rewrite (updateUserAvailability_created _ _ _ _ _ _ Hfind). cbv zeta.
    rewrite Hpublish. eexists. split; [reflexivity|].
    cbn [userAvailability availabilityHistory committed].
    rewrite (find_snoc_none _ _ _ Hfind).
    unfold sameKey at 1. cbn [userId mailboxId newRow].
    rewrite String.eqb_refl, Z.eqb_refl. split; reflexivity.
Qed.

Lemma X6_activity_ping_witness :
  (forall e : RealtimeEvent, (fun _ : RealtimeEvent => true) e = true)
  /\ exists w', recordUserActivity (fun _ => true) "u1" 1 6000 sweepWorld
                = (Returned tt, w').
Proof.
  split; [reflexivity|].
  destruct (X6_activity_ping (fun _ => true) "u1" 1 6000 sweepWorld (fun _ => eq_refl))
    as [w' [H _]].
  exists w'. exact H.
Defined.

(** ** A scheduled return, from the endpoint to the sweep *)

Lemma found_key uid mid rows r :
  find (sameKey uid mid) rows = Some r -> In r rows /\ userId r = uid /\ mailboxId r = mid.
Proof.
  intros H. apply find_some in H. destruct H as [Hin Hk].
  unfold sameKey in Hk. apply andb_true_iff in Hk. destruct Hk as [Hu Hm].
  apply String.eqb_eq in Hu. apply Z.eqb_eq in Hm. auto.
Qed.

(** X7: a scheduled return end to end, for a member with a stored record
    whose auto-away deadline is unset, one row per pair and a working
    broadcast.  After [setScheduledReturn] the record is away with the
    return time stored.  A sweep at or after that time brings the record
    back online, clears the field, stamps the change and appends the history
    row away -> online with reason scheduled and the seconds since the
    request; a sweep before that time leaves the record as it is. *)
Theorem X7_scheduled_return_end_to_end
    (publishToRealtime : RealtimeEvent -> bool)
    (uid : string) (mid : Z) (returnAt : Z) (message : option string)
    (requestedAt now : Z) (w : World) (cur : UserAvailabilityData)
    (Hpublish : forall e, publishToRealtime e = true)
    (Hunique : uniqueKeys w)
    (Hfind : find (sameKey uid mid) (userAvailability w) = Some cur)
    (Hunarmed : autoAwayAt cur = None) :
  let w1 := snd (setScheduledReturn publishToRealtime uid mid returnAt message
                   requestedAt w) in
  let w2 := snd (processScheduledStatusChanges publishToRealtime now w1) in
  exists r1,
    find (sameKey uid mid) (userAvailability w1) = Some r1
    /\ status r1 = away
    /\ scheduledReturnAt r1 = Some returnAt
    /\ (returnAt <= now ->
        exists r2 h,
          find (sameKey uid mid) (userAvailability w2) = Some r2
          /\ status r2 = online
          /\ scheduledReturnAt r2 = None
          /\ lastStatusChangeAt r2 = now
          /\ In h (availabilityHistory w2)
          /\ entryKey h = (uid, mid)
          /\ transitionLine h = (away, online, Some ((now - requestedAt) / 1000))
          /\ changeReason h = Some scheduled)
    /\ (now < returnAt ->
        find (sameKey uid mid) (userAvailability w2) = Some r1).
Proof.
  intros w1 w2.
  destruct (found_key _ _ _ _ Hfind) as [Hin [Hu Hm]].
  set (u := {| u_status := Some away;
               u_customMessage :=
                 Some (match message with
                       | Some s => if String.eqb s "" then None else Some s
                       | None => None
                       end);
               u_lastActivityAt := None; u_lastStatusChangeAt := None;
               u_autoAwayAt := None; u_scheduledReturnAt := Some (Some returnAt);
               u_businessHours := None; u_changeReason := Some manual;
               u_sessionData := None |}).
  assert (Hw1 : userAvailability w1 = rowsAfter uid mid u requestedAt cur w).
  { unfold w1, setScheduledReturn, rethrowAs. fold u.
    rewrite (updateUserAvailability_existing _ _ _ _ _ _ _ Hfind). cbv zeta.
    now rewrite Hpublish. }
  set (r1 := setRow u requestedAt cur cur).
  assert (Hfind1 : find (sameKey uid mid) (userAvailability w1) = Some r1).
  { rewrite Hw1. unfold rowsAfter.
    rewrite find_after_update by reflexivity. now rewrite Hfind. }
  assert (Hunique1 : uniqueKeys w1).
  { unfold uniqueKeys. rewrite Hw1. unfold rowsAfter.
    rewrite keys_after_map; [exact Hunique|].
    intros r. now destruct (sameKey uid mid r). }
  destruct (found_key _ _ _ _ Hfind1) as [Hin1 _].
  destruct (processScheduledStatusChanges_effect publishToRealtime Hpublish now w1
              Hunique1)
    as [wA [w2' [_ [_ [Hrun [_ [Hrows2 [_ Hhist2]]]]]]]].
  assert (Hw2 : w2 = w2') by (unfold w2; now rewrite Hrun).
  assert (Hstored : find (sameKey uid mid) (userAvailability w2)
                    = Some (afterSweep now r1)).
  { rewrite Hw2, Hrows2.
    pose proof (find_mapped_row _ _ r1 (keyOf_afterSweep now) Hunique1 Hin1) as Hf.
    cbn [userId mailboxId r1 setRow] in Hf. now rewrite Hu, Hm in Hf. }
  exists r1. split; [exact Hfind1|]. split; [reflexivity|]. split; [reflexivity|].
  split.
  - intros Hdue.
    assert (Hd : dueForReturn now r1 = true).
    { apply dueForReturn_spec. split; [reflexivity|].
      exists returnAt. split; [reflexivity | exact Hdue]. }
    assert (Hafter : afterSweep now r1 = returnedRow now r1).
    { unfold afterSweep, afterReturns, afterAutoAway. rewrite Hd.
      unfold dueForAutoAway.
      cbn [autoAwayAt returnedRow setRow returnUpdates u_autoAwayAt orElse r1 u].
      now rewrite Hunarmed. }
    exists (returnedRow now r1), (returnEntry now r1).
    split; [now rewrite Hstored, Hafter|].
    split; [reflexivity|]. split; [reflexivity|]. split; [reflexivity|].
    split.
    { rewrite Hw2, Hhist2. apply in_or_app. right.
      unfold sweepEntries. apply in_or_app. left.
      apply in_map. apply filter_In. now split. }
    split; [unfold entryKey; cbn; now rewrite Hu, Hm|].
    split; reflexivity.
  - intros Hearly.
    rewrite Hstored. f_equal.
    unfold afterSweep, afterReturns, afterAutoAway.
    assert (Hd : dueForReturn now r1 = false).
    { unfold dueForReturn, lte.
      cbn [scheduledReturnAt r1 setRow u u_scheduledReturnAt orElse].
      destruct (Z.leb_spec returnAt now); [lia | reflexivity]. }
    rewrite Hd. unfold dueForAutoAway.
    cbn [status r1 setRow u u_status orElse status_eqb].
    now rewrite andb_false_r.
Qed.

Lemma X7_scheduled_return_end_to_end_witness :
  (forall e : RealtimeEvent, (fun _ : RealtimeEvent => true) e = true)
  /\ uniqueKeys onlineWorld
  /\ exists r1,
       find (sameKey "u1" 1)
         (userAvailability
            (snd (setScheduledReturn (fun _ => true) "u1" 1 9000 (Some "Back at nine")
                    4000 onlineWorld)))
       = Some r1
       /\ status r1 = away.
Proof.
  assert (Hk : uniqueKeys onlineWorld).
  { unfold uniqueKeys. simpl. constructor; [intros []|constructor]. }
  split; [reflexivity|]. split; [exact Hk|].
  destruct (X7_scheduled_return_end_to_end (fun _ => true) "u1" 1 9000
              (Some "Back at nine") 4000 10000 onlineWorld onlineRecord
              (fun _ => eq_refl) Hk eq_refl eq_refl)
    as [r1 [H1 [H2 _]]].
  exists r1. split; assumption.
Defined.

(** ** The selection returns a best candidate *)

Lemma selectBestMember_some_top members expertiseMatches mid w m :
  fst (selectBestMember members expertiseMatches mid w) = Returned (Some m) ->
  exists s, In s (topCandidates members expertiseMatches) /\ sm_member s = m.
Proof.
  unfold selectBestMember.
  destruct members as [|m0 ms]; [discriminate|].
  destruct (topCandidates (m0 :: ms) expertiseMatches) as [|a [|b rest]] eqn:E.
  - cbn. unfold js_index.
    destruct (_ <? 0); [discriminate|].
    destruct (Z.to_nat _); discriminate.
  - cbn. intros [= <-]. exists a. split; [now left | reflexivity].
  - cbn [bind cacheGet gets cacheSet modify ret fst].
    set (next := Z.rem _ _).
    destruct (js_index (a :: b :: rest) next) as [s|] eqn:Ei; [|discriminate].
    assert (Hin : In s (a :: b :: rest)).
    { unfold js_index in Ei. destruct (next <? 0); [discriminate|].
      exact (nth_error_In _ _ Ei). }
    cbn [option_map fst]. intros [= <-]. exists s. split; [exact Hin | reflexivity].
Qed.

Lemma scoreMembers_score members expertiseMatches s :
  In s (scoreMembers members expertiseMatches) ->
  In (sm_member s) members /\ score s = scoreOf expertiseMatches (sm_member s).
Proof.
  unfold scoreMembers. rewrite in_map_iff. intros [m [<- Hm]]. now split.
Qed.

(** X8: whatever the rotation cursor holds, a member returned by the
    selection is one of the candidates and no candidate has a higher score;
    the call never throws and changes nothing but the cursor; for no
    candidates it returns [null] and changes nothing at all. *)
Theorem X8_selected_member_is_best
    (members expertiseMatches : list AvailableTeamMember) (mid : Z) (w : World)
    (m : AvailableTeamMember)
    (Hselected : fst (selectBestMember members expertiseMatches mid w)
                 = Returned (Some m)) :
  In m members
  /\ (forall m', In m' members ->
                 scoreOf expertiseMatches m' <= scoreOf expertiseMatches m)
  /\ exceptCache w (snd (selectBestMember members expertiseMatches mid w))
  /\ (forall matches' q w', selectBestMember [] matches' q w' = (Returned None, w'))
  /\ (forall members' matches' q w',
        exists r, fst (selectBestMember members' matches' q w') = Returned r).
Proof.
  destruct (selectBestMember_some_top _ _ _ _ _ Hselected) as [s [Hs <-]].
  apply topCandidates_max in Hs. destruct Hs as [Hin Hmax].
  destruct (scoreMembers_score _ _ _ Hin) as [Hm Hscore].
  split; [exact Hm|]. split.
  - intros m' Hm'. rewrite <- Hscore.
    apply (Hmax {| sm_member := m'; score := scoreOf expertiseMatches m';
                   hasExpertise := includes expertiseMatches m' |}).
    unfold scoreMembers. apply in_map_iff. exists m'. now split.
  - split; [apply selectBestMember_exceptCache|].
    split; [reflexivity|].
    intros members' matches' q w'. unfold selectBestMember.
    destruct members' as [|m0 ms]; [eexists; reflexivity|].
    destruct (topCandidates (m0 :: ms) matches') as [|a [|b rest]];
      eexists; reflexivity.
Qed.

Lemma X8_selected_member_is_best_witness :
  fst (selectBestMember [idleNonCore; loadedCore] [] 7 emptyWorld)
  = Returned (Some loadedCore)
  /\ In loadedCore [idleNonCore; loadedCore].
Proof.
  split; [reflexivity|].
  apply (X8_selected_member_is_best [idleNonCore; loadedCore] [] 7 emptyWorld
           loadedCore eq_refl).
Defined.

(** ** The core rotation *)

Lemma getNextCoreTeamMemberInRotation_step coreTeamMembers mid w :
  coreTeamMembers <> [] ->
  let next := nextCursor (cursorOf mid w) (List.length coreTeamMembers) in
  getNextCoreTeamMemberInRotation coreTeamMembers mid w
  = (Returned (js_index coreTeamMembers next), withCursor mid next w).
Proof.
  intros Hne next. unfold getNextCoreTeamMemberInRotation.
  destruct coreTeamMembers as [|m ms]; [contradiction|]. reflexivity.
Qed.

Lemma repeatCoreRotation_round_robin coreTeamMembers mid :
  coreTeamMembers <> [] ->
  let n := Z.of_nat (List.length coreTeamMembers) in
  forall k w,
    0 <= cursorOf mid w ->
    fst (repeatCoreRotation k coreTeamMembers mid w)
    = Returned
        (map (fun i => js_index coreTeamMembers
                         ((cursorOf mid w + 1 + Z.of_nat i) mod n))
             (seq 0 k)).
Proof.
  intros Hne n k. induction k as [|k IH]; intros w Hc; [reflexivity|].
  cbn [repeatCoreRotation]. unfold bind at 1.
  rewrite getNextCoreTeamMemberInRotation_step by exact Hne. cbv zeta.
  assert (Hpos : (0 < List.length coreTeamMembers)%nat)
    by (destruct coreTeamMembers; [contradiction | simpl; lia]).
  pose proof (nextCursor_range (cursorOf mid w) _ Hc Hpos) as Hr.
  specialize (IH (withCursor mid (nextCursor (cursorOf mid w)
                                    (List.length coreTeamMembers)) w)).
  rewrite cursorOf_withCursor in IH. specialize (IH (proj1 Hr)).
  unfold bind at 1.
  destruct (repeatCoreRotation k coreTeamMembers mid _) as [[rs|msg] w'] eqn:E;
    simpl in IH; [|discriminate].
  injection IH as ->. simpl. f_equal.
  rewrite nextCursor_mod by assumption. fold n.
  rewrite Z.add_0_r. f_equal.
  rewrite <- seq_shift, map_map.
  apply map_ext. intros i. f_equal.
  rewrite Nat2Z.inj_succ.
  replace ((cursorOf mid w + 1) mod n + 1 + Z.of_nat i)
    with ((cursorOf mid w + 1) mod n + (1 + Z.of_nat i)) by lia.
  rewrite Z.add_mod_idemp_l by (unfold n; lia).
  f_equal. lia.
Qed.

(** X9: the core rotation.  [getCoreTeamMembers] keeps exactly the
    roster entries with the core role.  Over a non-empty list of them and a
    cursor that is absent (read as 0) or between 0 and
    [Number.MAX_SAFE_INTEGER], the range in which the code's
    [lastAssignedIndex + 1] is exact, one call stores
    [(cursor + 1) mod count] under the mailbox (the key the tie-break of the
    selection uses too) and returns the member at that position, so repeated
    calls walk through the core members in round-robin order; over an empty
    list the call returns [null] and stores nothing. *)
Theorem X9_core_rotation_round_robin
    (teamMembers : list UserWithMailboxAccessData) (mid : Z) (w : World)
    (Hcore : getCoreTeamMembers teamMembers <> [])
    (Hcursor : 0 <= cursorOf mid w)
    (Hsafe : cursorOf mid w <= MAX_SAFE_INTEGER) :
  let core := getCoreTeamMembers teamMembers in
  let count := Z.of_nat (List.length core) in
  let cursor := (cursorOf mid w + 1) mod count in
  (forall m, In m core <-> In m teamMembers /\ role m = CORE)
  /\ (exists m,
        getNextCoreTeamMemberInRotation core mid w
        = (Returned (Some m), withCursor mid cursor w)
        /\ nth_error core (Z.to_nat cursor) = Some m
        /\ role m = CORE)
  /\ (forall k,
        fst (repeatCoreRotation k core mid w)
        = Returned
            (map (fun i => js_index core ((cursorOf mid w + 1 + Z.of_nat i) mod count))
                 (seq 0 k)))
  /\ (forall q w', getNextCoreTeamMemberInRotation [] q w' = (Returned None, w')).
Proof.
  intros core count cursor.
  assert (Hspec : forall m, In m core <-> In m teamMembers /\ role m = CORE).
  { intros m. unfold core, getCoreTeamMembers. rewrite filter_In.
    split; intros [H1 H2]; (split; [exact H1|]).
    - now destruct (role m).
    - now rewrite H2. }
  split; [exact Hspec|]. split.
  - assert (Hpos : (0 < List.length core)%nat).
    { unfold core. destruct (getCoreTeamMembers teamMembers);
        [contradiction | simpl; lia]. }
    pose proof (nextCursor_range _ _ Hcursor Hpos) as Hr.
    rewrite nextCursor_mod in Hr by assumption. fold count cursor in Hr.
    destruct (js_index_in_range core cursor Hr) as [m [Hm Hin]].
    exists m. split; [|split].
    + rewrite getNextCoreTeamMemberInRotation_step by exact Hcore. cbv zeta.
      rewrite nextCursor_mod by assumption. fold count cursor. now rewrite Hm.
    + unfold js_index in Hm. destruct (Z.ltb_spec cursor 0); [lia | exact Hm].
    + now apply Hspec.
  - split; [|reflexivity].
    intros k. now apply repeatCoreRotation_round_robin.
Qed.

Lemma X9_core_rotation_round_robin_witness :
  getCoreTeamMembers [user idleNonCore; user loadedCore; keywordMember] <> []
  /\ 0 <= cursorOf 7 emptyWorld
  /\ cursorOf 7 emptyWorld <= MAX_SAFE_INTEGER
  /\ fst (repeatCoreRotation 3
            (getCoreTeamMembers [user idleNonCore; user loadedCore; keywordMember])
            7 emptyWorld)
     = Returned [Some keywordMember; Some (user loadedCore); Some keywordMember].
Proof.
  split; [discriminate|]. split; [vm_compute; discriminate|].
  split; [vm_compute; discriminate|].
  pose proof (X9_core_rotation_round_robin
                [user idleNonCore; user loadedCore; keywordMember] 7 emptyWorld
                ltac:(discriminate) ltac:(vm_compute; discriminate)
                ltac:(vm_compute; discriminate)) as H.
  destruct H as [_ [_ [H _]]].
  rewrite (H 3%nat). reflexivity.
Defined.

(** ** What the expertise matching returns *)

(** X10: expertise matching never changes the world and has three
    outcomes only.  Without an answer of the matcher it returns the empty
    match-set: this is the case when the conversation has no text or no
    candidate declares keywords (with a core or non-core role), and the
    matcher is then not asked.  With an answer, every returned member is one
    of the candidates, declares keywords and is marked true in the answer,
    and every such candidate is returned.  It throws only when the matcher
    was asked and failed. *)
Theorem X10_expertise_matching_outcomes
    (runAIObjectQuery : Mailbox -> list AvailableTeamMember -> string -> option AIResult)
    (availableMembers : list AvailableTeamMember) (conversationContent : string)
    (mailbox : Mailbox) (w : World) :
  let asked := filter declaresKeywords availableMembers in
  match getExpertiseMatchingMembers runAIObjectQuery availableMembers
          conversationContent mailbox w with
  | (Returned (members, None), w') =>
      w' = w /\ members = [] /\ (conversationContent = "" \/ asked = [])
  | (Returned (members, Some result), w') =>
      w' = w
      /\ conversationContent <> "" /\ asked <> []
      /\ runAIObjectQuery mailbox asked conversationContent = Some result
      /\ (forall m, In m members <->
                    In m availableMembers /\ declaresKeywords m = true
                    /\ matchFor result (id (user m)) = true)
  | (Thrown _, w') =>
      w' = w
      /\ conversationContent <> "" /\ asked <> []
      /\ runAIObjectQuery mailbox asked conversationContent = None
  end.
Proof.
  intros asked.
  destruct (String.eqb_spec conversationContent "") as [Hc|Hc].
  - rewrite getExpertiseMatchingMembers_not_consulted by now left.
    repeat split. now left.
  - destruct asked as [|k ks] eqn:Ea.
    + rewrite getExpertiseMatchingMembers_not_consulted by now right.
      repeat split. now right.
    + assert (Hne : filter declaresKeywords availableMembers <> [])
        by (fold asked; rewrite Ea; discriminate).
      destruct (runAIObjectQuery mailbox (filter declaresKeywords availableMembers)
                  conversationContent) as [result|] eqn:Eq.
      * rewrite (getExpertiseMatchingMembers_answer _ _ _ _ _ result Hc Hne Eq).
        fold asked. rewrite Ea.
        split; [reflexivity|]. split; [exact Hc|]. split; [discriminate|].
        split; [now rewrite <- Ea|].
        intros m. rewrite <- Ea. unfold asked. rewrite !filter_In. tauto.
      * rewrite (getExpertiseMatchingMembers_error _ _ _ _ _ Hc Hne Eq).
        split; [reflexivity|]. split; [exact Hc|]. split; [discriminate|].
        now rewrite <- Ea.
Qed.

(** ** Who is available *)

Lemma availableMembersOf_spec
    (teamMembers : list UserWithMailboxAccessData) (mid : Z) (w : World) :
  let available := availableMembersOf teamMembers mid w in
  (forall m,
          In m available ->
          In (user m) teamMembers
          /\ isAvailableForAssignment (availability m) = true
          /\ (a_status (availability m) = online \/ a_status (availability m) = busy)
          /\ currentWorkload (availability m)
             = openConversationCount mid (id (user m)) w
          /\ exists row,
               In row (userAvailability w)
               /\ userId row = id (user m) /\ mailboxId row = mid
               /\ status row = a_status (availability m)
               /\ customMessage row = a_customMessage (availability m))
    /\ (forall u,
          In u teamMembers ->
          (forall row, In row (userAvailability w) ->
                       sameKey (id u) mid row = false) ->
          ~ In u (map user available))
    /\ (forall u,
          In u teamMembers ->
          (exists row, In row (userAvailability w) /\ sameKey (id u) mid row = true) ->
          (forall row, In row (userAvailability w) -> sameKey (id u) mid row = true ->
                       status row = online \/ status row = busy) ->
          In u (map user available)).
Proof.
  intros available. unfold available.
  unfold availableMembersOf, getAvailableTeamMembers, getTeamWorkloadDistribution,
    getAllTeamAvailability, bind, gets, ret. cbn [fst].
  set (dist := map _ (js_sort _ _)).
  assert (Hdist : forall e, In e dist ->
            In (w_availability e) (userAvailability w)
            /\ mailboxId (w_availability e) = mid
            /\ w_currentWorkload e
               = openConversationCount mid (userId (w_availability e)) w
            /\ w_isAvailableForAssignment e = isAssignable (status (w_availability e))).
  { intros e He. unfold dist in He. apply in_map_iff in He.
    destruct He as [row [<- Hrow]]. apply js_sort_In in Hrow.
    apply filter_In in Hrow. destruct Hrow as [Hrow Hm].
    apply Z.eqb_eq in Hm. cbn. auto. }
  assert (Hlookup : forall uid e, workloadFor dist uid = Some e ->
            In e dist /\ userId (w_availability e) = uid).
  { intros uid e He. unfold workloadFor in He. apply find_some in He.
    destruct He as [He Hu]. apply in_rev in He. apply String.eqb_eq in Hu. auto. }
  split; [|split].
  - intros m Hm. apply filter_In in Hm. destruct Hm as [Hm Havail].
    apply in_map_iff in Hm. destruct Hm as [u [<- Hu]].
    destruct (workloadFor dist (id u)) as [e|] eqn:Ew; [|discriminate].
    destruct (Hlookup _ _ Ew) as [He Hid].
    destruct (Hdist e He) as [Hrow [Hmb [Hwl Hflag]]].
    cbn in *. split; [exact Hu|]. split; [exact Havail|].
    split.
    { rewrite Hflag in Havail. unfold isAssignable in Havail.
      destruct (status (w_availability e)); simpl in Havail;
        try discriminate; auto. }
    split; [now rewrite Hwl, Hid|].
    exists (w_availability e). auto.
  - intros u Hu Hnone Hin. apply in_map_iff in Hin.
    destruct Hin as [m [<- Hm]]. apply filter_In in Hm. destruct Hm as [Hm Havail].
    apply in_map_iff in Hm. destruct Hm as [u' [<- Hu']].
    destruct (workloadFor dist (id u')) as [e|] eqn:Ew; [|discriminate].
    destruct (Hlookup _ _ Ew) as [He Hid].
    destruct (Hdist e He) as [Hrow [Hmb _]].
    specialize (Hnone _ Hrow). cbn in Hnone.
    unfold sameKey in Hnone. now rewrite Hid, Hmb, String.eqb_refl, Z.eqb_refl in Hnone.
  - intros u Hu [row [Hrow Hkey]] Hall.
    unfold sameKey in Hkey. apply andb_true_iff in Hkey.
    destruct Hkey as [Hid Hmb].
    destruct (workloadFor dist (id u)) as [e|] eqn:Ew.
    + destruct (Hlookup _ _ Ew) as [He Heid].
      destruct (Hdist e He) as [Hrow' [Hmb' [_ Hflag]]].
      apply in_map_iff.
      eexists. split; [|apply filter_In; split;
                        [apply in_map_iff; exists u; split; [reflexivity | exact Hu]|]].
      * rewrite Ew. reflexivity.
      * rewrite Ew. cbn. rewrite Hflag.
        assert (Hk : sameKey (id u) mid (w_availability e) = true).
        { unfold sameKey. now rewrite Heid, Hmb', String.eqb_refl, Z.eqb_refl. }
        destruct (Hall _ Hrow' Hk) as [-> | ->]; reflexivity.
    + exfalso. unfold workloadFor in Ew.
      assert (Hin : In {| w_availability := row;
                          w_currentWorkload := openConversationCount mid (userId row) w;
                          w_isAvailableForAssignment := isAssignable (status row) |}
                       (rev dist)).
      { apply in_rev. rewrite rev_involutive. unfold dist. apply in_map_iff.
        exists row. split; [reflexivity|]. apply js_sort_In.
        apply filter_In. now split. }
      pose proof (find_none _ _ Ew _ Hin) as Hf. cbn in Hf. congruence.
Qed.

(** X11: the members [getAvailableTeamMembers] returns are roster
    entries that have an availability row in the mailbox with status online
    or busy; their workload is the number of open conversations of that
    mailbox assigned to them.  A roster entry without a row in the mailbox is
    never returned, a roster entry whose rows in the mailbox are all online
    or busy is returned, and reading the list changes nothing. *)
Theorem X11_available_members_are_online_or_busy
    (teamMembers : list UserWithMailboxAccessData) (mid : Z) (w : World) :
  exists available,
    getAvailableTeamMembers teamMembers mid w = (Returned available, w)
    /\ (forall m,
          In m available ->
          In (user m) teamMembers
          /\ isAvailableForAssignment (availability m) = true
          /\ (a_status (availability m) = online \/ a_status (availability m) = busy)
          /\ currentWorkload (availability m)
             = openConversationCount mid (id (user m)) w
          /\ exists row,
               In row (userAvailability w)
               /\ userId row = id (user m) /\ mailboxId row = mid
               /\ status row = a_status (availability m)
               /\ customMessage row = a_customMessage (availability m))
    /\ (forall u,
          In u teamMembers ->
          (forall row, In row (userAvailability w) ->
                       sameKey (id u) mid row = false) ->
          ~ In u (map user available))
    /\ (forall u,
          In u teamMembers ->
          (exists row, In row (userAvailability w) /\ sameKey (id u) mid row = true) ->
          (forall row, In row (userAvailability w) -> sameKey (id u) mid row = true ->
                       status row = online \/ status row = busy) ->
          In u (map user available)).
Proof.
  rewrite getAvailableTeamMembers_reads.
  exists (availableMembersOf teamMembers mid w).
  split; [reflexivity|].
  apply availableMembersOf_spec.
Qed.

(** ** What the assignment job writes *)

Lemma find_map_if {A} (p : A -> bool) (f : A -> A) l :
  (forall a, p (f a) = p a) ->
  find p (map (fun a => if p a then f a else a) l) = option_map f (find p l).
Proof.
  intros Hp. induction l as [|a l IH]; simpl; [reflexivity|].
  destruct (p a) eqn:E.
  - now rewrite Hp, E.
  - now rewrite E.
Qed.

Section JobOutcomes.

Variable publishToRealtime : RealtimeEvent -> bool.
Variable runAIObjectQuery :
  Mailbox -> list AvailableTeamMember -> string -> option AIResult.

Lemma recordUserActivity_as_update uid mid now w :
  exists updates,
    snd (recordUserActivity publishToRealtime uid mid now w)
    = snd (updateUserAvailability publishToRealtime uid mid updates now w).
Proof.
  unfold recordUserActivity, getUserAvailability, bind at 1, gets.
  destruct (find (sameKey uid mid) (userAvailability w)) as [cur|];
    rewrite snd_then_ret; eexists; reflexivity.
Qed.

Lemma recordUserActivity_other_tables uid mid now w :
  let w' := snd (recordUserActivity publishToRealtime uid mid now w) in
  conversations w' = conversations w
  /\ conversationNotes w' = conversationNotes w
  /\ mailboxes w' = mailboxes w
  /\ mailboxAccess w' = mailboxAccess w
  /\ roundRobinCache w' = roundRobinCache w.
Proof.
  intros w'. unfold w'.
  destruct (recordUserActivity_as_update uid mid now w) as [updates ->].
  exact (updateUserAvailability_other_tables publishToRealtime uid mid updates now w).
Qed.

Lemma getNextTeamMember_member teamMembers conversation mailbox w next w1 m :
  getNextTeamMember runAIObjectQuery teamMembers conversation mailbox w
  = (Returned next, w1) ->
  n_member next = Some m ->
  In m (availableMembersOf teamMembers (mb_id mailbox) w).
Proof.
  unfold getNextTeamMember, bind at 1.
  rewrite getAvailableTeamMembers_reads.
  destruct (_ =? 0); [intros [= <- <-]; discriminate|].
  unfold bind at 1.
  pose proof (getExpertiseMatchingMembers_rows runAIObjectQuery
                (membersToConsider
                   (availableMembersOf teamMembers (mb_id mailbox) w))
                (getConversationContent conversation) mailbox w) as Hm.
  destruct (getExpertiseMatchingMembers _ _ _ _ _) as [[[ms ai]|msg] w0];
    simpl in Hm; subst w0; [|discriminate].
  unfold bind.
  destruct (selectBestMember _ ms (mb_id mailbox) w) as [[sel|msg] w2] eqn:Es;
    [|discriminate].
  intros [= <- <-]. cbn [n_member]. intros ->.
  assert (Hsel : fst (selectBestMember
                        (membersToConsider
                           (availableMembersOf teamMembers (mb_id mailbox) w))
                        ms (mb_id mailbox) w) = Returned (Some m))
    by now rewrite Es.
  destruct (selectBestMember_some_top _ _ _ _ _ Hsel) as [s [Hs <-]].
  apply topCandidates_from_members in Hs.
  rewrite membersToConsider_cases in Hs.
  destruct (filter canHandleWorkload _) eqn:E; [exact Hs|].
  rewrite <- E in Hs. apply filter_In in Hs. tauto.
Qed.

(** The steps of a run that ends in an assignment. *)
Lemma autoAssignConversation_assigned conversationId now w w'
    message assigneeRole assigneeId assigneeStatus assigneeWorkload aiResult metrics :
  autoAssignConversation publishToRealtime runAIObjectQuery conversationId now w
  = (Returned (Assigned message assigneeRole assigneeId assigneeStatus
                 assigneeWorkload aiResult metrics), w') ->
  exists conversation mailbox entry next m w1 w2,
    find (fun c => c_id c =? conversationId) (conversations w) = Some conversation
    /\ truthyString (assignedToId conversation) = false
    /\ truthyNumber (mergedIntoId conversation) = false
    /\ find (fun m => mb_id m =? c_mailboxId conversation) (mailboxes w) = Some mailbox
    /\ find (fun e => fst e =? mb_id mailbox) (mailboxAccess w) = Some entry
    /\ getNextTeamMember runAIObjectQuery
         (filter (fun u => isActiveRole (role u)) (snd entry)) conversation mailbox w
       = (Returned next, w1)
    /\ n_member next = Some m
    /\ recordUserActivity publishToRealtime (id (user m)) (mb_id mailbox) now w1
       = (Returned tt, w2)
    /\ w' = snd (updateConversation (c_id conversation) (id (user m))
                   (assignmentNote (n_aiResult next) m) w2)
    /\ assigneeId = id (user m)
    /\ assigneeRole = role (user m)
    /\ assigneeStatus = a_status (availability m)
    /\ assigneeWorkload = currentWorkload (availability m).
Proof.
  unfold autoAssignConversation, getMailboxById, getUsersWithMailboxAccess,
    bind, gets.
  destruct (find (fun c => c_id c =? conversationId) (conversations w))
    as [conversation|] eqn:Hc; cbn [assertDefined ret throw]; [|discriminate].
  destruct (truthyString (assignedToId conversation)) eqn:Ha; [discriminate|].
  destruct (truthyNumber (mergedIntoId conversation)) eqn:Hm; [discriminate|].
  destruct (find (fun m => mb_id m =? c_mailboxId conversation) (mailboxes w))
    as [mailbox|] eqn:Hmb; cbn [assertDefined ret throw]; [|discriminate].
  destruct (find (fun e => fst e =? mb_id mailbox) (mailboxAccess w))
    as [entry|] eqn:Hacc; cbn [option_map assertDefined ret throw]; [|discriminate].
  destruct (_ =? 0); [discriminate|].
  destruct (getNextTeamMember _ _ _ _ w) as [[next|msg] w1] eqn:Hnext; [|discriminate].
  destruct (n_member next) as [m|] eqn:Hsel; [|discriminate].
  destruct (recordUserActivity _ _ _ _ w1) as [[[]|msg] w2] eqn:Hrec; [|discriminate].
  unfold updateConversation at 1, modify at 1.
  intros [= <- <- <- <- <- <- <- <-].
  exists conversation, mailbox, entry, next, m, w1, w2.
  repeat split; try assumption; reflexivity.
Qed.

End JobOutcomes.

Section JobWrites.

Variable publishToRealtime : RealtimeEvent -> bool.
Variable runAIObjectQuery :
  Mailbox -> list AvailableTeamMember -> string -> option AIResult.

Lemma updateUserAvailability_thrown uid mid updates now w msg :
  fst (updateUserAvailability publishToRealtime uid mid updates now w) = Thrown msg ->
  snd (updateUserAvailability publishToRealtime uid mid updates now w) = w.
Proof.
  destruct (find (sameKey uid mid) (userAvailability w)) as [cur|] eqn:Hfind.
  - rewrite (updateUserAvailability_existing _ _ _ _ _ _ _ Hfind). cbv zeta.
    destruct (publishToRealtime _); [discriminate | reflexivity].
  - rewrite (updateUserAvailability_created _ _ _ _ _ _ Hfind). cbv zeta.
    destruct (publishToRealtime _); [discriminate | reflexivity].
Qed.

Lemma recordUserActivity_thrown uid mid now w msg w' :
  recordUserActivity publishToRealtime uid mid now w = (Thrown msg, w') -> w' = w.
Proof.
  unfold recordUserActivity, getUserAvailability, bind at 1, gets.
  destruct (find (sameKey uid mid) (userAvailability w)) as [cur|];
    unfold bind;
    match goal with
    | |- context [updateUserAvailability ?p ?u ?m ?x ?n w] =>
        pose proof (updateUserAvailability_thrown u m x n w) as Ht;
        destruct (updateUserAvailability p u m x n w) as [[r|msg'] w0]
    end; cbn [fst snd] in Ht; try discriminate;
    intros [= <- <-]; now apply (Ht msg').
Qed.

(** X12: unless it assigns, the job writes nothing: when it skips or
    throws (missing conversation, mailbox or roster, a failing matcher, a
    failing broadcast during the activity ping), every table and the
    realtime log are as before, and only the rotation cursor may have moved.
    When it assigns, the mailboxes and the roster are still untouched. *)
Theorem X12_no_assignment_no_write
    (conversationId now : Z) (w : World) :
  match autoAssignConversation publishToRealtime runAIObjectQuery
          conversationId now w with
  | (Returned (Assigned _ _ _ _ _ _ _), w') =>
      mailboxes w' = mailboxes w /\ mailboxAccess w' = mailboxAccess w
  | (_, w') => exceptCache w w'
  end.
Proof.
  unfold autoAssignConversation, getMailboxById, getUsersWithMailboxAccess,
    bind, gets.
  destruct (find (fun c => c_id c =? conversationId) (conversations w))
    as [conversation|]; cbn [assertDefined ret throw];
    [|apply exceptCache_refl].
  destruct (truthyString (assignedToId conversation)); [apply exceptCache_refl|].
  destruct (truthyNumber (mergedIntoId conversation)); [apply exceptCache_refl|].
  destruct (find (fun m => mb_id m =? c_mailboxId conversation) (mailboxes w))
    as [mailbox|]; cbn [assertDefined ret throw]; [|apply exceptCache_refl].
  destruct (find (fun e => fst e =? mb_id mailbox) (mailboxAccess w))
    as [entry|]; cbn [option_map assertDefined ret throw]; [|apply exceptCache_refl].
  destruct (_ =? 0); [apply exceptCache_refl|].
  pose proof (getNextTeamMember_exceptCache runAIObjectQuery
                (filter (fun m => isActiveRole (role m)) (snd entry))
                conversation mailbox w) as Hnext.
  destruct (getNextTeamMember _ _ _ _ w) as [[next|msg] w1]; cbn [snd] in Hnext;
    [|exact Hnext].
  destruct (n_member next) as [m|]; [|exact Hnext].
  pose proof (recordUserActivity_other_tables publishToRealtime
                (id (user m)) (mb_id mailbox) now w1) as Hrec.
  pose proof (recordUserActivity_thrown (id (user m)) (mb_id mailbox) now w1) as Hthrown.
  destruct (recordUserActivity _ _ _ _ w1) as [[[]|msg] w2]; cbn [snd] in Hrec.
  - unfold updateConversation, modify, ret.
    cbn [mailboxes mailboxAccess set_conversations].
    destruct Hrec as (_ & _ & H1 & H2 & _).
    destruct Hnext as (_ & _ & _ & _ & H3 & H4 & _).
    split; congruence.
  - rewrite (Hthrown msg w2 eq_refl). exact Hnext.
Qed.

(** X13: what an assignment commits.  When the job returns an
    assignment, the conversation was stored unassigned and unmerged, the
    assignee is a core or non-core member of the roster of its mailbox whose
    status is online or busy, and the reported workload is the number of open
    conversations of that mailbox assigned to that member; afterwards the
    conversation is stored with that assignee, every other conversation is as
    before, and exactly one note for the conversation is appended.  If the
    assignee's id is not empty, running the job again on that conversation
    is a skip that writes nothing. *)
Theorem X13_assignment_commits
    (conversationId now : Z) (w w' : World)
    (message : string) (assigneeRole : UserRole) (assigneeId : string)
    (assigneeStatus : AvailabilityStatus) (assigneeWorkload : Z)
    (aiResult : option AIResult) (metrics : option AvailabilityMetrics)
    (Hassigned :
       autoAssignConversation publishToRealtime runAIObjectQuery conversationId now w
       = (Returned (Assigned message assigneeRole assigneeId assigneeStatus
                      assigneeWorkload aiResult metrics), w')) :
  exists conversation,
    find (fun c => c_id c =? conversationId) (conversations w) = Some conversation
    /\ truthyString (assignedToId conversation) = false
    /\ truthyNumber (mergedIntoId conversation) = false
    /\ (exists entry u,
          find (fun e => fst e =? c_mailboxId conversation) (mailboxAccess w)
          = Some entry
          /\ In u (snd entry) /\ id u = assigneeId /\ role u = assigneeRole
          /\ (assigneeRole = CORE \/ assigneeRole = NON_CORE))
    /\ (assigneeStatus = online \/ assigneeStatus = busy)
    /\ assigneeWorkload
       = openConversationCount (c_mailboxId conversation) assigneeId w
    /\ find (fun c => c_id c =? conversationId) (conversations w')
       = Some {| c_id := c_id conversation; c_mailboxId := c_mailboxId conversation;
                 c_open := c_open conversation; assignedToId := Some assigneeId;
                 mergedIntoId := mergedIntoId conversation;
                 subject := subject conversation;
                 messages := messages conversation |}
    /\ (forall c, In c (conversations w) -> c_id c <> conversationId ->
                  In c (conversations w'))
    /\ (exists note,
          conversationNotes w' = (conversationNotes w ++ [(conversationId, note)])%list)
    /\ (assigneeId <> "" ->
        forall later,
          autoAssignConversation publishToRealtime runAIObjectQuery conversationId
            later w'
          = (Returned (Skipped "Skipped: already assigned" None None), w')).
Proof.
  destruct (autoAssignConversation_assigned publishToRealtime runAIObjectQuery
              _ _ _ _ _ _ _ _ _ _ _ Hassigned)
    as (conversation & mailbox & entry & next & m & w1 & w2 & Hc & Hun & Hnm & Hmb
        & Hacc & Hnext & Hsel & Hrec & Hw' & Hid & Hrole & Hstatus & Hwl).
  assert (Hcid : c_id conversation = conversationId).
  { apply find_some in Hc. destruct Hc as [_ Hc]. now apply Z.eqb_eq in Hc. }
  assert (Hmid : mb_id mailbox = c_mailboxId conversation).
  { apply find_some in Hmb. destruct Hmb as [_ Hmb]. now apply Z.eqb_eq in Hmb. }
  pose proof (getNextTeamMember_member runAIObjectQuery _ _ _ _ _ _ _ Hnext Hsel) as Hin.
  destruct (availableMembersOf_spec
              (filter (fun u => isActiveRole (role u)) (snd entry)) (mb_id mailbox) w)
    as [Hsound _].
  destruct (Hsound m Hin) as (Hu & _ & Hst & Hload & _).
  apply filter_In in Hu. destruct Hu as [Hu Hactive].
  pose proof (getNextTeamMember_exceptCache runAIObjectQuery
                (filter (fun u => isActiveRole (role u)) (snd entry))
                conversation mailbox w) as Hframe1.
  rewrite Hnext in Hframe1. cbn [snd] in Hframe1.
  destruct Hframe1 as (_ & _ & Hconv1 & Hnotes1 & _).
  pose proof (recordUserActivity_other_tables publishToRealtime
                (id (user m)) (mb_id mailbox) now w1) as Hframe2.
  rewrite Hrec in Hframe2. cbn [snd] in Hframe2.
  destruct Hframe2 as (Hconv2 & Hnotes2 & _).
  assert (Hconvs : conversations w'
                   = map (fun c =>
                            if c_id c =? conversationId
                            then {| c_id := c_id c; c_mailboxId := c_mailboxId c;
                                    c_open := c_open c;
                                    assignedToId := Some assigneeId;
                                    mergedIntoId := mergedIntoId c;
                                    subject := subject c; messages := messages c |}
                            else c) (conversations w)).
  { rewrite Hw', Hid, <- Hcid. unfold updateConversation, modify.
    cbn [snd conversations set_conversations]. now rewrite Hconv2, Hconv1. }
  assert (Hstored : find (fun c => c_id c =? conversationId) (conversations w')
                    = Some {| c_id := c_id conversation;
                              c_mailboxId := c_mailboxId conversation;
                              c_open := c_open conversation;
                              assignedToId := Some assigneeId;
                              mergedIntoId := mergedIntoId conversation;
                              subject := subject conversation;
                              messages := messages conversation |}).
  { rewrite Hconvs.
    rewrite (find_map_if (fun c => c_id c =? conversationId)) by reflexivity.
    now rewrite Hc. }
  exists conversation.
  split; [exact Hc|]. split; [exact Hun|]. split; [exact Hnm|].
  split.
  { exists entry, (user m). rewrite <- Hmid.
    split; [exact Hacc|]. split; [exact Hu|].
    split; [now rewrite Hid|]. split; [now rewrite Hrole|].
    rewrite Hrole. unfold isActiveRole in Hactive.
    destruct (role (user m)); simpl in Hactive; try discriminate; auto. }
  split; [now rewrite Hstatus|].
  split; [now rewrite Hwl, Hload, Hmid, Hid|].
  split; [exact Hstored|].
  split.
  { intros c Hcin Hne. rewrite Hconvs. apply in_map_iff. exists c.
    split; [|exact Hcin].
    destruct (Z.eqb_spec (c_id c) conversationId); [contradiction | reflexivity]. }
  split.
  { eexists. rewrite Hw', <- Hcid. unfold updateConversation, modify.
    cbn [snd conversationNotes set_conversations].
    now rewrite Hnotes2, Hnotes1. }
  intros Hnonempty later.
  unfold autoAssignConversation, bind, gets. rewrite Hstored.
  cbn [assertDefined ret assignedToId truthyString].
  destruct (String.eqb_spec assigneeId ""); [contradiction | reflexivity].
Qed.

End JobWrites.

Lemma X13_assignment_commits_witness :
  exists w',
    autoAssignConversation (fun _ => true) matcherDown 4 5000 busyAtThreeWorld
    = (Returned
         (Assigned "Assigned conversation 4 to Uma (u1)" NON_CORE "u1" busy 3 None
            (Some {| totalAvailable := 1; onlineMembers := 0; busyMembers := 1;
                     averageWorkload := 3 |})), w')
    /\ autoAssignConversation (fun _ => true) matcherDown 4 9000 w'
       = (Returned (Skipped "Skipped: already assigned" None None), w').
Proof.
  set (r := autoAssignConversation (fun _ => true) matcherDown 4 5000 busyAtThreeWorld).
  assert (H : r = (Returned
                     (Assigned "Assigned conversation 4 to Uma (u1)" NON_CORE "u1"
                        busy 3 None
                        (Some {| totalAvailable := 1; onlineMembers := 0;
                                 busyMembers := 1; averageWorkload := 3 |})),
                   snd r))
    by (vm_compute; reflexivity).
  exists (snd r). split; [exact H|].
  destruct (X13_assignment_commits (fun _ => true) matcherDown 4 5000
              busyAtThreeWorld (snd r) _ _ _ _ _ _ _ H)
    as (c & _ & _ & _ & _ & _ & _ & _ & _ & _ & Hskip).
  apply Hskip. discriminate.
Defined.

Section NobodyAvailable.

Variable publishToRealtime : RealtimeEvent -> bool.
Variable runAIObjectQuery :
  Mailbox -> list AvailableTeamMember -> string -> option AIResult.

(** X14: when the roster of the conversation's mailbox has core or
    non-core members but none of them is available (online or busy with a
    row in the mailbox), the choice of the next member returns no member with
    the error text, and the job returns a skip carrying that text as
    details; the matcher is not asked (so even a failing matcher does not
    matter), the cursor is not touched and nothing is written. *)
Theorem X14_nobody_available_is_a_skip
    (conversationId now : Z) (w : World)
    (conversation : Conversation) (mailbox : Mailbox)
    (entry : Z * list UserWithMailboxAccessData)
    (Hfound : find (fun c => c_id c =? conversationId) (conversations w)
              = Some conversation)
    (Hunassigned : truthyString (assignedToId conversation) = false)
    (Hunmerged : truthyNumber (mergedIntoId conversation) = false)
    (Hmailbox : find (fun m => mb_id m =? c_mailboxId conversation) (mailboxes w)
                = Some mailbox)
    (Haccess : find (fun e => fst e =? mb_id mailbox) (mailboxAccess w) = Some entry)
    (Hactive : filter (fun m => isActiveRole (role m)) (snd entry) <> [])
    (Hnobody : availableMembersOf
                 (filter (fun m => isActiveRole (role m)) (snd entry))
                 (mb_id mailbox) w = []) :
  getNextTeamMember runAIObjectQuery
    (filter (fun m => isActiveRole (role m)) (snd entry)) conversation mailbox w
  = (Returned {| n_member := None; n_aiResult := None;
                 n_error := Some "No team members available for assignment";
                 n_availabilityMetrics := None |}, w)
  /\ autoAssignConversation publishToRealtime runAIObjectQuery conversationId now w
     = (Returned
          (Skipped "Skipped: could not find suitable team member for assignment"
             (Some "No team members available for assignment") None), w).
Proof.
  assert (Hnext : getNextTeamMember runAIObjectQuery
                    (filter (fun m => isActiveRole (role m)) (snd entry))
                    conversation mailbox w
                  = (Returned {| n_member := None; n_aiResult := None;
                                 n_error := Some "No team members available for assignment";
                                 n_availabilityMetrics := None |}, w)).
  { unfold getNextTeamMember, bind.
    rewrite getAvailableTeamMembers_reads, Hnobody. reflexivity. }
  split; [exact Hnext|].
  unfold autoAssignConversation, getMailboxById, getUsersWithMailboxAccess,
    bind, gets.
  rewrite Hfound. cbn [assertDefined ret]. rewrite Hunassigned, Hunmerged.
  rewrite Hmailbox. cbn [assertDefined ret]. rewrite Haccess.
  cbn [option_map assertDefined ret]. rewrite length_is_zero.
  destruct (filter (fun m => isActiveRole (role m)) (snd entry)) eqn:E;
    [now elim Hactive|].
  rewrite Hnext. reflexivity.
Qed.

End NobodyAvailable.

Lemma X14_nobody_available_is_a_skip_witness :
  availableMembersOf (filter (fun m => isActiveRole (role m)) [keywordMember]) 1
    awayRosterWorld = []
  /\ autoAssignConversation (fun _ => true) matcherDown 4 5000 awayRosterWorld
     = (Returned
          (Skipped "Skipped: could not find suitable team member for assignment"
             (Some "No team members available for assignment") None),
        awayRosterWorld).
Proof.
  split; [reflexivity|].
  apply (X14_nobody_available_is_a_skip (fun _ => true) matcherDown 4 5000
           awayRosterWorld
           {| c_id := 4; c_mailboxId := 1; c_open := true; assignedToId := None;
              mergedIntoId := None; subject := Some "Refund for invoice";
              messages := [] |}
           {| mb_id := 1 |} (1, [keywordMember]));
    try reflexivity; discriminate.
Defined.

(** ** What the analytics count *)

Lemma countWhere_cons {A} (p : A -> bool) a l :
  countWhere p (a :: l) = (if p a then 1 else 0) + countWhere p l.
Proof.
  unfold countWhere. cbn [filter].
  destruct (p a); [cbn [List.length]; rewrite Nat2Z.inj_succ; lia | lia].
Qed.

Lemma sumOf_cons {A} (f : A -> Z) a l : sumOf f (a :: l) = f a + sumOf f l.
Proof. reflexivity. Qed.

Lemma countWhere_js_insert {A} (cmp : A -> A -> Z) p x l :
  countWhere p (js_insert cmp x l) = countWhere p (x :: l).
Proof.
  induction l as [|y l IH]; [reflexivity|].
  simpl. destruct (cmp x y <=? 0); [reflexivity|].
  rewrite countWhere_cons, IH, !countWhere_cons. lia.
Qed.

Lemma countWhere_js_sort {A} (cmp : A -> A -> Z) p l :
  countWhere p (js_sort cmp l) = countWhere p l.
Proof.
  induction l as [|x l IH]; [reflexivity|].
  simpl. rewrite countWhere_js_insert, !countWhere_cons, IH. reflexivity.
Qed.

Lemma sumOf_js_insert {A} (cmp : A -> A -> Z) f x l :
  sumOf f (js_insert cmp x l) = sumOf f (x :: l).
Proof.
  induction l as [|y l IH]; [reflexivity|].
  simpl. destruct (cmp x y <=? 0); [reflexivity|].
  simpl in *. rewrite IH. lia.
Qed.

Lemma sumOf_js_sort {A} (cmp : A -> A -> Z) f l :
  sumOf f (js_sort cmp l) = sumOf f l.
Proof.
  induction l as [|x l IH]; [reflexivity|].
  simpl. rewrite sumOf_js_insert. simpl. now rewrite IH.
Qed.

Lemma statusCount_bump s s' d :
  statusCount s (bump s' d) = statusCount s d + (if status_eqb s' s then 1 else 0).
Proof. destruct s, s'; simpl; lia. Qed.

Lemma analyticsStep_fields acc h :
  let t := analyticsStep acc h in
  totalDuration t = totalDuration acc + countedDuration h
  /\ (forall s, statusCount s (distribution t)
                = statusCount s (distribution acc)
                  + (if timed h && status_eqb (fromStatus h) s then 1 else 0))
  /\ totalConversations t = totalConversations acc + handledIn h
  /\ totalMessages t = totalMessages acc + repliedIn h.
Proof.
  unfold analyticsStep, timed, countedDuration, handledIn, repliedIn.
  destruct (truthyDuration (durationSeconds h)) as [d|];
    destruct (sessionData h) as [sd|];
    try destruct (truthyResponseTime (averageResponseTime sd));
    cbv zeta;
    cbn [totalDuration distribution totalConversations totalMessages orElse andb];
    (split; [lia|]); (split; [|split; lia]);
    intros s; try rewrite statusCount_bump; lia.
Qed.

Lemma fold_analytics l :
  forall acc,
    let t := fold_left analyticsStep l acc in
    totalDuration t = totalDuration acc + sumOf countedDuration l
    /\ (forall s, statusCount s (distribution t)
                  = statusCount s (distribution acc)
                    + countWhere (fun h => timed h && status_eqb (fromStatus h) s) l)
    /\ totalConversations t = totalConversations acc + sumOf handledIn l
    /\ totalMessages t = totalMessages acc + sumOf repliedIn l.
Proof.
  induction l as [|h l IH]; intros acc.
  - cbn. unfold countWhere. cbn. repeat split; try lia; intros s; lia.
  - cbn [fold_left].
    destruct (IH (analyticsStep acc h)) as (H1 & H2 & H3 & H4).
    destruct (analyticsStep_fields acc h) as (S1 & S2 & S3 & S4).
    cbv zeta. rewrite H1, H3, H4, S1, S3, S4, !sumOf_cons.
    split; [lia|]. split; [|split; lia].
    intros s. rewrite H2, S2, countWhere_cons. lia.
Qed.

(** X15: what the analytics of a mailbox and a date range count.  The
    call changes nothing.  The number of sessions is the number of history
    rows of that mailbox created inside the range (bounds included); the
    counter of each status is the number of those rows that left this status
    with a duration that is recorded and not zero; the conversations handled
    and the messages replied are the sums over the rows that carry session
    data; the timeline is always empty; and over an empty range both averages
    are zero. *)
Theorem X15_analytics_counts (mid startDate endDate : Z) (w : World) :
  let rows := filter (inRange mid startDate endDate) (availabilityHistory w) in
  exists analytics,
    getAvailabilityAnalytics mid startDate endDate w = (Returned analytics, w)
    /\ totalSessions analytics = Z.of_nat (List.length rows)
    /\ (forall s,
          statusCount s (statusDistribution analytics)
          = countWhere (fun h => timed h && status_eqb (fromStatus h) s) rows)
    /\ totalConversationsHandled (productivityMetrics analytics) = sumOf handledIn rows
    /\ totalMessagesReplied (productivityMetrics analytics) = sumOf repliedIn rows
    /\ timelineData analytics = []
    /\ (rows = [] ->
        averageSessionDuration analytics = 0%Q
        /\ p_averageResponseTime (productivityMetrics analytics) = 0%Q).
Proof.
  intros rows. eexists. split; [reflexivity|].
  unfold historyInRange. fold (inRange mid startDate endDate). fold rows.
  set (sorted := js_sort _ rows).
  destruct (fold_analytics sorted initialTotals) as (H1 & H2 & H3 & H4).
  cbv zeta in *. unfold analyze.
  cbn [totalSessions statusDistribution productivityMetrics
       totalConversationsHandled totalMessagesReplied timelineData
       averageSessionDuration p_averageResponseTime].
  split; [unfold sorted; now rewrite js_sort_length|].
  split.
  { intros s. rewrite H2. unfold sorted. rewrite countWhere_js_sort.
    destruct s; reflexivity. }
  split; [rewrite H3; unfold sorted; now rewrite sumOf_js_sort|].
  split; [rewrite H4; unfold sorted; now rewrite sumOf_js_sort|].
  split; [reflexivity|].
  intros Hempty. unfold sorted. rewrite Hempty. split; reflexivity.
Qed.

(** ** The denominator of the average session duration *)







(** ** The text of a conversation *)

Lemma userMessages_filter (ms : list Message) :
  filter (fun s => negb (String.eqb s ""))
    (map (fun msg => orElse (cleanedUpText msg) "")
       (filter (fun msg => String.eqb (m_role msg) "user") ms))
  = map (fun m => orElse (cleanedUpText m) "") (filter hasUserText ms).
Proof.
  induction ms as [|m ms IH]; [reflexivity|].
  unfold hasUserText in *. cbn [filter].
  destruct (String.eqb (m_role m) "user"); cbn [andb map filter]; [|exact IH].
  destruct (negb (String.eqb (orElse (cleanedUpText m) "") "")); cbn [map];
    now rewrite IH.
Qed.

Lemma getConversationContent_join c :
  getConversationContent c = join " " (subjectPart c ++ userTexts c).
Proof.
  unfold getConversationContent, subjectPart, userTexts.
  destruct (messages c) as [|m ms] eqn:E.
  - cbn [filter map]. rewrite app_nil_r.
    destruct (subject c) as [s|]; [|reflexivity].
    cbn [orElse]. destruct (String.eqb_spec s ""); [now subst | reflexivity].
  - rewrite userMessages_filter.
    destruct (subject c) as [s|]; [|reflexivity].
    destruct (String.eqb s ""); reflexivity.
Qed.

Lemma filter_hasUserText_idem ms :
  filter hasUserText (filter hasUserText ms) = filter hasUserText ms.
Proof.
  induction ms as [|m ms IH]; [reflexivity|].
  cbn [filter]. destruct (hasUserText m) eqn:E; [|exact IH].
  cbn [filter]. now rewrite E, IH.
Qed.

Lemma concat_nonempty sep (parts : list string) :
  (forall p, In p parts -> p <> "") -> String.concat sep parts = "" -> parts = [].
Proof.
  destruct parts as [|p ps]; [reflexivity|].
  intros Hne Hc. exfalso.
  assert (Hp : p <> "") by (apply Hne; now left).
  destruct p as [|a p']; [now apply Hp|].
  destruct ps; simpl in Hc; discriminate.
Qed.

(** X16: the text of a conversation is the subject, when it is present
    and not empty, followed by the cleaned-up texts of the user's messages
    that are not empty, joined by single spaces.  Messages of other roles and
    messages without text never change it, and it is empty exactly when the
    conversation has neither such a subject nor such a message (the case in
    which the expertise matcher is not asked). *)
Theorem X16_conversation_text (c : Conversation) :
  getConversationContent c = join " " (subjectPart c ++ userTexts c)
  /\ getConversationContent c
     = getConversationContent (withMessages c (filter hasUserText (messages c)))
  /\ (getConversationContent c = "" <->
      truthyString (subject c) = false /\ filter hasUserText (messages c) = []).
Proof.
  split; [apply getConversationContent_join|]. split.
  - rewrite !getConversationContent_join. unfold userTexts, subjectPart.
    cbn [messages subject withMessages]. now rewrite filter_hasUserText_idem.
  - rewrite getConversationContent_join. split.
    + intros Hempty. apply concat_nonempty in Hempty.
      * apply app_eq_nil in Hempty. destruct Hempty as [Hs Hu].
        split.
        -- unfold subjectPart in Hs. unfold truthyString.
           destruct (subject c) as [s|]; [|reflexivity].
           destruct (String.eqb s ""); [reflexivity | discriminate].
        -- unfold userTexts in Hu. now apply map_eq_nil in Hu.
      * intros p Hp. apply in_app_iff in Hp. destruct Hp as [Hp|Hp].
        -- unfold subjectPart in Hp. destruct (subject c) as [s|]; [|destruct Hp].
           destruct (String.eqb_spec s ""); [destruct Hp|].
           destruct Hp as [<-|[]]. assumption.
        -- unfold userTexts in Hp. apply in_map_iff in Hp.
           destruct Hp as [m [<- Hm]]. apply filter_In in Hm.
           destruct Hm as [_ Hm]. unfold hasUserText in Hm.
           apply andb_true_iff in Hm. destruct Hm as [_ Hm].
           intros E. rewrite E in Hm. discriminate.
    + intros [Hs Hu]. unfold userTexts. rewrite Hu. cbn [map]. rewrite app_nil_r.
      unfold subjectPart, truthyString in *.
      destruct (subject c) as [s|]; [|reflexivity].
      destruct (String.eqb s ""); [reflexivity | discriminate].
Qed.

(** ** The endpoints fail closed *)

Lemma rethrowAs_cases {A} msg (t : Task A) w :
  rethrowAs msg t w
  = match t w with
    | (Returned a, w') => (Returned a, w')
    | (Thrown _, w') => (Thrown msg, w')
    end.
Proof. reflexivity. Qed.

Section Endpoints.

Variable publishToRealtime : RealtimeEvent -> bool.

Lemma guarded_update msg uid mid updates now w :
  match rethrowAs msg (updateUserAvailability publishToRealtime uid mid updates now) w with
  | (Returned r, w') =>
      updateUserAvailability publishToRealtime uid mid updates now w = (Returned r, w')
      /\ getUserAvailability uid mid w' = (Returned (Some r), w')
  | (Thrown m, w') => m = msg /\ w' = w
  end.
Proof.
  rewrite rethrowAs_cases.
  destruct (updateUserAvailability_cases publishToRealtime uid mid updates now w)
    as [-> | (r & w' & -> & Hread & _)]; [now split|].
  now split.
Qed.

(** X21: the three guarded endpoints ([updateStatus],
    [setBusinessHours], [setScheduledReturn]) either return the record that
    a lookup of the caller's pair reads afterwards, or throw their own fixed
    message and leave the world exactly as it was.  The activity endpoint has
    no guard: it returns success, or throws the error of the failed broadcast
    unchanged, again with the world as it was. *)
Theorem X21_endpoints_fail_closed
    (uid : string) (mid : Z) (now : Z) (w : World)
    (newStatus : AvailabilityStatus) (message : option (option string))
    (hours : BusinessHours) (returnAt : Z) (note : option string) :
  match updateStatus publishToRealtime uid mid newStatus message now w with
  | (Returned r, w') => getUserAvailability uid mid w' = (Returned (Some r), w')
  | (Thrown m, w') => m = "Failed to update availability status" /\ w' = w
  end
  /\ match setBusinessHours publishToRealtime uid mid hours now w with
     | (Returned r, w') => getUserAvailability uid mid w' = (Returned (Some r), w')
     | (Thrown m, w') => m = "Failed to update business hours" /\ w' = w
     end
  /\ match setScheduledReturn publishToRealtime uid mid returnAt note now w with
     | (Returned r, w') => getUserAvailability uid mid w' = (Returned (Some r), w')
     | (Thrown m, w') => m = "Failed to set scheduled return" /\ w' = w
     end
  /\ match recordActivity publishToRealtime uid mid now w with
     | (Returned success, _) => success = true
     | (Thrown m, w') => m = "Failed to publish" /\ w' = w
     end.
Proof.
  split; [|split; [|split]].
  - unfold updateStatus.
    match goal with
    | |- context [rethrowAs ?m (updateUserAvailability _ _ _ ?u _) _] =>
        pose proof (guarded_update m uid mid u now w) as H
    end.
    destruct (rethrowAs _ _ w) as [[r|m] w']; [apply H | exact H].
  - unfold setBusinessHours.
    match goal with
    | |- context [rethrowAs ?m (updateUserAvailability _ _ _ ?u _) _] =>
        pose proof (guarded_update m uid mid u now w) as H
    end.
    destruct (rethrowAs _ _ w) as [[r|m] w']; [apply H | exact H].
  - unfold setScheduledReturn.
    match goal with
    | |- context [rethrowAs ?m (updateUserAvailability _ _ _ ?u _) _] =>
        pose proof (guarded_update m uid mid u now w) as H
    end.
    destruct (rethrowAs _ _ w) as [[r|m] w']; [apply H | exact H].
  - unfold recordActivity, recordUserActivity, getUserAvailability, bind at 1 2, gets.
    destruct (find (sameKey uid mid) (userAvailability w)) as [cur|];
      unfold bind;
      match goal with
      | |- context [updateUserAvailability _ _ _ ?u _ w] =>
          destruct (updateUserAvailability_cases publishToRealtime uid mid u now w)
            as [-> | (r & w' & -> & _)]
      end; cbn; auto.
Qed.

End Endpoints.

(** ** The client: what the hooks show *)

Lemma onOwnAvailabilityUpdated_cases currentUser view e :
  (option_string_eqb currentUser (userId e) = true
   /\ lastUpdateTime view < lastStatusChangeAt e
   /\ lastUpdateTime (onOwnAvailabilityUpdated currentUser view e) = lastStatusChangeAt e
   /\ v_status (onOwnAvailabilityUpdated currentUser view e) = Some (status e))
  \/ ((option_string_eqb currentUser (userId e) = false
       \/ lastStatusChangeAt e <= lastUpdateTime view)
      /\ onOwnAvailabilityUpdated currentUser view e = view).
Proof.
  unfold onOwnAvailabilityUpdated.
  destruct (option_string_eqb currentUser (userId e)); [|right; auto].
  cbv zeta. destruct (Z.ltb_spec (lastUpdateTime view) (lastStatusChangeAt e)).
  - left. repeat split. assumption.
  - right. auto.
Qed.

(** X17: the view of the member's own status.  Over any sequence of
    events, each handled on the state the previous one left, the update time
    never goes back and ends at or above the [lastStatusChangeAt] of every
    event of the current user; the view is either untouched or shows the
    status of an event of the current user whose [lastStatusChangeAt] is the
    final update time; events of other users, and events that are not
    strictly newer than what was seen, change nothing. *)
Theorem X17_own_status_view_is_monotone
    (currentUser : option string) (events : list UserAvailabilityData)
    (view : StatusView) :
  let final := fold_left (onOwnAvailabilityUpdated currentUser) events view in
  lastUpdateTime view <= lastUpdateTime final
  /\ (forall e, In e events -> option_string_eqb currentUser (userId e) = true ->
                lastStatusChangeAt e <= lastUpdateTime final)
  /\ (final = view
      \/ exists e, In e events
                   /\ option_string_eqb currentUser (userId e) = true
                   /\ lastStatusChangeAt e = lastUpdateTime final
                   /\ v_status final = Some (status e)
                   /\ lastUpdateTime view < lastStatusChangeAt e)
  /\ ((forall e, In e events ->
                 option_string_eqb currentUser (userId e) = false
                 \/ lastStatusChangeAt e <= lastUpdateTime view) ->
      final = view).
Proof.
  revert view. induction events as [|e events IH]; intros view; cbv zeta.
  - cbn. split; [lia|]. split; [intros e []|]. split; [now left | reflexivity].
  - cbn [fold_left].
    destruct (IH (onOwnAvailabilityUpdated currentUser view e))
      as (Hmono & Hall & Hshown & Hstale).
    destruct (onOwnAvailabilityUpdated_cases currentUser view e)
      as [(Hown & Hnewer & Htime & Hstatus) | (Hskip & Hsame)].
    + split; [lia|]. split.
      { intros e' [<-|He'] Hmine; [lia | now apply Hall]. }
      split.
      { right. destruct Hshown as [Hfinal | (e' & He' & Hmine & Ht & Hs & Hlt)].
        - exists e. rewrite Hfinal. repeat split; auto. now left.
        - exists e'. repeat split; auto; [now right | lia]. }
      intros Hnone. exfalso.
      destruct (Hnone e (or_introl eq_refl)) as [H|H]; [congruence | lia].
    + rewrite Hsame in *. split; [exact Hmono|]. split.
      { intros e' [<-|He'] Hmine; [|now apply Hall].
        destruct Hskip as [H|H]; [congruence | lia]. }
      split.
      { destruct Hshown as [Hfinal | (e' & He' & Hmine & Ht & Hs & Hlt)];
          [now left|].
        right. exists e'. repeat split; auto. now right. }
      intros Hnone. apply Hstale. intros e' He'. apply Hnone. now right.
Qed.

Lemma getProperty_setProperty key key' value obj :
  getProperty key (setProperty key' value obj)
  = if String.eqb key' key then Some value else getProperty key obj.
Proof.
  unfold getProperty.
  induction obj as [|[k v] rest IH]; cbn [setProperty find fst].
  - destruct (String.eqb key' key); reflexivity.
  - destruct (String.eqb_spec k key') as [->|Hk]; cbn [find fst].
    + destruct (String.eqb key' key); reflexivity.
    + destruct (String.eqb_spec k key) as [->|Hk2].
      * destruct (String.eqb_spec key' key) as [->|_]; [contradiction | reflexivity].
      * exact IH.
Qed.

Lemma find_snoc {A} (p : A -> bool) l x :
  find p (l ++ [x])
  = match find p l with
    | Some y => Some y
    | None => if p x then Some x else None
    end.
Proof.
  induction l as [|a l IH]; simpl; [reflexivity|].
  destruct (p a); [reflexivity | exact IH].
Qed.

(** X18: the team view keeps, for every user, the payload of the last
    event received for that user, whatever the timestamps of the payloads
    say (there is no staleness test here), and keeps what it had for users
    without an event. *)
Theorem X18_team_view_keeps_last_event
    (events : list UserAvailabilityData)
    (prev : list (string * UserAvailabilityData)) (uid : string) :
  getProperty uid (fold_left onTeamAvailabilityUpdated events prev)
  = match find (fun e => String.eqb (userId e) uid) (rev events) with
    | Some e => Some e
    | None => getProperty uid prev
    end.
Proof.
  revert prev. induction events as [|e events IH]; intros prev; [reflexivity|].
  cbn [fold_left rev]. rewrite IH, find_snoc.
  destruct (find (fun e0 => String.eqb (userId e0) uid) (rev events));
    [reflexivity|].
  unfold onTeamAvailabilityUpdated. rewrite getProperty_setProperty.
  destruct (String.eqb (userId e) uid); reflexivity.
Qed.

(** ** From the dropdown to the view *)

(** X19: a choice in the status dropdown, with the broadcast working,
    for a member with or without a stored record.  The call returns the
    record that is stored afterwards: it has the chosen status, is stamped
    with the time of the call, and its message is the text passed, or none
    when no text or an empty text is passed, so a click on a status option
    clears a message set before.  The event appended to the realtime log
    carries this record, and the member's own view, if it has seen nothing as
    recent, shows exactly this status and message on receiving it. *)
Theorem X19_dropdown_choice_reaches_the_view
    (publishToRealtime : RealtimeEvent -> bool)
    (uid : string) (mid : Z) (newStatus : AvailabilityStatus)
    (message : option string) (now : Z) (w : World)
    (Hpublish : forall e, publishToRealtime e = true) :
  exists r w',
    handleStatusChange publishToRealtime uid mid newStatus message now w
    = (Returned r, w')
    /\ getUserAvailability uid mid w' = (Returned (Some r), w')
    /\ status r = newStatus
    /\ lastStatusChangeAt r = now
    /\ customMessage r
       = match message with
         | Some text => if String.eqb text "" then None else Some text
         | None => None
         end
    /\ realtimeLog w' = (realtimeLog w ++ [updatedEvent mid r])%list
    /\ (forall view,
          lastUpdateTime view < now ->
          onOwnAvailabilityUpdated (Some uid) view r
          = {| v_status := Some newStatus; v_customMessage := customMessage r;
               lastUpdateTime := now |})
    /\ (forall view other,
          other <> uid -> onOwnAvailabilityUpdated (Some other) view r = view).
Proof.
  unfold handleStatusChange, updateStatus. rewrite rethrowAs_cases.
  set (u := {| u_status := Some newStatus; u_customMessage := Some _;
               u_lastActivityAt := None; u_lastStatusChangeAt := None;
               u_autoAwayAt := None; u_scheduledReturnAt := None;
               u_businessHours := None; u_changeReason := Some manual;
               u_sessionData := None |}).
  destruct (updateUserAvailability_cases publishToRealtime uid mid u now w)
    as [Hthrown | (r & w' & Hrun & Hread & Hlog & Huid & Hmid)].
  - exfalso.
    destruct (find (sameKey uid mid) (userAvailability w)) as [cur|] eqn:Hfind.
    + rewrite (updateUserAvailability_existing _ _ _ _ _ _ _ Hfind) in Hthrown.
      cbv zeta in Hthrown. now rewrite Hpublish in Hthrown.
    + rewrite (updateUserAvailability_created _ _ _ _ _ _ Hfind) in Hthrown.
      cbv zeta in Hthrown. now rewrite Hpublish in Hthrown.
  - assert (Hfields : status r = newStatus /\ lastStatusChangeAt r = now
                      /\ customMessage r
                         = match message with
                           | Some text => if String.eqb text "" then None else Some text
                           | None => None
                           end).
    { destruct (find (sameKey uid mid) (userAvailability w)) as [cur|] eqn:Hfind.
      - rewrite (updateUserAvailability_existing _ _ _ _ _ _ _ Hfind) in Hrun.
        cbv zeta in Hrun. rewrite Hpublish in Hrun.
        injection Hrun as <- _. repeat split.
      - rewrite (updateUserAvailability_created _ _ _ _ _ _ Hfind) in Hrun.
        cbv zeta in Hrun. rewrite Hpublish in Hrun.
        injection Hrun as <- _. repeat split. }
    destruct Hfields as (Hs & Ht & Hm).
    exists r, w'. rewrite Hrun.
    split; [reflexivity|]. split; [exact Hread|]. split; [exact Hs|].
    split; [exact Ht|]. split; [exact Hm|]. split; [exact Hlog|]. split.
    + intros view Hnew. unfold onOwnAvailabilityUpdated.
      cbn [option_string_eqb]. rewrite Huid, String.eqb_refl, Ht. cbv zeta.
      destruct (Z.ltb_spec (lastUpdateTime view) now); [|lia].
      rewrite Hs. f_equal. rewrite Hm.
      destruct message as [text|]; [|reflexivity].
      destruct (String.eqb text "") eqn:E; [reflexivity | now rewrite E].
    + intros view other Hother. unfold onOwnAvailabilityUpdated.
      cbn [option_string_eqb]. rewrite Huid.
      destruct (String.eqb_spec other uid); [contradiction | reflexivity].
Qed.

Lemma X19_dropdown_choice_reaches_the_view_witness :
  (forall e : RealtimeEvent, (fun _ : RealtimeEvent => true) e = true)
  /\ exists r w',
       handleStatusChange (fun _ => true) "u1" 1 busy None 61000 onlineWorld
       = (Returned r, w')
       /\ status r = busy /\ customMessage r = None.
Proof.
  split; [reflexivity|].
  destruct (X19_dropdown_choice_reaches_the_view (fun _ => true) "u1" 1 busy None
              61000 onlineWorld (fun _ => eq_refl))
    as (r & w' & Hrun & _ & Hs & _ & Hm & _).
  exists r, w'. repeat split; assumption.
Defined.

(** ** The team list and the workload distribution *)

(** X20: the team list of a mailbox holds exactly the availability rows
    of that mailbox, as many as the table has, ordered from the most recent
    [lastActivityAt] to the oldest; the workload distribution has one entry
    per such row, in the same order, flagged assignable exactly when the
    status is online or busy, with a workload that is the number of open
    conversations of the mailbox assigned to the user and is never negative.
    Neither call changes anything. *)
Theorem X20_team_list_is_complete_and_sorted (mid : Z) (w : World) :
  exists rows,
    getAllTeamAvailability mid w = (Returned rows, w)
    /\ (forall r, In r rows <-> In r (userAvailability w) /\ mailboxId r = mid)
    /\ List.length rows
       = List.length (filter (fun r => mailboxId r =? mid) (userAvailability w))
    /\ StronglySorted (fun a b => lastActivityAt b <= lastActivityAt a) rows
    /\ getTeamWorkloadDistribution mid w
       = (Returned
            (map (fun r => {| w_availability := r;
                              w_currentWorkload := openConversationCount mid (userId r) w;
                              w_isAvailableForAssignment := isAssignable (status r) |})
                 rows), w)
    /\ (forall r, 0 <= openConversationCount mid (userId r) w)
    /\ (forall r, isAssignable (status r) = true <-> status r = online \/ status r = busy).
Proof.
  eexists. split; [reflexivity|]. split.
  { intros r. rewrite js_sort_In, filter_In, Z.eqb_eq. reflexivity. }
  split; [apply js_sort_length|]. split.
  { assert (Hs : StronglySorted
                   (precedes (fun a b => lastActivityAt b - lastActivityAt a))
                   (js_sort (fun a b => lastActivityAt b - lastActivityAt a)
                      (filter (fun r => mailboxId r =? mid) (userAvailability w)))).
    { apply js_sort_sorted; intros; lia. }
    revert Hs. generalize (js_sort (fun a b => lastActivityAt b - lastActivityAt a)
                             (filter (fun r => mailboxId r =? mid) (userAvailability w))).
    intros l Hs. induction Hs as [|a l Hs IH Hall]; constructor; [exact IH|].
    rewrite Forall_forall in *. intros b Hb. specialize (Hall b Hb).
    unfold precedes in Hall. lia. }
  split; [reflexivity|]. split.
  { intros r. unfold openConversationCount. lia. }
  intros r. unfold isAssignable. destruct (status r); simpl; split;
    intros H; try discriminate; auto; destruct H; discriminate.
Qed.

(** ** The sweep when nothing is due, and when the broadcast is down *)

Section SweepEdges.

Variable publishToRealtime : RealtimeEvent -> bool.

Lemma updateUserAvailability_broadcast_down uid mid updates now w :
  (forall e, publishToRealtime e = false) ->
  updateUserAvailability publishToRealtime uid mid updates now w
  = (Thrown "Failed to publish", w).
Proof.
  intros Hdown.
  destruct (find (sameKey uid mid) (userAvailability w)) as [cur|] eqn:Hfind.
  - rewrite (updateUserAvailability_existing _ _ _ _ _ _ _ Hfind). cbv zeta.
    now rewrite Hdown.
  - rewrite (updateUserAvailability_created _ _ _ _ _ _ Hfind). cbv zeta.
    now rewrite Hdown.
Qed.

Lemma sweep_loop_broadcast_down updates now sel w :
  (forall e, publishToRealtime e = false) ->
  forEach sel (fun user =>
    updateUserAvailability publishToRealtime (userId user) (mailboxId user)
      updates now ;;; ret tt) w
  = match sel with
    | [] => (Returned tt, w)
    | _ :: _ => (Thrown "Failed to publish", w)
    end.
Proof.
  intros Hdown. destruct sel as [|x sel]; [reflexivity|].
  cbn [forEach]. unfold bind.
  now rewrite updateUserAvailability_broadcast_down.
Qed.

Lemma processScheduledReturns_broadcast_down now w :
  (forall e, publishToRealtime e = false) ->
  processScheduledReturns publishToRealtime now w
  = match filter (dueForReturn now) (userAvailability w) with
    | [] => (Returned tt, w)
    | _ :: _ => (Thrown "Failed to publish", w)
    end.
Proof.
  intros Hdown. unfold processScheduledReturns, bind at 1. unfold gets.
  now rewrite sweep_loop_broadcast_down.
Qed.

Lemma processAutoAway_broadcast_down now w :
  (forall e, publishToRealtime e = false) ->
  processAutoAway publishToRealtime now w
  = match filter (dueForAutoAway now) (userAvailability w) with
    | [] => (Returned tt, w)
    | _ :: _ => (Thrown "Failed to publish", w)
    end.
Proof.
  intros Hdown. unfold processAutoAway, bind at 1. unfold gets.
  now rewrite sweep_loop_broadcast_down.
Qed.

(** X22: the edges of the sweep.  When no record is due in either pass,
    the sweep returns and the world is exactly what it was, whatever the
    broadcast does.  When the broadcast is down, the sweep changes nothing
    either: it throws at the first due record, so no record is transitioned,
    and a failure in the scheduled-return pass keeps the auto-away pass from
    running at all. *)
Theorem X22_sweep_edges (now : Z) (w : World) :
  (filter (dueForReturn now) (userAvailability w) = [] ->
   filter (dueForAutoAway now) (userAvailability w) = [] ->
   processScheduledStatusChanges publishToRealtime now w = (Returned tt, w))
  /\ ((forall e, publishToRealtime e = false) ->
      processScheduledStatusChanges publishToRealtime now w
      = match filter (dueForReturn now) (userAvailability w),
              filter (dueForAutoAway now) (userAvailability w) with
        | [], [] => (Returned tt, w)
        | _, _ => (Thrown "Failed to publish", w)
        end).
Proof.
  split.
  - intros Ha Hb.
    unfold processScheduledStatusChanges, processScheduledReturns, processAutoAway,
      bind, gets.
    rewrite Ha. cbn [forEach ret]. now rewrite Hb.
  - intros Hdown.
    unfold processScheduledStatusChanges. unfold bind at 1.
    rewrite processScheduledReturns_broadcast_down by exact Hdown.
    destruct (filter (dueForReturn now) (userAvailability w)); [|reflexivity].
    rewrite processAutoAway_broadcast_down by exact Hdown.
    destruct (filter (dueForAutoAway now) (userAvailability w)); reflexivity.
Qed.

End SweepEdges.

Lemma X22_sweep_edges_witness :
  filter (dueForReturn 6000) (userAvailability onlineWorld) = []
  /\ processScheduledStatusChanges (fun _ => false) 6000 onlineWorld
     = (Returned tt, onlineWorld)
  /\ processScheduledStatusChanges (fun _ => false) 6000 sweepWorld
     = (Thrown "Failed to publish", sweepWorld).
Proof.
  split; [reflexivity|]. split.
  - apply (X22_sweep_edges (fun _ => false) 6000 onlineWorld); reflexivity.
  - exact (proj2 (X22_sweep_edges (fun _ => false) 6000 sweepWorld) (fun _ => eq_refl)).
Defined.

(** ** The metrics returned with a selection *)

Lemma countStatus_online_busy (l : list AvailableTeamMember) :
  (forall m, In m l ->
             a_status (availability m) = online \/ a_status (availability m) = busy) ->
  countStatus online l + countStatus busy l = Z.of_nat (List.length l).
Proof.
  unfold countStatus. induction l as [|x l IH]; intros H; [reflexivity|].
  assert (Hx := H x (or_introl eq_refl)).
  assert (IH' := IH (fun m Hm => H m (or_intror Hm))).
  cbn [filter List.length].
  destruct Hx as [-> | ->]; cbn [status_eqb List.length];
    rewrite !Nat2Z.inj_succ; lia.
Qed.

Lemma workload_sum_non_negative (l : list AvailableTeamMember) (acc : Z) :
  (forall m, In m l -> 0 <= currentWorkload (availability m)) ->
  0 <= acc ->
  0 <= fold_left (fun sum m => sum + currentWorkload (availability m)) l acc.
Proof.
  revert acc. induction l as [|x l IH]; intros acc H Hacc; [exact Hacc|].
  cbn [fold_left]. apply IH.
  - intros m Hm. apply H. now right.
  - assert (Hx := H x (or_introl eq_refl)). lia.
Qed.

Section Metrics.

Variable runAIObjectQuery :
  Mailbox -> list AvailableTeamMember -> string -> option AIResult.

(** X23: the metrics of a selection describe everybody available, not
    only the members that were considered.  When the call returns metrics,
    somebody is available, no error is reported, [totalAvailable] is the
    number of available members and is at least one, every one of them is
    counted as online or as busy ([onlineMembers + busyMembers =
    totalAvailable]), and the average workload is not negative.  When it
    returns no metrics, nobody is available, no member is selected and the
    error is set.  The call throws only when somebody is available. *)
Theorem X23_metrics_cover_all_available
    (teamMembers : list UserWithMailboxAccessData)
    (conversation : Conversation) (mailbox : Mailbox) (w : World) :
  let available := availableMembersOf teamMembers (mb_id mailbox) w in
  match getNextTeamMember runAIObjectQuery teamMembers conversation mailbox w with
  | (Returned next, _) =>
      match n_availabilityMetrics next with
      | Some m =>
          available <> []
          /\ n_error next = None
          /\ totalAvailable m = Z.of_nat (List.length available)
          /\ 1 <= totalAvailable m
          /\ onlineMembers m + busyMembers m = totalAvailable m
          /\ (0 <= averageWorkload m)%Q
      | None =>
          available = []
          /\ n_member next = None
          /\ n_error next = Some "No team members available for assignment"
      end
  | (Thrown _, _) => available <> []
  end.
Proof.
  intros available.
  pose proof (availableMembersOf_spec teamMembers (mb_id mailbox) w) as [Hsound _].
  fold available in Hsound.
  unfold getNextTeamMember, bind at 1.
  rewrite getAvailableTeamMembers_reads. fold available.
  clearbody available.
  destruct available as [|a rest]; [cbn; auto|].
  remember (a :: rest) as available eqn:Eav.
  assert (Hne : available <> []) by (rewrite Eav; discriminate).
  assert (Hlen : 1 <= Z.of_nat (List.length available)).
  { rewrite Eav. cbn [List.length]. lia. }
  clear Eav.
  destruct (Z.eqb_spec (Z.of_nat (List.length available)) 0) as [E0|_]; [lia|].
  unfold bind at 1.
  pose proof (getExpertiseMatchingMembers_rows runAIObjectQuery
                (membersToConsider available)
                (getConversationContent conversation) mailbox w) as Hm.
  destruct (getExpertiseMatchingMembers _ _ _ _ _) as [[[ms ai]|msg] w0];
    simpl in Hm; subst w0; [|exact Hne].
  unfold bind.
  destruct (selectBestMember _ ms (mb_id mailbox) w) as [[sel|msg] w2];
    [|exact Hne].
  cbn [ret n_availabilityMetrics n_error totalAvailable onlineMembers busyMembers
       averageWorkload].
  repeat split; try assumption.
  - apply countStatus_online_busy. intros m Hin. now apply Hsound.
  - apply Qle_shift_div_l.
    + unfold Qlt. cbn. lia.
    + rewrite Qmult_0_l. unfold Qle. cbn. rewrite Z.mul_1_r.
      apply workload_sum_non_negative; [|lia].
      intros m Hin. destruct (Hsound m Hin) as (_ & _ & _ & -> & _).
      unfold openConversationCount. lia.
Qed.

End Metrics.
